(** * NOR_Analysis: grouping, merging, bout extraction and the
      Discrimination Index

    A shallow embedding of the data-shaping and metric pipeline of
    [src/manual/manual_DI.py] (with the merger variants of
    [src/manual/manual_DI_format.py] and [src/automated/auto_DI_format.py]).

    Numbers: Python floats are modelled by exact rationals ([Q]), so sums,
    the ratio and [round] are exact; a NaN / missing entry is a separate
    constructor.  Strings are ASCII ([string]), so [str.isdigit] and
    [str.strip] are their ASCII restrictions.  Python dictionaries are
    association lists in insertion order.  Printed lines are collected in
    a log; reading and writing workbook files is outside the model, which
    starts from the tables read and ends with the tables or cells written. *)

From Stdlib Require Import List String Ascii ZArith QArith Qround Lia Lqa Bool.
From Stdlib Require Import DecimalString DecimalZ DecimalPos Sorted.
Import ListNotations.

Local Open Scope string_scope.
Local Open Scope Z_scope.
Local Open Scope list_scope.

(** ** Exceptions and the result type *)

Inductive exn : Type :=
| IndexError
| ValueError
| TypeError
| KeyError
| IOError.

Inductive result (A : Type) : Type :=
| Ok (a : A)
| Raise (e : exn).

Arguments Ok {A} a.
Arguments Raise {A} e.

Definition bind {A B : Type} (c : result A) (k : A -> result B) : result B :=
  match c with
  | Ok a => k a
  | Raise e => Raise e
  end.

Declare Scope result_scope.
Delimit Scope result_scope with result.
Notation "x <- c ;; k" := (bind c (fun x => k))
  (at level 61, c at next level, right associativity) : result_scope.

(** ** Cell values

    What pandas hands back for one spreadsheet cell. *)

Inductive value : Type :=
| NaN                      (* missing cell: [pd.isna] holds *)
| Str (s : string)         (* text cell *)
| Int (z : Z)              (* integer cell *)
| Float (q : Q)            (* floating-point cell *)
| Obj (repr : string).     (* any other object, e.g. a datetime; [float] rejects it *)

Definition isna (v : value) : bool :=
  match v with NaN => true | _ => false end.

Definition notna (v : value) : bool := negb (isna v).

(** [str(z)] of a Python integer, as used in the f-strings. *)
Definition Z_to_string (z : Z) : string := NilZero.string_of_int (Z.to_int z).

(** [s.startswith(prefix)], also the match of a literal at the head of [s]. *)
Fixpoint startswith (s prefix : string) {struct prefix} : bool :=
  match prefix with
  | EmptyString => true
  | String a prefix' =>
      match s with
      | EmptyString => false
      | String b s' => Ascii.eqb a b && startswith s' prefix'
      end
  end.

(** ** Character classes and float parsing *)

Definition isdigit (c : ascii) : bool :=
  let n := nat_of_ascii c in (48 <=? n)%nat && (n <=? 57)%nat.

Definition is_dot (c : ascii) : bool := Ascii.eqb c ".".

Definition digit_val (c : ascii) : Z := Z.of_nat (nat_of_ascii c) - 48.

Fixpoint filter_string (f : ascii -> bool) (s : string) : string :=
  match s with
  | EmptyString => EmptyString
  | String c s' =>
      if f c then String c (filter_string f s') else filter_string f s'
  end.

Fixpoint forallb_string (f : ascii -> bool) (s : string) : bool :=
  match s with
  | EmptyString => true
  | String c s' => f c && forallb_string f s'
  end.

(** Decimal value of a string of digits, most significant first. *)
Fixpoint digits_val (acc : Z) (s : string) : Z :=
  match s with
  | EmptyString => acc
  | String c s' => digits_val (10 * acc + digit_val c) s'
  end.

(** Split at the first decimal point: [(before, None)] when there is no
    point, [(before, Some after)] otherwise. *)
Fixpoint split_dot (s : string) : string * option string :=
  match s with
  | EmptyString => (EmptyString, None)
  | String c s' =>
      if is_dot c then (EmptyString, Some s')
      else let '(a, b) := split_dot s' in (String c a, b)
  end.

(** [float(s)] on the strings that reach it in [clean_timestamps]:
    digits with at most one decimal point and at least one digit.
    Everything else is a [ValueError]. *)
Definition py_float (s : string) : result Q :=
  let '(ip, rest) := split_dot s in
  let fp := match rest with Some r => r | None => EmptyString end in
  if forallb_string isdigit ip && forallb_string isdigit fp
     && negb (String.eqb (ip ++ fp)%string EmptyString)
  then Ok (Qmake (digits_val 0 (ip ++ fp)%string)
                 (Z.to_pos (10 ^ Z.of_nat (String.length fp))))
  else Raise ValueError.

(** ** [clean_timestamps] (manual_DI.py, nested in [process_worksheet_for_di])

    The log collects the printed warnings, oldest first. *)

Definition warning (ts : string) : string :=
  ("Warning: Could not convert timestamp '" ++ ts ++ "' to numeric value")%string.

(** The characters line 261 keeps: [c.isdigit() or c == '.']. *)
Definition keeps (c : ascii) : bool := isdigit c || is_dot c.

(** One iteration of the loop body: the values appended to [cleaned]
    and the lines printed. *)
Definition clean_one (ts : value) : list Q * list string :=
  match ts with
  | NaN => ([], [])
  | Str s =>
      let cleaned_str := filter_string keeps s in
      if String.eqb cleaned_str EmptyString then ([], [])
      else match py_float cleaned_str with
           | Ok q => ([q], [])
           | Raise _ => ([], [warning s])
           end
  | Int z => ([inject_Z z], [])
  | Float q => ([q], [])
  | Obj r => ([], [warning r])
  end.

Fixpoint clean_timestamps (timestamps : list value) : list Q * list string :=
  match timestamps with
  | [] => ([], [])
  | ts :: rest =>
      let '(c1, l1) := clean_one ts in
      let '(c2, l2) := clean_timestamps rest in
      (c1 ++ c2, l1 ++ l2)
  end.

(** ** Python list primitives *)

(** [range(start, stop, step)] for a positive [step]. *)
Fixpoint range_from (fuel : nat) (i stop step : Z) : list Z :=
  match fuel with
  | O => []
  | S fuel' =>
      if i <? stop then i :: range_from fuel' (i + step) stop step else []
  end.

Definition py_range (start stop step : Z) : list Z :=
  range_from (Z.to_nat (stop - start)) start stop step.

(** [l[i]]: negative indices count from the end, anything outside raises. *)
Definition getitem {A : Type} (l : list A) (i : Z) : result A :=
  let n := Z.of_nat (List.length l) in
  let j := if i <? 0 then n + i else i in
  if (0 <=? j) && (j <? n) then
    match nth_error l (Z.to_nat j) with
    | Some a => Ok a
    | None => Raise IndexError
    end
  else Raise IndexError.

(** ** [calculate_bout_durations] (manual_DI.py 182-195)

    The argument is a list of floats; [None] stands for NaN, so matching
    on [Some] is the [pd.notna] test, the left one first. *)

Definition float : Type := option Q.

Definition bout_step (timestamps : list float) (acc : result (list Q)) (i : Z)
  : result (list Q) :=
  (bout_durations <- acc ;;
   a <- getitem timestamps i ;;
   match a with
   | Some start =>
       b <- getitem timestamps (i + 1) ;;
       match b with
       | Some stop => Ok (bout_durations ++ [stop - start]%Q)
       | None => Ok bout_durations
       end
   | None => Ok bout_durations
   end)%result.

Definition calculate_bout_durations (timestamps : list float) : result (list Q) :=
  fold_left (bout_step timestamps)
            (py_range 0 (Z.of_nat (List.length timestamps) - 1) 2)
            (Ok []).

(** The pairing as the specification words it: positions (0,1), (2,3), ...,
    later minus earlier, a trailing unpaired element dropped. *)
Fixpoint pairDurations (l : list Q) : list Q :=
  match l with
  | a :: b :: rest => (b - a)%Q :: pairDurations rest
  | _ => []
  end.

(** ** Metrics (manual_DI.py 278-293) *)

(** [sum(l)]: left fold from the integer 0. *)
Definition py_sum (l : list Q) : Q := fold_left Qplus l 0%Q.

(** [sum(l) if l else 0]. *)
Definition total_time (durations : list Q) : Q :=
  match durations with
  | [] => 0%Q
  | _ => py_sum durations
  end.

(** [x > 0]. *)
Definition Qpositive (x : Q) : bool := negb (Qle_bool x 0).

(** [round(x, ndigits)]: to the nearest multiple of [10^-ndigits], ties to
    the even one. *)
Definition round_half_even (q : Q) : Z :=
  let f := Qfloor q in
  match Qcompare (q - inject_Z f) (1 # 2) with
  | Lt => f
  | Gt => f + 1
  | Eq => if Z.even f then f else f + 1
  end.

Definition py_round (x : Q) (ndigits : nat) : Q :=
  let p := Z.to_pos (10 ^ Z.of_nat ndigits) in
  Qmake (round_half_even (x * inject_Z (Zpos p))) p.

(** Lines 278-287: the values before they are rounded for display. *)
Record metrics : Type := {
  m_obj1_total_time : Q;
  m_obj2_total_time : Q;
  m_total_exploration_time : Q;
  m_di : Q
}.

Definition compute_metrics (obj1_durations obj2_durations : list Q) : metrics :=
  let obj1_total_time := total_time obj1_durations in
  let obj2_total_time := total_time obj2_durations in
  let total_exploration_time := (obj1_total_time + obj2_total_time)%Q in
  let di :=
    if Qpositive total_exploration_time
    then ((obj1_total_time - obj2_total_time) / total_exploration_time)%Q
    else 0%Q in
  {| m_obj1_total_time := obj1_total_time;
     m_obj2_total_time := obj2_total_time;
     m_total_exploration_time := total_exploration_time;
     m_di := di |}.

(** The returned dictionary. *)
Record summary : Type := {
  Sheet_Name : string;
  Obj1_Exploration : Q;
  Obj2_Exploration : Q;
  TET : Q;
  DI : Q;
  obj1_durations : list Q;
  obj2_durations : list Q
}.

(** Lines 278-303: totals, DI, rounding, and the dictionary. *)
Definition summarize (sheet_name : string) (d1 d2 : list Q) : summary :=
  let m := compute_metrics d1 d2 in
  {| Sheet_Name := sheet_name;
     Obj1_Exploration := py_round (m_obj1_total_time m) 1;
     Obj2_Exploration := py_round (m_obj2_total_time m) 1;
     TET := py_round (m_total_exploration_time m) 1;
     DI := py_round (m_di m) 2;
     obj1_durations := d1;
     obj2_durations := d2 |}.

(** ** Tables

    A [DataFrame] is column-major: an ordered list of labelled columns
    and the row labels ([index]).  Every column has one value per row. *)

Inductive label : Type :=
| LStr (s : string)        (* a header text *)
| LInt (z : Z)             (* a positional header, as [header=None] gives *)
| LNaN.                    (* a missing header *)

Definition str_of_label (l : label) : string :=
  match l with
  | LStr s => s
  | LInt z => Z_to_string z
  | LNaN => "nan"
  end.

Definition isna_label (l : label) : bool :=
  match l with LNaN => true | _ => false end.

Definition label_eqb (a b : label) : bool :=
  match a, b with
  | LStr s, LStr t => String.eqb s t
  | LInt x, LInt y => Z.eqb x y
  | _, _ => false            (* NaN equals nothing, itself included *)
  end.

Definition Series : Type := list value.
Definition column : Type := (label * Series)%type.

Record DataFrame : Type := {
  index : list Z;
  columns : list column
}.

Definition labels (df : DataFrame) : list label := map fst (columns df).

(** [df.shape[1]] *)
Definition ncols (df : DataFrame) : nat := List.length (columns df).

(** [len(df)] *)
Definition nrows (df : DataFrame) : nat := List.length (index df).

(** [df.iloc[:, :k]] and [df.iloc[:, k:]] *)
Definition iloc_cols_to (df : DataFrame) (k : nat) : DataFrame :=
  {| index := index df; columns := firstn k (columns df) |}.

Definition iloc_cols_from (df : DataFrame) (k : nat) : DataFrame :=
  {| index := index df; columns := skipn k (columns df) |}.

(** [df.iloc[:, k]]: out of bounds is an [IndexError]. *)
Definition iloc_col (df : DataFrame) (k : nat) : result Series :=
  match nth_error (columns df) k with
  | Some c => Ok (snd c)
  | None => Raise IndexError
  end.

(** [series.dropna().tolist()] *)
Definition dropna (s : Series) : list value := filter notna s.

(** ** Layout detection (manual_DI.py 206-219) *)

(** ASCII [str.isspace]. *)
Definition isspace (c : ascii) : bool :=
  let n := nat_of_ascii c in
  ((9 <=? n)%nat && (n <=? 13)%nat) || ((28 <=? n)%nat && (n <=? 32)%nat).

Fixpoint lstrip (s : string) : string :=
  match s with
  | EmptyString => EmptyString
  | String c s' => if isspace c then lstrip s' else s
  end.

Fixpoint rstrip (s : string) : string :=
  match s with
  | EmptyString => EmptyString
  | String c s' =>
      let r := rstrip s' in
      if String.eqb r EmptyString && isspace c then EmptyString else String c r
  end.

Definition strip (s : string) : string := rstrip (lstrip s).

(** The test of line 214. *)
Definition is_empty_col (col : label) : bool :=
  startswith (str_of_label col) "empty_"
  || isna_label col
  || String.eqb (strip (str_of_label col)) EmptyString.

Fixpoint enumerate_from {A : Type} (i : nat) (l : list A) : list (nat * A) :=
  match l with
  | [] => []
  | a :: l' => (i, a) :: enumerate_from (S i) l'
  end.

Definition enumerate {A : Type} (l : list A) : list (nat * A) :=
  enumerate_from 0 l.

(** The loop of lines 213-217 on [(has_empty_columns, empty_col_start)]. *)
Definition detect_step (st : bool * option nat) (ic : nat * label)
  : bool * option nat :=
  let '(has_empty_columns, empty_col_start) := st in
  let '(i, col) := ic in
  if is_empty_col col then
    (true, match empty_col_start with None => Some i | Some j => Some j end)
  else st.

Definition detect_empty_columns (df : DataFrame) : bool * option nat :=
  fold_left detect_step (enumerate (labels df)) (false, None).

(** The tagged variant the two flags encode. *)
Inductive layout : Type :=
| Legacy
| Formatted (splitIndex : nat).

Definition detectLayout (df : DataFrame) : layout :=
  match detect_empty_columns df with
  | (true, Some i) => Formatted i
  | _ => Legacy
  end.

(** ** Timestamp extraction (manual_DI.py 219-249)

    Returns the line printed and the two raw timestamp lists
    [(obj1_timestamps, obj2_timestamps)]. *)

Definition extract_timestamps (df : DataFrame)
  : string * result (list value * list value) :=
  match detectLayout df with
  | Formatted empty_col_start =>
      ( ("Detected formatted data structure, splitting at column "
           ++ Z_to_string (Z.of_nat empty_col_start))%string,
        (let obj1_data := iloc_cols_to df empty_col_start in
         let obj2_start := (empty_col_start + 4)%nat in
         obj2_timestamps <-
           (if (obj2_start <? ncols df)%nat then
              (let obj2_data := iloc_cols_from df obj2_start in
               c <- iloc_col obj2_data 0 ;; Ok (dropna c))
            else Ok []) ;;
         c1 <- iloc_col obj1_data 0 ;;
         Ok (dropna c1, obj2_timestamps))%result )
  | Legacy =>
      ( "Using original data structure (columns A and H)",
        (c1 <- iloc_col df 0 ;;
         obj2_timestamps <-
           (if (7 <? ncols df)%nat then
              (c <- iloc_col df 7 ;; Ok (dropna c))
            else Ok []) ;;
         Ok (dropna c1, obj2_timestamps))%result )
  end.

(** ** [process_worksheet_for_di] (manual_DI.py 197-303)

    The lines printed, then the dictionary or the exception raised. *)

Definition process_worksheet_for_di (df : DataFrame) (sheet_name : string)
  : list string * result summary :=
  let line0 := ("Processing sheet for DI: " ++ sheet_name)%string in
  let '(line1, extracted) := extract_timestamps df in
  match extracted with
  | Raise e => ([line0; line1], Raise e)
  | Ok (obj1_raw, obj2_raw) =>
      let '(obj1_timestamps, w1) := clean_timestamps obj1_raw in
      let '(obj2_timestamps, w2) := clean_timestamps obj2_raw in
      ( [line0; line1] ++ w1 ++ w2,
        (d1 <- calculate_bout_durations (map Some obj1_timestamps) ;;
         d2 <- calculate_bout_durations (map Some obj2_timestamps) ;;
         Ok (summarize sheet_name d1 d2))%result )
  end.

(** ** The consolidated report (manual_DI.py 379-428)

    The worksheet is the list of rows written, by row number; a row that
    is never written (the separators) is absent. *)

Inductive xl : Type :=
| XBlank
| XText (s : string)
| XNum (q : Q).

Definition xrow : Type := (nat * xl * xl)%type.

Definition summary_rows (current_row : nat) (s : summary) : list xrow :=
  [ (current_row, XText (Sheet_Name s), XBlank);
    (current_row + 1, XText "Obj1 Exploration", XNum (Obj1_Exploration s));
    (current_row + 2, XText "Obj2 Exploration", XNum (Obj2_Exploration s));
    (current_row + 3, XText "TET", XNum (TET s));
    (current_row + 4, XText "DI", XNum (DI s)) ]%nat.

Fixpoint consolidated_rows (current_row : nat) (all_summaries : list summary)
  : list xrow :=
  match all_summaries with
  | [] => []
  | s :: rest =>
      if negb (String.eqb (Sheet_Name s) "Consolidated Data") then
        summary_rows current_row s ++ consolidated_rows (current_row + 6) rest
      else consolidated_rows current_row rest
  end.

Definition create_di_consolidated_sheet (all_summaries : list summary)
  : list xrow :=
  (1%nat, XText "Sheet Name", XText "Values") :: consolidated_rows 2 all_summaries.

(** ** [calculate_discrimination_index] (manual_DI.py 430-498) *)

Definition exn_message (e : exn) : string :=
  match e with
  | IndexError => "single positional indexer is out-of-bounds"
  | ValueError => "ValueError"
  | TypeError => "TypeError"
  | KeyError => "KeyError"
  | IOError => "IOError"
  end.

Definition sheet_error (sheet_name : string) (e : exn) : string :=
  ("Error processing sheet " ++ sheet_name ++ " for DI: " ++ exn_message e)%string.

(** The loop state: the summaries collected and the lines printed. *)
Record di_state : Type := {
  all_summaries : list summary;
  printed : list string
}.

Section Orchestrator.

(** The workbook file: [pd.read_excel(file_path, sheet_name, header=None)]
    for every sheet, in [sheet_names] order.  With [header=None] the
    labels of the table read are the positions 0, 1, ... *)
Variable workbook : list (string * result DataFrame).

(** Lines 305-377: writes into the sheet; its whole body is in a
    [try/except], so all it can hand back is what it printed. *)
Variable write_di_summary_to_sheet : string -> summary -> list string.

Definition sheet_names : list string :=
  filter (fun name => negb (String.eqb name "Consolidated Data"))
         (map fst workbook).

(** [pd.read_excel] of a named sheet. *)
Fixpoint read_excel (wb : list (string * result DataFrame)) (sheet_name : string)
  : result DataFrame :=
  match wb with
  | [] => Raise KeyError
  | (n, r) :: wb' => if String.eqb n sheet_name then r else read_excel wb' sheet_name
  end.

(** One iteration of the loop of lines 461-472. *)
Definition di_step (st : di_state) (sheet_name : string) : di_state :=
  match read_excel workbook sheet_name with
  | Raise e =>
      {| all_summaries := all_summaries st;
         printed := printed st ++ [sheet_error sheet_name e] |}
  | Ok df =>
      match process_worksheet_for_di df sheet_name with
      | (lines, Raise e) =>
          {| all_summaries := all_summaries st;
             printed := printed st ++ lines ++ [sheet_error sheet_name e] |}
      | (lines, Ok summary) =>
          {| all_summaries := all_summaries st ++ [summary];
             printed := printed st ++ lines
                          ++ write_di_summary_to_sheet sheet_name summary |}
      end
  end.

Definition di_loop : di_state :=
  fold_left di_step sheet_names {| all_summaries := []; printed := [] |}.

(** The summaries returned and the "Consolidated Data" sheet of the
    saved workbook, when one is created. *)
Definition calculate_discrimination_index
  : list summary * option (list xrow) * list string :=
  let st := di_loop in
  let consolidated :=
    match all_summaries st with
    | [] => None
    | _ => Some (create_di_consolidated_sheet (all_summaries st))
    end in
  (all_summaries st, consolidated, printed st).

End Orchestrator.

(** ** Table operations used by the mergers *)

Fixpoint mask_filter {A : Type} (mask : list bool) (l : list A) : list A :=
  match mask, l with
  | b :: mask', a :: l' =>
      if b then a :: mask_filter mask' l' else mask_filter mask' l'
  | _, _ => []
  end.

(** The rows selected by a boolean mask, their labels kept. *)
Definition select_rows (mask : list bool) (df : DataFrame) : DataFrame :=
  {| index := mask_filter mask (index df);
     columns := map (fun c : column => (fst c, mask_filter mask (snd c)))
                    (columns df) |}.

Definition range_index (n : nat) : list Z := map Z.of_nat (seq 0 n).

(** [df.reset_index(drop=True)] *)
Definition reset_index (df : DataFrame) : DataFrame :=
  {| index := range_index (nrows df); columns := columns df |}.

(** [df[name] = v] with a scalar [v]: an existing column of that name is
    overwritten in place, otherwise a new last column is added. *)
Definition setitem (df : DataFrame) (name : string) (v : value) : DataFrame :=
  let fill := repeat v (nrows df) in
  if existsb (label_eqb (LStr name)) (labels df) then
    {| index := index df;
       columns := map (fun c : column =>
                         if label_eqb (LStr name) (fst c) then (fst c, fill) else c)
                      (columns df) |}
  else
    {| index := index df; columns := columns df ++ [(LStr name, fill)] |}.

Fixpoint position (i : Z) (idx : list Z) : option nat :=
  match idx with
  | [] => None
  | j :: idx' =>
      if Z.eqb i j then Some O
      else match position i idx' with Some p => Some (S p) | None => None end
  end.

(** A column re-read along a new row index: NaN where the label is absent. *)
Definition reindex (old_index new_index : list Z) (s : Series) : Series :=
  map (fun i => match position i old_index with
                | Some p => nth p s NaN
                | None => NaN
                end) new_index.

Definition mem_Z (i : Z) (l : list Z) : bool := existsb (Z.eqb i) l.

(** [pd.concat([a, b], axis=1)]: rows aligned on the union of the two row
    indices, columns of [a] then columns of [b]. *)
Definition concat_axis1 (a b : DataFrame) : DataFrame :=
  let new_index :=
    index a ++ filter (fun i => negb (mem_Z i (index a))) (index b) in
  {| index := new_index;
     columns :=
       map (fun c : column => (fst c, reindex (index a) new_index (snd c))) (columns a)
       ++ map (fun c : column => (fst c, reindex (index b) new_index (snd c))) (columns b) |}.

(** [df.empty] *)
Definition df_empty (df : DataFrame) : bool :=
  (nrows df =? 0)%nat || (ncols df =? 0)%nat.

(** What [df.to_excel(writer, sheet_name=..., index=False)] writes: the
    labelled columns, without the row index. *)
Definition written_sheet : Type := list column.

Definition to_excel (df : DataFrame) : written_sheet := columns df.

(** ** Ordered dictionaries and sorting *)

Fixpoint dict_set {V : Type} (d : list (string * V)) (k : string) (v : V)
  : list (string * V) :=
  match d with
  | [] => [(k, v)]
  | (k', v') :: d' =>
      if String.eqb k' k then (k', v) :: d' else (k', v') :: dict_set d' k v
  end.

Fixpoint dict_get {V : Type} (d : list (string * V)) (k : string) : result V :=
  match d with
  | [] => Raise KeyError
  | (k', v') :: d' => if String.eqb k' k then Ok v' else dict_get d' k
  end.

(** [d[k].append(x)] on a [defaultdict(list)]. *)
Fixpoint dict_append {V : Type} (d : list (string * list V)) (k : string) (x : V)
  : list (string * list V) :=
  match d with
  | [] => [(k, [x])]
  | (k', l) :: d' =>
      if String.eqb k' k then (k', l ++ [x]) :: d'
      else (k', l) :: dict_append d' k x
  end.

Fixpoint insert_sorted (s : string) (l : list string) : list string :=
  match l with
  | [] => [s]
  | t :: l' => if String.leb s t then s :: l else t :: insert_sorted s l'
  end.

(** [l.sort()] / [sorted(l)] on strings: code-point order. *)
Definition sort_strings (l : list string) : list string :=
  fold_right insert_sorted [] l.

Fixpoint insert_sorted_Z (z : Z) (l : list Z) : list Z :=
  match l with
  | [] => [z]
  | t :: l' =>
      if z <? t then z :: l
      else if z =? t then l
      else t :: insert_sorted_Z z l'
  end.

(** ** Grouping by [object_id] (manual_DI.py 113-129)

    Identifiers are integer cells; [groupby] leaves out the rows whose
    identifier is missing, and visits the identifiers in increasing
    order. *)

Definition find_column (name : string) (df : DataFrame) : option Series :=
  match find (fun c : column => label_eqb (LStr name) (fst c)) (columns df) with
  | Some c => Some (snd c)
  | None => None
  end.

Definition object_ids (ids : Series) : list Z :=
  fold_right (fun v acc => match v with Int z => insert_sorted_Z z acc | _ => acc end)
             [] ids.

Definition id_mask (z : Z) (ids : Series) : list bool :=
  map (fun v => match v with Int z' => Z.eqb z' z | _ => false end) ids.

(** [data.groupby('object_id')] *)
Definition groupby_object_id (data : DataFrame) (ids : Series)
  : list (Z * DataFrame) :=
  map (fun z => (z, select_rows (id_mask z ids) data)) (object_ids ids).

(** [f"{sheet_name}_obj_{object_id}"] *)
Definition group_key (sheet_name : string) (object_id : Z) : string :=
  (sheet_name ++ "_obj_" ++ Z_to_string object_id)%string.

Definition separate_sheet (separated_data : list (string * DataFrame))
  (sheet_name : string) (data : DataFrame) (ids : Series)
  : list (string * DataFrame) :=
  fold_left (fun sd (g : Z * DataFrame) => dict_set sd (group_key sheet_name (fst g)) (snd g))
            (groupby_object_id data ids) separated_data.

(** Step 1: [(separated_data, has_object_id)] after all sheets. *)
Definition separate_step (st : list (string * DataFrame) * bool)
  (sheet : string * DataFrame) : list (string * DataFrame) * bool :=
  let '(separated_data, has_object_id) := st in
  let '(sheet_name, data) := sheet in
  match find_column "object_id" data with
  | Some ids => (separate_sheet separated_data sheet_name data ids, true)
  | None => st
  end.

Definition separate (excel_data : list (string * DataFrame))
  : list (string * DataFrame) * bool :=
  fold_left separate_step excel_data ([], false).

(** ** Stems (manual_DI.py 136-141) *)

(** Whether the pattern [_obj_[12]] matches at the head of [s]. *)
Definition obj_match (s : string) : bool :=
  startswith s "_obj_1" || startswith s "_obj_2".

(** [re.split(r'_obj_[12]', sheet_key)[0]]: the text before the leftmost
    match, the whole key when nothing matches. *)
Fixpoint stem_of (sheet_key : string) : string :=
  match sheet_key with
  | EmptyString => EmptyString
  | String c rest =>
      if obj_match sheet_key then EmptyString
      else String c (stem_of rest)
  end.

Definition group_stems (keys : list string) : list (string * list string) :=
  fold_left (fun sheet_groups sheet_key =>
               dict_append sheet_groups (stem_of sheet_key) sheet_key)
            keys [].

(** ** The merger (manual_DI.py 147-171, manual_DI_format.py 143-169) *)

(** Lines 158-159. *)
Definition add_empty_columns (df : DataFrame) : DataFrame :=
  fold_left (fun d i => setitem d ("empty_" ++ Z_to_string (Z.of_nat (i + 1)))%string (Str ""))
            (seq 0 4) df.

(** The body of the loop over [sheet_groups.items()]: the combined table
    for one stem. *)
Definition combine_stem (separated_data : list (string * DataFrame))
  (sheet_list : list string) : result DataFrame :=
  (let sheet_list := sort_strings sheet_list in
   k0 <- getitem sheet_list 0 ;;
   combined_df <- dict_get separated_data k0 ;;
   if (1 <? List.length sheet_list)%nat then
     let combined_df := add_empty_columns combined_df in
     k1 <- getitem sheet_list 1 ;;
     second <- dict_get separated_data k1 ;;
     let second_df := reset_index second in
     let combined_df := reset_index combined_df in
     Ok (concat_axis1 combined_df second_df)
   else Ok combined_df)%result.

Fixpoint write_stems (separated_data : list (string * DataFrame))
  (sheet_groups : list (string * list string))
  : result (list (string * written_sheet)) :=
  match sheet_groups with
  | [] => Ok []
  | (stem, sheet_list) :: rest =>
      (combined_df <- combine_stem separated_data sheet_list ;;
       out <- write_stems separated_data rest ;;
       Ok ((stem, to_excel combined_df) :: out))%result
  end.

(** [process_excel_by_object_id]: the sheets of the output workbook, or
    [None] for the [(False, None)] return. *)
Definition process_excel_by_object_id (excel_data : list (string * DataFrame))
  : option (list (string * written_sheet)) :=
  let '(separated_data, has_object_id) := separate excel_data in
  if negb has_object_id then None
  else
    match write_stems separated_data (group_stems (map fst separated_data)) with
    | Ok out => Some out
    | Raise _ => None
    end.

(** ** The automated merger ([main] of auto_DI_format.py, 23-63) *)

Definition endswith (s suffix : string) : bool :=
  let n := String.length s in
  let m := String.length suffix in
  (m <=? n)%nat && String.eqb (String.substring (n - m) m s) suffix.

(** [s[:-5]] *)
Definition drop_last5 (s : string) : string :=
  String.substring 0 (String.length s - 5) s.

Definition mem_string (s : string) (l : list string) : bool :=
  existsb (String.eqb s) l.

Fixpoint dedup (l : list string) : list string :=
  match l with
  | [] => []
  | s :: l' => if mem_string s l' then dedup l' else s :: dedup l'
  end.

Definition sorted_prefixes (names : list string) : list string :=
  sort_strings
    (dedup (map drop_last5
                (filter (fun sheet => endswith sheet "_Obj1" || endswith sheet "_Obj2")
                        names))).

(** Lines 37-51 for one prefix: the combined table, when one is stored. *)
Definition auto_combine (excel_file : list (string * DataFrame)) (prefix : string)
  : option DataFrame :=
  let obj1_sheet := (prefix ++ "_Obj1")%string in
  let obj2_sheet := (prefix ++ "_Obj2")%string in
  match dict_get excel_file obj1_sheet, dict_get excel_file obj2_sheet with
  | Ok obj1_data, Ok obj2_data =>
      if negb (df_empty obj1_data) && negb (df_empty obj2_data)
      then Some (concat_axis1 obj1_data obj2_data)
      else if negb (df_empty obj1_data) then Some obj1_data
      else if negb (df_empty obj2_data) then Some obj2_data
      else None
  | _, _ => None
  end.

Definition auto_main (excel_file : list (string * DataFrame))
  : list (string * written_sheet) :=
  let out :=
    flat_map (fun prefix =>
                match auto_combine excel_file prefix with
                | Some combined_data =>
                    if negb (df_empty combined_data)
                    then [(prefix, to_excel combined_data)] else []
                | None => []
                end)
             (sorted_prefixes (map fst excel_file)) in
  match out with
  | [] => [("Default", [(LStr "Info", [Str "No data available"])])]
  | _ => out
  end.

(** ** Reading the results back

    Definitions the statements below are written with. *)

(** The index of the first header that passes the test of line 214. *)
Fixpoint first_empty_col_from (i : nat) (cols : list label) : option nat :=
  match cols with
  | [] => None
  | col :: cols' =>
      if is_empty_col col then Some i else first_empty_col_from (S i) cols'
  end.

Definition first_empty_col (df : DataFrame) : option nat :=
  first_empty_col_from 0 (labels df).

(** Whether a sheet goes through [read_excel] and
    [process_worksheet_for_di] without an exception. *)
Definition sheet_ok (workbook : list (string * result DataFrame)) (sheet_name : string)
  : bool :=
  match read_excel workbook sheet_name with
  | Ok df =>
      match snd (process_worksheet_for_di df sheet_name) with
      | Ok _ => true
      | Raise _ => false
      end
  | Raise _ => false
  end.

(** The sheet names a consolidated report lists: its rows with a text in
    column A and nothing in column B. *)
Definition report_names (rows : list xrow) : list string :=
  flat_map (fun r : xrow =>
              match r with
              | (_, XText name, XBlank) => [name]
              | _ => []
              end) rows.

(** *** Keys and stems *)

(** The characters of [str(z)]: digits and the sign. *)
Definition sign_or_digit (c : ascii) : bool := isdigit c || Ascii.eqb c "-".

(** Whether ["_obj_"] occurs somewhere in [s]. *)
Fixpoint has_obj (s : string) : bool :=
  startswith s "_obj_"
  || match s with
     | EmptyString => false
     | String _ s' => has_obj s'
     end.

(** The keys filed under a stem in [sheet_groups]. *)
Fixpoint stem_list (sheet_groups : list (string * list string)) (stem : string)
  : list string :=
  match sheet_groups with
  | [] => []
  | (s, l) :: rest => if String.eqb s stem then l else stem_list rest stem
  end.

(** The assignments [separated_data[key] = group.copy()] one sheet makes,
    in order. *)
Definition sheet_writes (sheet : string * DataFrame) : list (string * DataFrame) :=
  match find_column "object_id" (snd sheet) with
  | Some ids =>
      map (fun g : Z * DataFrame => (group_key (fst sheet) (fst g), snd g))
          (groupby_object_id (snd sheet) ids)
  | None => []
  end.

(** What Step 1 maintains: distinct keys, each of the form
    [<sheet>_obj_<id>] for a sheet of the workbook, and a raised flag
    once something is stored. *)
Definition separated_ok (names : list string)
  (st : list (string * DataFrame) * bool) : Prop :=
  NoDup (map fst (fst st))
  /\ (forall k, In k (map fst (fst st)) ->
                exists sheet_name z, In sheet_name names /\ k = group_key sheet_name z)
  /\ (snd st = false -> fst st = []).

(** *** The combined table *)

(** The names of the filler columns, [f'empty_{i+1}'] for [i] in [range(4)]. *)
Definition filler_names : list string := ["empty_1"; "empty_2"; "empty_3"; "empty_4"].

(** No column of [df] already carries a filler name. *)
Definition no_filler_name (df : DataFrame) : bool :=
  forallb (fun name => negb (existsb (label_eqb (LStr name)) (labels df)))
          filler_names.

(** A column laid out on [m] rows numbered from 0, when it had [n]: its
    values in their positions, missing values below them. *)
Definition realign_values (n m : nat) (s : Series) : Series :=
  map (fun r => if (r <? n)%nat then nth r s NaN else NaN) (seq 0 m).

Definition realign (n m : nat) (c : column) : column :=
  (fst c, realign_values n m (snd c)).

(** The values of a filler column next to a second table of [m] rows. *)
Definition filler_values (n m : nat) : Series :=
  map (fun r => if (r <? n)%nat then Str "" else NaN) (seq 0 m).

(** ** Sample tables and workbooks *)

Definition blank_column (l : label) (n : nat) : column := (l, repeat NaN n).

(** A legacy sheet read with [header=None]: object 1 in column A with a
    bout from 0 to 3, object 2 in column H with its two stamps in
    decreasing order. *)
Definition reversed_bout_df : DataFrame :=
  {| index := range_index 2;
     columns :=
       [ (LInt 0, [Float 0; Float 3]);
         blank_column (LInt 1) 2; blank_column (LInt 2) 2; blank_column (LInt 3) 2;
         blank_column (LInt 4) 2; blank_column (LInt 5) 2; blank_column (LInt 6) 2;
         (LInt 7, [Float 1; Float 0]) ] |}.

(** A table whose first header is already a filler name. *)
Definition leading_filler_df : DataFrame :=
  {| index := range_index 2;
     columns := [ (LStr "empty_1", [Str ""; Str ""]);
                  (LStr "t", [Float 1; Float 3]) ] |}.

(** A merged table: one object-1 column, four fillers, one object-2 column. *)
Definition formatted_df : DataFrame :=
  {| index := range_index 2;
     columns := [ (LStr "t", [Float 1; Float 3]);
                  (LStr "empty_1", [Str ""; Str ""]);
                  (LStr "empty_2", [Str ""; Str ""]);
                  (LStr "empty_3", [Str ""; Str ""]);
                  (LStr "empty_4", [Str ""; Str ""]);
                  (LStr "t", [Float 5; Float 9]) ] |}.

(** One raw sheet: a timestamp column and the identifier column. *)
Definition sheet_with_ids (ids : list Z) : DataFrame :=
  {| index := range_index (List.length ids);
     columns := [ (LStr "t", map (fun z => Float (inject_Z (10 * z))) ids);
                  (LStr "object_id", map Int ids) ] |}.

Definition wb_ids_1 : list (string * DataFrame) :=
  [("rat1", sheet_with_ids [1; 1])].

Definition wb_ids_1_2 : list (string * DataFrame) :=
  [("rat1", sheet_with_ids [1; 2; 1; 2])].

Definition wb_ids_1_2_3 : list (string * DataFrame) :=
  [("rat1", sheet_with_ids [1; 2; 3; 1; 2; 3])].

Definition wb_ids_1_2_10 : list (string * DataFrame) :=
  [("rat1", sheet_with_ids [1; 2; 10])].

(** Two sheets as the automated merger expects them. *)
Definition wb_auto : list (string * DataFrame) :=
  [ ("rat1_Obj1", {| index := range_index 2;
                     columns := [(LStr "start", [Float 1; Float 5]);
                                 (LStr "stop", [Float 3; Float 9])] |});
    ("rat1_Obj2", {| index := range_index 2;
                     columns := [(LStr "start", [Float 2; Float 6]);
                                 (LStr "stop", [Float 4; Float 7])] |}) ].

Definition wb_ids_1_2_25 : list (string * DataFrame) :=
  [("rat1", sheet_with_ids [1; 2; 25])].

(** ** Further definitions the later statements are written with *)

(** The pairing on floats: a pair with a NaN in it gives no duration. *)
Fixpoint pairs_notna (l : list float) : list Q :=
  match l with
  | a :: b :: rest =>
      match a, b with
      | Some start, Some stop => (stop - start)%Q :: pairs_notna rest
      | _, _ => pairs_notna rest
      end
  | _ => []
  end.

(** A header that is a position, as every header of a table read with
    [header=None] (manual_DI.py 463) is. *)
Definition is_positional (l : label) : bool :=
  match l with LInt _ => true | _ => false end.

Definition positional (df : DataFrame) : bool := forallb is_positional (labels df).

(** [pd.read_excel(..., header=None)] of a sheet given by its columns of
    cells, the header row included as the first cell of each: the columns
    are labelled 0, 1, ... *)
Definition read_excel_noheader (cells : list Series) : DataFrame :=
  {| index := range_index (match cells with [] => 0%nat | c :: _ => List.length c end);
     columns := map (fun ic : nat * Series => (LInt (Z.of_nat (fst ic)), snd ic))
                    (enumerate cells) |}.

(** The row number of a row of the consolidated sheet. *)
Definition xrow_number (r : xrow) : nat := fst (fst r).

(** ** [write_di_summary_to_sheet] (manual_DI.py 305-377)

    A cell is addressed by its column number and row number, both from 1:
    [(c, r)] is the cell [f'{get_column_letter(c)}{r}'].  The function
    returns the cells assigned, in order; borders are left out. *)

Definition cell_address : Type := (nat * nat)%type.

(** [get_column_letter] accepts the columns 1 to 18278 and raises a
    [ValueError] otherwise. *)
Definition column_letter_ok (c : nat) : bool :=
  (1 <=? Z.of_nat c)%Z && (Z.of_nat c <=? 18278)%Z.

Definition duration_cells (col : nat) (durations : list Q) : list (cell_address * xl) :=
  map (fun id : nat * Q => ((col, fst id + 3)%nat, XNum (snd id))) (enumerate durations).

Definition di_summary_cells (max_col : nat) (summary_data : summary)
  : list (cell_address * xl) :=
  let summary_start_col := (max_col + 2)%nat in
  let summary_start_row := 10%nat in
  let col_1 := summary_start_col in
  let col_2 := (summary_start_col + 1)%nat in
  if negb (column_letter_ok col_1 && column_letter_ok col_2) then []
  else
    [ ((col_1, summary_start_row), XText "Obj1 Exploration");
      ((col_2, summary_start_row), XNum (Obj1_Exploration summary_data));
      ((col_1, summary_start_row + 1)%nat, XText "Obj2 Exploration");
      ((col_2, summary_start_row + 1)%nat, XNum (Obj2_Exploration summary_data));
      ((col_1, summary_start_row + 2)%nat, XText "TET");
      ((col_2, summary_start_row + 2)%nat, XNum (TET summary_data));
      ((col_1, summary_start_row + 3)%nat, XText "DI");
      ((col_2, summary_start_row + 3)%nat, XNum (DI summary_data)) ]
    ++
    let bout_col_1 := (summary_start_col + 3)%nat in
    let bout_col_2 := (summary_start_col + 4)%nat in
    if negb (column_letter_ok bout_col_1 && column_letter_ok bout_col_2) then []
    else
      [ ((bout_col_1, 1%nat), XText "Obj1_Explore") ]
      ++ duration_cells bout_col_1 (obj1_durations summary_data)
      ++ [ ((bout_col_2, 1%nat), XText "Obj2_Explore") ]
      ++ duration_cells bout_col_2 (obj2_durations summary_data)
      ++ [ ((col_1, 1%nat), XText "Obj1_Explore_Time");
           ((col_2, 1%nat), XNum (Obj1_Exploration summary_data));
           ((bout_col_1, 2%nat), XText "Obj2_Explore_Time");
           ((bout_col_2, 2%nat), XNum (Obj2_Exploration summary_data)) ].

(** A sheet read with [header=None]: a header text and four stamps in
    column A, nothing else. *)
Definition header_row_df : DataFrame :=
  read_excel_noheader [[Str "time (s)"; Float 1; Float 3; Float 5; Float 9]].

(** The summaries that pass the guard of line 407, and the rows of the
    blocks of five written for a numbered list of summaries, one block
    every six rows from [first_row]. *)
Definition kept_summaries (sums : list summary) : list summary :=
  filter (fun s => negb (String.eqb (Sheet_Name s) "Consolidated Data")) sums.

Definition block_rows (first_row : nat) (kept : list (nat * summary)) : list xrow :=
  flat_map (fun ks : nat * summary => summary_rows (first_row + 6 * fst ks) (snd ks)) kept.

(** ['object_id' in data.columns] (manual_DI.py 117, manual_DI_format.py 116). *)
Definition has_object_id_column (sheet : string * DataFrame) : bool :=
  match find_column "object_id" (snd sheet) with
  | Some _ => true
  | None => false
  end.

(** Whether the text of an identifier begins with 1 or 2, which is when
    the pattern [_obj_[12]] matches in its key. *)
Definition starts_1or2 (z : Z) : bool :=
  startswith (Z_to_string z) "1" || startswith (Z_to_string z) "2".

(** Code-point order on strings, as [list.sort] uses it. *)
Definition str_le (a b : string) : Prop := String.leb a b = true.

(** The sheet written when nothing else was (auto_DI_format.py 62-63). *)
Definition default_sheet : string * written_sheet :=
  ("Default", [(LStr "Info", [Str "No data available"])]).

(** The sheet the automated merger writes for one prefix (lines 37-60),
    if it writes one. *)
Definition auto_sheet (excel_file : list (string * DataFrame)) (prefix : string)
  : list (string * written_sheet) :=
  match auto_combine excel_file prefix with
  | Some combined_data =>
      if negb (df_empty combined_data)
      then [(prefix, to_excel combined_data)] else []
  | None => []
  end.

(** No header of the table passes the test of line 214. *)
Definition plain_headers (df : DataFrame) : bool :=
  forallb (fun l => negb (is_empty_col l)) (labels df).

(** Two groups as the grouper stores them, with the row labels of the
    sheet they were taken from. *)
Definition group_a : DataFrame :=
  {| index := [0; 2; 3];
     columns := [(LStr "start", [Float 1; Float 5; Float 9]);
                 (LStr "object_id", [Int 1; Int 1; Int 1])] |}.

Definition group_b : DataFrame :=
  {| index := [1];
     columns := [(LStr "start", [Float 2]); (LStr "object_id", [Int 2])] |}.

(** * Properties *)

(** ** Bout extraction *)

Section BoutExtraction.

Lemma list_pair_ind (A : Type) (P : list A -> Prop) :
  P [] -> (forall a, P [a]) -> (forall a b l, P l -> P (a :: b :: l)) ->
  forall l, P l.
Proof.
  intros H0 H1 H2.
  assert (H : forall l, P l /\ forall a, P (a :: l)).
  { induction l as [|x l [IH1 IH2]]; split; auto. }
  intro l. apply H.
Qed.

Lemma getitem_middle (A : Type) (pre : list A) (x : A) (post : list A) :
  getitem (pre ++ x :: post) (Z.of_nat (List.length pre)) = Ok x.
Proof.
  unfold getitem.
  assert (Hlt : (Z.of_nat (List.length pre) <? 0) = false) by (apply Z.ltb_ge; lia).
  rewrite Hlt.
  assert (H0 : (0 <=? Z.of_nat (List.length pre)) = true) by (apply Z.leb_le; lia).
  assert (H1 : (Z.of_nat (List.length pre)
                <? Z.of_nat (List.length (pre ++ x :: post))) = true).
  { apply Z.ltb_lt. rewrite length_app. simpl. lia. }
  rewrite H0, H1. simpl. rewrite Nat2Z.id.
  rewrite nth_error_app2 by lia. rewrite Nat.sub_diag. reflexivity.
Qed.

Lemma bout_loop (rest : list Q) :
  forall (pre : list Q) (acc : list Q) (fuel : nat),
    (List.length rest <= fuel + 1)%nat ->
    fold_left (bout_step (map Some (pre ++ rest)))
              (range_from fuel (Z.of_nat (List.length pre))
                          (Z.of_nat (List.length (pre ++ rest)) - 1) 2)
              (Ok acc)
    = Ok (acc ++ pairDurations rest).
Proof.
  induction rest as [|a|a b rest IH] using list_pair_ind; intros pre acc fuel Hfuel.
  - cbn [pairDurations]. rewrite (app_nil_r acc), app_nil_r. destruct fuel; simpl.
    + reflexivity.
    + assert (H : (Z.of_nat (List.length pre) <? Z.of_nat (List.length pre) - 1) = false)
        by (apply Z.ltb_ge; lia).
      rewrite H. reflexivity.
  - cbn [pairDurations]. rewrite (app_nil_r acc). destruct fuel; cbn [range_from fold_left].
    + reflexivity.
    + assert (H : (Z.of_nat (List.length pre)
                   <? Z.of_nat (List.length (pre ++ [a])) - 1) = false).
      { apply Z.ltb_ge. rewrite length_app. simpl. lia. }
      rewrite H. reflexivity.
  - destruct fuel as [|fuel]; [simpl in Hfuel; lia|].
    cbn [range_from].
    assert (H : (Z.of_nat (List.length pre)
                 <? Z.of_nat (List.length (pre ++ a :: b :: rest)) - 1) = true).
    { apply Z.ltb_lt. rewrite length_app. simpl. lia. }
    rewrite H. cbn [fold_left].
    assert (Hstep : bout_step (map Some (pre ++ a :: b :: rest)) (Ok acc)
                              (Z.of_nat (List.length pre))
                    = Ok (acc ++ [b - a]%Q)).
    { unfold bout_step, bind. rewrite map_app. cbn [map].
      replace (Z.of_nat (List.length pre))
        with (Z.of_nat (List.length (map Some pre))) by (now rewrite length_map).
      rewrite getitem_middle.
      replace (map Some pre ++ Some a :: Some b :: map Some rest)
        with ((map Some pre ++ [Some a]) ++ Some b :: map Some rest)
        by (now rewrite <- app_assoc).
      replace (Z.of_nat (List.length (map Some pre)) + 1)
        with (Z.of_nat (List.length (map Some pre ++ [Some a])))
        by (rewrite length_app; simpl; lia).
      rewrite getitem_middle. reflexivity. }
    rewrite Hstep.
    replace (pre ++ a :: b :: rest) with ((pre ++ [a; b]) ++ rest)
      by (now rewrite <- app_assoc).
    replace (Z.of_nat (List.length pre) + 2)
      with (Z.of_nat (List.length (pre ++ [a; b])))
      by (rewrite length_app; simpl; lia).
    rewrite IH by (simpl in Hfuel; lia).
    rewrite <- app_assoc. reflexivity.
Qed.

(** On numeric (non-NaN) timestamps the loop never raises and computes
    the pairing. *)
Lemma calculate_bout_durations_numeric (l : list Q) :
  calculate_bout_durations (map Some l) = Ok (pairDurations l).
Proof.
  unfold calculate_bout_durations, py_range.
  rewrite length_map.
  pose proof (bout_loop l [] [] (Z.to_nat (Z.of_nat (List.length l) - 1 - 0))) as H.
  simpl in H. apply H. lia.
Qed.

Lemma pairDurations_length (l : list Q) :
  List.length (pairDurations l) = (List.length l / 2)%nat.
Proof.
  induction l as [|a|a b l IH] using list_pair_ind; try reflexivity.
  cbn [pairDurations List.length]. rewrite IH.
  change (S (S (List.length l))) with (2 + List.length l)%nat.
  replace (2 + List.length l)%nat with (List.length l + 1 * 2)%nat by lia.
  rewrite Nat.div_add by lia. lia.
Qed.

Lemma pairDurations_nth (l : list Q) :
  forall k, (k < List.length l / 2)%nat ->
    nth k (pairDurations l) 0%Q
    = (nth (2 * k + 1) l 0 - nth (2 * k) l 0)%Q.
Proof.
  induction l as [|a|a b l IH] using list_pair_ind; intros k Hk.
  - simpl in Hk. lia.
  - simpl in Hk. lia.
  - destruct k as [|k].
    + reflexivity.
    + cbn [pairDurations nth].
      replace (2 * S k + 1)%nat with (S (S (2 * k + 1))) by lia.
      replace (2 * S k)%nat with (S (S (2 * k))) by lia.
      cbn [nth]. apply IH.
      change (S (S (List.length l))) with (2 + List.length l)%nat in Hk.
      cbn [List.length] in Hk.
      replace (S (S (List.length l))) with (List.length l + 1 * 2)%nat in Hk by lia.
      rewrite Nat.div_add in Hk by lia. lia.
Qed.

End BoutExtraction.

(** C1. For every list of numeric timestamps, [calculate_bout_durations]
    returns (without raising) one duration per pair of positions
    (2k, 2k+1), each the later-index value minus the earlier-index value;
    with an odd length the last element is left out.  In particular
    [1,3,5,9] gives [2,4] and [1,3,5] gives [2]. *)
Theorem C1_bout_pairing :
  forall l : list Q,
    exists durations,
      calculate_bout_durations (map Some l) = Ok durations
      /\ durations = pairDurations l
      /\ List.length durations = (List.length l / 2)%nat
      /\ (forall k, (k < List.length l / 2)%nat ->
            nth k durations 0%Q = (nth (2 * k + 1) l 0 - nth (2 * k) l 0)%Q)
      /\ calculate_bout_durations [Some 1; Some 3; Some 5; Some 9]%Q = Ok [2; 4]%Q
      /\ calculate_bout_durations [Some 1; Some 3; Some 5]%Q = Ok [2%Q].
Proof.
  intro l. exists (pairDurations l).
  split; [apply calculate_bout_durations_numeric|].
  split; [reflexivity|].
  split; [apply pairDurations_length|].
  split; [apply pairDurations_nth|].
  split; reflexivity.
Qed.

(** A pair with a NaN in it contributes no duration. *)
Example bouts_skip_nan :
  calculate_bout_durations [Some 1; None; Some 5; Some 9]%Q = Ok [4%Q].
Proof. reflexivity. Qed.

(** ** Metrics *)

Section Metrics.

Lemma Qpositive_true (x : Q) : Qpositive x = true <-> (0 < x)%Q.
Proof.
  unfold Qpositive. rewrite negb_true_iff.
  split; intro H.
  - apply Qnot_le_lt. intro Hle. apply Qle_bool_iff in Hle. congruence.
  - destruct (Qle_bool x 0) eqn:E; [|reflexivity].
    apply Qle_bool_iff in E. exfalso. apply (Qlt_not_le _ _ H E).
Qed.

Lemma Qpositive_false (x : Q) : Qpositive x = false <-> (x <= 0)%Q.
Proof.
  unfold Qpositive. rewrite negb_false_iff. apply Qle_bool_iff.
Qed.

Lemma total_time_sum (durations : list Q) : total_time durations = py_sum durations.
Proof. destruct durations; reflexivity. Qed.

Lemma fold_Qplus_nonneg (l : list Q) :
  forall a, (0 <= a)%Q -> Forall (fun d => 0 <= d)%Q l ->
            (0 <= fold_left Qplus l a)%Q.
Proof.
  induction l as [|d l IH]; intros a Ha Hl; simpl.
  - exact Ha.
  - inversion Hl; subst. apply IH; [lra | assumption].
Qed.

Lemma total_time_nonneg (durations : list Q) :
  Forall (fun d => 0 <= d)%Q durations -> (0 <= total_time durations)%Q.
Proof.
  intro H. rewrite total_time_sum. apply fold_Qplus_nonneg; [lra | exact H].
Qed.

(** The ratio of line 285 on non-negative totals. *)
Lemma di_ratio_bounds (t1 t2 : Q) :
  (0 <= t1)%Q -> (0 <= t2)%Q -> (0 < t1 + t2)%Q ->
  (-1 <= (t1 - t2) / (t1 + t2) <= 1)%Q.
Proof.
  intros H1 H2 Hpos. split.
  - apply Qle_shift_div_l; [exact Hpos | lra].
  - apply Qle_shift_div_r; [exact Hpos | lra].
Qed.

Lemma round_half_even_between (a b : Z) (q : Q) :
  (inject_Z a <= q)%Q -> (q <= inject_Z b)%Q ->
  a <= round_half_even q <= b.
Proof.
  intros Ha Hb.
  assert (Hfa : a <= Qfloor q).
  { rewrite <- (Qfloor_Z a). apply Qfloor_resp_le. exact Ha. }
  assert (Hfb : Qfloor q <= b).
  { rewrite <- (Qfloor_Z b). apply Qfloor_resp_le. exact Hb. }
  assert (Hup : (0 < q - inject_Z (Qfloor q))%Q -> Qfloor q + 1 <= b).
  { intro Hgt.
    assert (Hlt : (inject_Z (Qfloor q) < inject_Z b)%Q) by lra.
    rewrite <- Zlt_Qlt in Hlt. lia. }
  unfold round_half_even.
  destruct (Qcompare (q - inject_Z (Qfloor q)) (1 # 2)) eqn:E.
  - apply Qeq_alt in E.
    destruct (Z.even (Qfloor q)); [lia|].
    split; [lia|]. apply Hup. rewrite E. reflexivity.
  - lia.
  - apply Qgt_alt in E. split; [lia|]. apply Hup. lra.
Qed.

Lemma py_round_between (a b : Z) (x : Q) (ndigits : nat) :
  (inject_Z a <= x)%Q -> (x <= inject_Z b)%Q ->
  (inject_Z a <= py_round x ndigits <= inject_Z b)%Q.
Proof.
  intros Ha Hb. unfold py_round.
  set (p := Z.to_pos (10 ^ Z.of_nat ndigits)).
  assert (Hp : (0 < inject_Z (Zpos p))%Q).
  { unfold Qlt, inject_Z. simpl. lia. }
  destruct (round_half_even_between (a * Zpos p) (b * Zpos p) (x * inject_Z (Zpos p)))
    as [Hl Hu].
  - rewrite inject_Z_mult. apply Qmult_le_compat_r; [exact Ha | lra].
  - rewrite inject_Z_mult. apply Qmult_le_compat_r; [exact Hb | lra].
  - fold p. unfold Qle, inject_Z. cbn [Qnum Qden].
    rewrite !Z.mul_1_r. split; [exact Hl | exact Hu].
Qed.

End Metrics.


(** Totals 10 and 0 give DI 1 and TET 10; totals 6 and 4 give DI 0.2. *)
Example metrics_10_0 :
  (DI (summarize "s" [10%Q] []) == 1)%Q /\ (TET (summarize "s" [10%Q] []) == 10)%Q.
Proof. split; reflexivity. Qed.

Example metrics_6_4 :
  (DI (summarize "s" [6%Q] [4%Q]) == 2 # 10)%Q
  /\ (TET (summarize "s" [6%Q] [4%Q]) == 10)%Q.
Proof. split; reflexivity. Qed.




(** ** Numeric coercion *)

Section Coercion.

Lemma filter_string_app (f : ascii -> bool) (s t : string) :
  filter_string f (s ++ t)%string
  = (filter_string f s ++ filter_string f t)%string.
Proof.
  induction s as [|c s IH]; simpl.
  - reflexivity.
  - destruct (f c); simpl; now rewrite IH.
Qed.

Lemma forallb_string_app (f : ascii -> bool) (s t : string) :
  forallb_string f (s ++ t)%string = forallb_string f s && forallb_string f t.
Proof.
  induction s as [|c s IH]; simpl.
  - reflexivity.
  - rewrite IH. now rewrite andb_assoc.
Qed.

Lemma isdigit_val (c : ascii) : isdigit c = true -> 0 <= digit_val c.
Proof.
  unfold isdigit, digit_val. intro H.
  apply andb_true_iff in H. destruct H as [H _].
  apply Nat.leb_le in H. lia.
Qed.

Lemma digits_val_nonneg (s : string) :
  forall acc, 0 <= acc -> forallb_string isdigit s = true -> 0 <= digits_val acc s.
Proof.
  induction s as [|c s IH]; intros acc Hacc Hs;
    cbn [digits_val forallb_string] in *.
  - exact Hacc.
  - apply andb_true_iff in Hs. destruct Hs as [Hc Hs].
    apply IH; [|exact Hs]. pose proof (isdigit_val c Hc). lia.
Qed.

Lemma py_float_nonneg (s : string) (q : Q) : py_float s = Ok q -> (0 <= q)%Q.
Proof.
  unfold py_float. destruct (split_dot s) as [ip rest].
  destruct (forallb_string isdigit ip
            && forallb_string isdigit match rest with Some r => r | None => ""%string end
            && negb (String.eqb (ip ++ match rest with Some r => r | None => ""%string end)
                                "")) eqn:E; [|discriminate].
  intro H. injection H as <-.
  apply andb_true_iff in E. destruct E as [E _].
  unfold Qle. cbn [Qnum Qden]. rewrite Z.mul_1_r. simpl.
  apply digits_val_nonneg; [lia|].
  now rewrite forallb_string_app.
Qed.

Lemma py_float_error (s : string) (e : exn) : py_float s = Raise e -> e = ValueError.
Proof.
  unfold py_float. destruct (split_dot s) as [ip rest].
  destruct (_ && _); [discriminate|]. intro H. now injection H.
Qed.

(** The three outcomes of the text branch of the loop body. *)
Lemma clean_one_text (s : string) :
  let cleaned_str := filter_string keeps s in
  (cleaned_str = EmptyString /\ clean_one (Str s) = ([], []))
  \/ (cleaned_str <> EmptyString
      /\ exists q, py_float cleaned_str = Ok q /\ clean_one (Str s) = ([q], []))
  \/ (cleaned_str <> EmptyString
      /\ py_float cleaned_str = Raise ValueError
      /\ clean_one (Str s) = ([], [warning s])).
Proof.
  intro cleaned_str. unfold clean_one. fold cleaned_str.
  destruct (String.eqb cleaned_str "") eqn:E.
  - left. apply String.eqb_eq in E. auto.
  - apply String.eqb_neq in E.
    destruct (py_float cleaned_str) as [q|e] eqn:P.
    + right; left. split; [exact E|]. exists q. auto.
    + right; right. pose proof (py_float_error _ _ P) as He. subst e. auto.
Qed.

Lemma clean_timestamps_cons (ts : value) (rest : list value) :
  clean_timestamps (ts :: rest)
  = (fst (clean_one ts) ++ fst (clean_timestamps rest),
     snd (clean_one ts) ++ snd (clean_timestamps rest)).
Proof.
  simpl. destruct (clean_one ts), (clean_timestamps rest). reflexivity.
Qed.

End Coercion.



(** C9. A minus sign in a textual timestamp is removed with the other
    characters that are neither digits nor decimal points: the values
    obtained are those of the text without it, and no coerced text value
    is negative.  "-3.5" yields 3.5. *)
Theorem C9_minus_sign_stripped :
  forall s t : string,
    fst (clean_one (Str (s ++ "-" ++ t))) = fst (clean_one (Str (s ++ t)))
    /\ Forall (fun q => 0 <= q)%Q (fst (clean_one (Str (s ++ "-" ++ t))))
    /\ clean_timestamps [Str "-3.5"] = ([35 # 10]%Q, [])
    /\ (35 # 10 == 3.5)%Q
    /\ clean_timestamps [Str "-3.5"] = clean_timestamps [Str "3.5"].
Proof.
  intros s t.
  assert (Hf : filter_string keeps (s ++ "-" ++ t) = filter_string keeps (s ++ t)).
  { rewrite !filter_string_app. reflexivity. }
  split; [|split; [|repeat split; reflexivity]].
  - unfold clean_one. rewrite Hf.
    destruct (String.eqb _ _); [reflexivity|].
    destruct (py_float _); reflexivity.
  - destruct (clean_one_text (s ++ "-" ++ t)) as [[_ H]|[[_ [q [H2 H3]]]|[_ [_ H]]]].
    + rewrite H. constructor.
    + rewrite H3. constructor; [|constructor].
      apply (py_float_nonneg _ _ H2).
    + rewrite H. constructor.
Qed.

(** ** Layout detection and timestamp extraction *)

Section Layout.

Lemma detect_fold (cols : list label) :
  forall i st,
    fold_left detect_step (enumerate_from i cols) st
    = match snd st with
      | Some j => (match first_empty_col_from i cols with
                   | Some _ => true
                   | None => fst st
                   end, Some j)
      | None => match first_empty_col_from i cols with
                | Some k => (true, Some k)
                | None => st
                end
      end.
Proof.
  induction cols as [|col cols IH]; intros i [has start]; cbn [enumerate_from fold_left].
  - destruct start; reflexivity.
  - rewrite IH. cbn [first_empty_col_from detect_step].
    destruct (is_empty_col col); cbn [snd fst].
    + destruct start; destruct (first_empty_col_from (S i) cols); reflexivity.
    + destruct start; reflexivity.
Qed.

Lemma detectLayout_first (df : DataFrame) :
  detectLayout df
  = match first_empty_col df with Some i => Formatted i | None => Legacy end.
Proof.
  unfold detectLayout, detect_empty_columns, enumerate, first_empty_col.
  rewrite detect_fold. cbn [snd].
  destruct (first_empty_col_from 0 (labels df)); reflexivity.
Qed.

(** [first_empty_col_from] finds the least position that passes the test. *)
Lemma first_empty_col_from_spec (cols : list label) :
  forall i k,
    first_empty_col_from i cols = Some k ->
    (i <= k)%nat
    /\ (exists col, nth_error cols (k - i) = Some col /\ is_empty_col col = true)
    /\ (forall j col, (j < k - i)%nat -> nth_error cols j = Some col ->
                      is_empty_col col = false).
Proof.
  induction cols as [|c cols IH]; intros i k H; cbn [first_empty_col_from] in H.
  - discriminate.
  - destruct (is_empty_col c) eqn:E.
    + injection H as <-. rewrite Nat.sub_diag. split; [lia|]. split.
      * exists c. auto.
      * intros j col Hj. lia.
    + destruct (IH _ _ H) as [Hle [[col [Hn Hc]] Hbefore]].
      split; [lia|]. split.
      * exists col. replace (k - i)%nat with (S (k - S i)) by lia. auto.
      * intros j col' Hj Hn'. destruct j as [|j].
        -- cbn in Hn'. injection Hn' as <-. exact E.
        -- cbn in Hn'. apply (Hbefore j); [lia | exact Hn'].
Qed.

Lemma first_empty_col_from_some (cols : list label) :
  forall i, (exists col, In col cols /\ is_empty_col col = true) ->
            exists k, first_empty_col_from i cols = Some k.
Proof.
  induction cols as [|c cols IH]; intros i [col [Hin Hc]].
  - destruct Hin.
  - cbn [first_empty_col_from]. destruct (is_empty_col c) eqn:E.
    + eauto.
    + apply IH. exists col. split; [|exact Hc].
      destruct Hin as [->|Hin]; [congruence | exact Hin].
Qed.

Lemma iloc_col_first (df : DataFrame) (k : nat) :
  iloc_col (iloc_cols_to df k) 0
  = match k with O => Raise IndexError | S _ => iloc_col df 0 end.
Proof.
  unfold iloc_col, iloc_cols_to. cbn [columns].
  destruct k as [|k]; [reflexivity|].
  destruct (columns df); reflexivity.
Qed.

Lemma iloc_col_from (df : DataFrame) (k : nat) :
  iloc_col (iloc_cols_from df k) 0 = iloc_col df k.
Proof.
  unfold iloc_col, iloc_cols_from. cbn [columns].
  rewrite nth_error_skipn. now rewrite Nat.add_0_r.
Qed.

End Layout.

(** The specification covers every table with a filler or blank
    header; when that header is the first one, the object-1 block has no
    column and the extraction raises instead of yielding the two series. *)
Lemma C7_counterexample :
  is_empty_col (LStr "empty_1") = true
  /\ detectLayout leading_filler_df = Formatted 0
  /\ columns (iloc_cols_to leading_filler_df 0) = []
  /\ snd (extract_timestamps leading_filler_df) = Raise IndexError
  /\ snd (process_worksheet_for_di leading_filler_df "rat1") = Raise IndexError.
Proof. repeat split; reflexivity. Qed.

(** C7 (as amended). For every table with a header that starts with
    "empty_", is missing, or is blank, the layout is Formatted with
    splitIndex the position of the first such header.  When splitIndex is
    at least 1, object 1's timestamps are the non-missing values of column
    0 (the first column of columns [0, splitIndex)) and object 2's are the
    non-missing values of column splitIndex + 4 when that position is
    within bounds, and the empty list otherwise. *)
Theorem C7_formatted_extraction :
  forall df : DataFrame,
    (exists col, In col (labels df) /\ is_empty_col col = true) ->
    exists splitIndex : nat,
      detectLayout df = Formatted splitIndex
      /\ (exists col, nth_error (labels df) splitIndex = Some col
                      /\ is_empty_col col = true)
      /\ (forall j col, (j < splitIndex)%nat -> nth_error (labels df) j = Some col ->
                        is_empty_col col = false)
      /\ ((0 < splitIndex)%nat ->
          exists c0 : column,
            nth_error (columns (iloc_cols_to df splitIndex)) 0 = Some c0
            /\ nth_error (columns df) 0 = Some c0
            /\ snd (extract_timestamps df)
               = Ok (dropna (snd c0),
                     if (splitIndex + 4 <? ncols df)%nat
                     then match nth_error (columns df) (splitIndex + 4) with
                          | Some c => dropna (snd c)
                          | None => []
                          end
                     else [])).
Proof.
  intros df Hex.
  destruct (first_empty_col_from_some (labels df) 0 Hex) as [k Hk].
  destruct (first_empty_col_from_spec _ _ _ Hk) as [_ [Hat Hbefore]].
  rewrite Nat.sub_0_r in Hat, Hbefore.
  assert (Hlay : detectLayout df = Formatted k).
  { rewrite detectLayout_first. unfold first_empty_col. now rewrite Hk. }
  exists k. split; [exact Hlay|]. split; [exact Hat|]. split; [exact Hbefore|].
  intro Hpos.
  destruct Hat as [col [Hn _]].
  assert (Hlen : (k < ncols df)%nat).
  { unfold ncols. replace (List.length (columns df)) with (List.length (labels df))
      by apply length_map.
    apply nth_error_Some. congruence. }
  destruct (nth_error (columns df) 0) as [c0|] eqn:E0.
  2:{ apply nth_error_None in E0. unfold ncols in Hlen. lia. }
  exists c0. split; [|split; [reflexivity|]].
  - cbn [iloc_cols_to columns]. destruct k; [lia|].
    destruct (columns df); [discriminate|]. exact E0.
  - unfold extract_timestamps. rewrite Hlay. cbn [snd].
    rewrite iloc_col_first, iloc_col_from.
    destruct k as [|k']; [lia|].
    unfold iloc_col at 2. rewrite E0.
    destruct (S k' + 4 <? ncols df)%nat eqn:Eb; cbn [bind].
    + unfold iloc_col.
      destruct (nth_error (columns df) (S k' + 4)) as [c|] eqn:E4.
      * reflexivity.
      * apply nth_error_None in E4. apply Nat.ltb_lt in Eb. unfold ncols in Eb. lia.
    + reflexivity.
Qed.

Lemma C7_formatted_extraction_witness :
  exists splitIndex : nat,
    detectLayout formatted_df = Formatted splitIndex
    /\ (exists col, nth_error (labels formatted_df) splitIndex = Some col
                    /\ is_empty_col col = true)
    /\ (forall j col, (j < splitIndex)%nat ->
                      nth_error (labels formatted_df) j = Some col ->
                      is_empty_col col = false)
    /\ ((0 < splitIndex)%nat ->
        exists c0 : column,
          nth_error (columns (iloc_cols_to formatted_df splitIndex)) 0 = Some c0
          /\ nth_error (columns formatted_df) 0 = Some c0
          /\ snd (extract_timestamps formatted_df)
             = Ok (dropna (snd c0),
                   if (splitIndex + 4 <? ncols formatted_df)%nat
                   then match nth_error (columns formatted_df) (splitIndex + 4) with
                        | Some c => dropna (snd c)
                        | None => []
                        end
                   else [])).
Proof.
  apply (C7_formatted_extraction formatted_df).
  exists (LStr "empty_1"). split; [simpl; tauto | reflexivity].
Defined.

(** On the merged sample: split at 1, object 1 from column 0, object 2
    from column 5. *)
Example formatted_df_extraction :
  detectLayout formatted_df = Formatted 1
  /\ snd (extract_timestamps formatted_df)
     = Ok ([Float 1; Float 3]%Q, [Float 5; Float 9]%Q).
Proof. split; reflexivity. Qed.

(** ** The per-sheet loop *)

Section SheetLoop.

Variable workbook : list (string * result DataFrame).
Variable write_di_summary_to_sheet : string -> summary -> list string.

Let step := di_step workbook write_di_summary_to_sheet.

Lemma process_sheet_name (df : DataFrame) (sheet_name : string) (s : summary) :
  snd (process_worksheet_for_di df sheet_name) = Ok s -> Sheet_Name s = sheet_name.
Proof.
  unfold process_worksheet_for_di.
  destruct (extract_timestamps df) as [line1 [[raw1 raw2]|e]]; [|discriminate].
  destruct (clean_timestamps raw1) as [t1 w1], (clean_timestamps raw2) as [t2 w2].
  cbn [snd].
  destruct (calculate_bout_durations (map Some t1)) as [d1|]; [|discriminate].
  destruct (calculate_bout_durations (map Some t2)) as [d2|]; [|discriminate].
  cbn [bind]. intro H. injection H as <-. reflexivity.
Qed.

(** What one iteration does to the two components of the state. *)
Lemma di_step_ok (st : di_state) (sheet_name : string) :
  sheet_ok workbook sheet_name = true ->
  exists s, all_summaries (step st sheet_name) = all_summaries st ++ [s]
            /\ Sheet_Name s = sheet_name
            /\ exists lines, printed (step st sheet_name) = printed st ++ lines.
Proof.
  unfold sheet_ok, step, di_step.
  destruct (read_excel workbook sheet_name) as [df|e]; [|discriminate].
  destruct (process_worksheet_for_di df sheet_name) as [lines [s|e]] eqn:E;
    cbn [snd]; [|discriminate].
  intros _. exists s. split; [reflexivity|]. split.
  - apply (process_sheet_name df). now rewrite E.
  - eexists. reflexivity.
Qed.

Lemma di_step_failed (st : di_state) (sheet_name : string) :
  sheet_ok workbook sheet_name = false ->
  all_summaries (step st sheet_name) = all_summaries st
  /\ exists lines e,
       printed (step st sheet_name) = printed st ++ lines ++ [sheet_error sheet_name e].
Proof.
  unfold sheet_ok, step, di_step.
  destruct (read_excel workbook sheet_name) as [df|e].
  - destruct (process_worksheet_for_di df sheet_name) as [lines [s|e]];
      cbn [snd]; [discriminate|].
    intros _. split; [reflexivity|]. exists lines, e. reflexivity.
  - intros _. split; [reflexivity|]. exists [], e. reflexivity.
Qed.

Lemma di_loop_summaries (names : list string) :
  forall st,
    map Sheet_Name (all_summaries (fold_left step names st))
    = map Sheet_Name (all_summaries st) ++ filter (sheet_ok workbook) names.
Proof.
  induction names as [|n names IH]; intro st; cbn [fold_left filter].
  - now rewrite app_nil_r.
  - rewrite IH. destruct (sheet_ok workbook n) eqn:E.
    + destruct (di_step_ok st n E) as [s [Hs [Hn _]]].
      rewrite Hs, map_app, <- app_assoc. cbn [map app]. now rewrite Hn.
    + destruct (di_step_failed st n E) as [Hs _]. now rewrite Hs.
Qed.

Lemma di_step_printed (st : di_state) (sheet_name : string) :
  exists lines, printed (step st sheet_name) = printed st ++ lines.
Proof.
  destruct (sheet_ok workbook sheet_name) eqn:E.
  - destruct (di_step_ok st sheet_name E) as [_ [_ [_ H]]]. exact H.
  - destruct (di_step_failed st sheet_name E) as [_ [lines [e H]]].
    eexists. exact H.
Qed.

Lemma di_loop_printed (names : list string) :
  forall st, exists lines, printed (fold_left step names st) = printed st ++ lines.
Proof.
  induction names as [|n names IH]; intro st; cbn [fold_left].
  - exists []. now rewrite app_nil_r.
  - destruct (IH (step st n)) as [l2 H2].
    destruct (di_step_printed st n) as [l1 H1].
    exists (l1 ++ l2). now rewrite H2, H1, app_assoc.
Qed.

Lemma di_loop_logs_failure (names : list string) :
  forall st n,
    In n names -> sheet_ok workbook n = false ->
    exists e, In (sheet_error n e) (printed (fold_left step names st)).
Proof.
  induction names as [|m names IH]; intros st n Hin Hfail; [destruct Hin|].
  cbn [fold_left].
  destruct (String.eqb m n) eqn:E.
  - apply String.eqb_eq in E. subst m.
    destruct (di_step_failed st n Hfail) as [_ [lines [e H]]].
    destruct (di_loop_printed names (step st n)) as [more Hmore].
    exists e. rewrite Hmore, H.
    apply in_or_app. left. apply in_or_app. right.
    apply in_or_app. right. now left.
  - destruct Hin as [->|Hin].
    + rewrite String.eqb_refl in E. discriminate.
    + apply IH; assumption.
Qed.

Lemma report_names_rows (sums : list summary) :
  forall k,
    report_names (consolidated_rows k sums)
    = filter (fun name => negb (String.eqb name "Consolidated Data"))
             (map Sheet_Name sums).
Proof.
  induction sums as [|s sums IH]; intro k; cbn [consolidated_rows map filter].
  - reflexivity.
  - destruct (negb (String.eqb (Sheet_Name s) "Consolidated Data")).
    + unfold report_names in *. rewrite flat_map_app. rewrite IH. reflexivity.
    + apply IH.
Qed.

End SheetLoop.

(** C8. The loop visits every sheet of the workbook except the one named
    "Consolidated Data", in workbook order.  A sheet whose reading or
    processing raises has the exception caught and an error line printed
    for it, contributes no summary and is not listed in the consolidated
    report; every other visited sheet, before or after a failing one,
    contributes its summary and is listed. *)
Theorem C8_sheet_loop :
  forall (workbook : list (string * result DataFrame))
         (write_di_summary_to_sheet : string -> summary -> list string),
    let run := calculate_discrimination_index workbook write_di_summary_to_sheet in
    let summaries := fst (fst run) in
    let report := snd (fst run) in
    let printed := snd run in
    let visited := sheet_names workbook in
    visited = filter (fun name => negb (String.eqb name "Consolidated Data"))
                     (map fst workbook)
    /\ map Sheet_Name summaries = filter (sheet_ok workbook) visited
    /\ (summaries <> [] ->
        exists rows, report = Some rows
                     /\ report_names rows = filter (sheet_ok workbook) visited)
    /\ (forall name,
          In name visited -> sheet_ok workbook name = false ->
          (exists e, In (sheet_error name e) printed)
          /\ ~ In name (map Sheet_Name summaries)
          /\ (forall rows, report = Some rows -> ~ In name (report_names rows)))
    /\ (forall name,
          In name visited -> sheet_ok workbook name = true ->
          In name (map Sheet_Name summaries)
          /\ (forall rows, report = Some rows -> In name (report_names rows))).
Proof.
  intros workbook write. cbv zeta.
  unfold calculate_discrimination_index. cbn [fst snd].
  set (summaries := all_summaries (di_loop workbook write)).
  set (visited := sheet_names workbook).
  assert (Hsum : map Sheet_Name summaries = filter (sheet_ok workbook) visited).
  { subst summaries visited. unfold di_loop. now rewrite di_loop_summaries. }
  assert (Hvis : forall name, In name visited ->
                              String.eqb name "Consolidated Data" = false).
  { intros name Hin. subst visited. unfold sheet_names in Hin.
    apply filter_In in Hin. destruct Hin as [_ H]. now apply negb_true_iff in H. }
  assert (Hnames : report_names (create_di_consolidated_sheet summaries)
                   = filter (sheet_ok workbook) visited).
  { unfold create_di_consolidated_sheet.
    change (report_names ((1%nat, XText "Sheet Name", XText "Values")
                            :: consolidated_rows 2 summaries))
      with (report_names (consolidated_rows 2 summaries)).
    rewrite report_names_rows, Hsum.
    apply forallb_filter_id. apply forallb_forall. intros name Hin.
    apply filter_In in Hin. destruct Hin as [Hin _].
    now rewrite (Hvis name Hin). }
  assert (Hrep : forall rows,
             match summaries with
             | [] => None
             | _ :: _ => Some (create_di_consolidated_sheet summaries)
             end = Some rows ->
             report_names rows = filter (sheet_ok workbook) visited).
  { intros rows Hr. destruct summaries as [|s0 rest]; [discriminate|].
    injection Hr as <-. exact Hnames. }
  split; [reflexivity|]. split; [exact Hsum|]. split; [|split].
  - intro Hne. exists (create_di_consolidated_sheet summaries).
    split; [|exact Hnames].
    destruct summaries; [congruence | reflexivity].
  - intros name Hin Hfail. split; [|split].
    + unfold di_loop. apply di_loop_logs_failure; assumption.
    + rewrite Hsum. intro H. apply filter_In in H. destruct H as [_ H]. congruence.
    + intros rows Hr. rewrite (Hrep rows Hr). intro H.
      apply filter_In in H. destruct H as [_ H]. congruence.
  - intros name Hin Hok. split.
    + rewrite Hsum. apply filter_In. auto.
    + intros rows Hr. rewrite (Hrep rows Hr). apply filter_In. auto.
Qed.

(** ** Keys and stems *)

Section Stems.

Lemma startswith_app (s : string) :
  forall p r,
    startswith (s ++ r)%string p = true ->
    startswith s p = true
    \/ exists p2, p = (s ++ p2)%string /\ p2 <> EmptyString /\ startswith r p2 = true.
Proof.
  induction s as [|b s IH]; intros p r H.
  - destruct p as [|a p]; [left; reflexivity|].
    right. exists (String a p). cbn in *. repeat split; [discriminate | exact H].
  - destruct p as [|a p]; [left; reflexivity|].
    cbn [append startswith] in H |- *.
    apply andb_true_iff in H. destruct H as [Hab H].
    destruct (IH _ _ H) as [Hs|[p2 [Hp [Hne Hr]]]].
    + left. now rewrite Hab, Hs.
    + right. exists p2. apply Ascii.eqb_eq in Hab. subst a p. auto.
Qed.

Lemma startswith_grow (s p r : string) :
  startswith s p = true -> startswith (s ++ r)%string p = true.
Proof.
  revert s. induction p as [|a p IH]; intros s H; [reflexivity|].
  destruct s as [|b s]; [discriminate|]. cbn [append startswith] in *.
  apply andb_true_iff in H. destruct H as [Hab H].
  now rewrite Hab, IH.
Qed.

(** A match cannot begin inside a non-empty [s] and end inside the
    ["_obj_"] that follows it. *)
Lemma straddle_1or2 (x : ascii) (s d : string) :
  s <> EmptyString ->
  startswith (s ++ "_obj_" ++ d)%string (String "_" (String "o" (String "b"
               (String "j" (String "_" (String x EmptyString)))))) = true ->
  (x = "1" \/ x = "2")%char ->
  startswith s (String "_" (String "o" (String "b"
               (String "j" (String "_" (String x EmptyString)))))) = true.
Proof.
  intros Hne H Hx.
  destruct (startswith_app _ _ _ H) as [Hs|[p2 [Hp [Hp2 Hr]]]]; [exact Hs|].
  exfalso.
  destruct s as [|a0 s]; [congruence|]. injection Hp as <- Hp.
  destruct s as [|a1 s].
  { cbn in Hp. subst p2. cbn in Hr. discriminate. }
  injection Hp as <- Hp. destruct s as [|a2 s].
  { cbn in Hp. subst p2. cbn in Hr. discriminate. }
  injection Hp as <- Hp. destruct s as [|a3 s].
  { cbn in Hp. subst p2. cbn in Hr. discriminate. }
  injection Hp as <- Hp. destruct s as [|a4 s].
  { cbn in Hp. subst p2. cbn [append startswith] in Hr.
    destruct Hx; subst x; cbn in Hr; discriminate. }
  injection Hp as <- Hp. destruct s as [|a5 s].
  { cbn in Hp. subst p2. cbn [append startswith] in Hr.
    destruct Hx; subst x; cbn in Hr; discriminate. }
  injection Hp as <- Hp. destruct s; [cbn in Hp; congruence | discriminate].
Qed.

Lemma obj_match_straddle (s d : string) :
  s <> EmptyString -> obj_match s = false ->
  obj_match (s ++ "_obj_" ++ d)%string = false.
Proof.
  unfold obj_match. intros Hne H.
  apply orb_false_iff in H. destruct H as [H1 H2].
  apply orb_false_iff. split.
  - destruct (startswith (s ++ "_obj_" ++ d) "_obj_1") eqn:E; [|reflexivity].
    rewrite (straddle_1or2 "1" s d Hne E) in H1 by auto. discriminate.
  - destruct (startswith (s ++ "_obj_" ++ d) "_obj_2") eqn:E; [|reflexivity].
    rewrite (straddle_1or2 "2" s d Hne E) in H2 by auto. discriminate.
Qed.

(** A name in which the pattern matches nowhere is its own stem, and
    conversely. *)
Lemma stem_of_cons (c : ascii) (s : string) :
  stem_of (String c s) = String c s ->
  obj_match (String c s) = false /\ stem_of s = s.
Proof.
  cbn [stem_of]. destruct (obj_match (String c s)); [discriminate|].
  intro H. injection H as H. auto.
Qed.

Lemma stem_of_app_key (s d : string) :
  stem_of s = s ->
  stem_of (s ++ "_obj_" ++ d)%string = (s ++ stem_of ("_obj_" ++ d))%string.
Proof.
  induction s as [|c s IH]; intro H; [reflexivity|].
  destruct (stem_of_cons c s H) as [Hm Hs].
  assert (Hne : String c s <> EmptyString) by discriminate.
  pose proof (obj_match_straddle (String c s) d Hne Hm) as Hst.
  specialize (IH Hs).
  set (r := ("_obj_" ++ d)%string) in *.
  change ((String c s ++ r)%string) with (String c (s ++ r)%string) in *.
  cbn [stem_of]. rewrite Hst, IH. reflexivity.
Qed.

End Stems.

Section KeyText.

Lemma forallb_string_impl (f g : ascii -> bool) (s : string) :
  (forall c, f c = true -> g c = true) ->
  forallb_string f s = true -> forallb_string g s = true.
Proof.
  intro Hfg. induction s as [|c s IH]; cbn [forallb_string]; [reflexivity|].
  intro H. apply andb_true_iff in H. destruct H as [Hc Hs].
  now rewrite (Hfg c Hc), IH.
Qed.

Lemma uint_text (d : Decimal.uint) :
  forallb_string isdigit (NilEmpty.string_of_uint d) = true.
Proof. induction d; cbn [NilEmpty.string_of_uint forallb_string]; auto. Qed.

Lemma isdigit_sign_or_digit (c : ascii) : isdigit c = true -> sign_or_digit c = true.
Proof. unfold sign_or_digit. intros ->. reflexivity. Qed.

(** [str(z)] is made of digits and, possibly, a sign. *)
Lemma Z_to_string_text (z : Z) : forallb_string sign_or_digit (Z_to_string z) = true.
Proof.
  unfold Z_to_string.
  assert (H : forall d, forallb_string sign_or_digit (NilZero.string_of_uint d) = true).
  { intro d. apply (forallb_string_impl isdigit); [apply isdigit_sign_or_digit|].
    destruct d; try apply uint_text. reflexivity. }
  destruct (Z.to_int z); cbn [NilZero.string_of_int forallb_string]; [apply H|].
  now rewrite H.
Qed.

Lemma sign_or_digit_not_underscore (c : ascii) :
  sign_or_digit c = true -> Ascii.eqb "_" c = false.
Proof.
  destruct (Ascii.eqb "_" c) eqn:E; [|reflexivity].
  apply Ascii.eqb_eq in E. subst c. discriminate.
Qed.

Lemma stem_of_text (d : string) :
  forallb_string sign_or_digit d = true -> stem_of d = d.
Proof.
  induction d as [|c d IH]; cbn [forallb_string stem_of]; [reflexivity|].
  intro H. apply andb_true_iff in H. destruct H as [Hc Hd].
  unfold obj_match. cbn [startswith].
  rewrite (sign_or_digit_not_underscore c Hc). cbn [andb orb].
  now rewrite IH.
Qed.

Lemma startswith_cons (s p : string) (a b : ascii) :
  startswith (String b s) (String a p) = Ascii.eqb a b && startswith s p.
Proof. reflexivity. Qed.

(** Comparisons of two literal characters are evaluated. *)
Ltac eqb_consts :=
  repeat match goal with
         | |- context [Ascii.eqb ?a ?b] =>
             assert_fails (is_var b);
             let v := eval vm_compute in (Ascii.eqb a b) in
             change (Ascii.eqb a b) with v
         end.

(** The tail ["_obj_<id>"] of a key: cut when the identifier's text
    begins with 1 or 2, kept whole otherwise. *)
Lemma stem_of_tail_match (d : string) :
  startswith d "1" || startswith d "2" = true ->
  stem_of ("_obj_" ++ d) = EmptyString.
Proof.
  intro H. cbn [append stem_of]. unfold obj_match.
  rewrite !startswith_cons. eqb_consts. cbn [andb]. now rewrite H.
Qed.

Lemma stem_of_tail_other (d : string) :
  forallb_string sign_or_digit d = true ->
  startswith d "1" = false -> startswith d "2" = false ->
  stem_of ("_obj_" ++ d) = ("_obj_" ++ d)%string.
Proof.
  intros Hd H1 H2.
  assert (Hu : startswith d "obj_1" = false /\ startswith d "obj_2" = false).
  { destruct d as [|c d]; [split; reflexivity|].
    cbn [forallb_string] in Hd. apply andb_true_iff in Hd. destruct Hd as [Hc _].
    rewrite !startswith_cons.
    destruct (Ascii.eqb "o" c) eqn:E; [|split; reflexivity].
    apply Ascii.eqb_eq in E. subst c. discriminate. }
  destruct Hu as [Hu1 Hu2].
  cbn [append stem_of]. unfold obj_match.
  rewrite !startswith_cons. eqb_consts. cbn [andb orb].
  rewrite H1, H2, Hu1, Hu2. cbn [orb]. now rewrite stem_of_text.
Qed.

End KeyText.

(** ** Sorting, dictionaries and the grouping of keys *)

Section Containers.

Lemma compare_common_prefix (s a b : string) :
  String.compare (s ++ a) (s ++ b) = String.compare a b.
Proof.
  induction s as [|c s IH]; [reflexivity|].
  cbn [append String.compare].
  assert (H : Ascii.compare c c = Eq).
  { unfold Ascii.compare. apply N.compare_refl. }
  now rewrite H.
Qed.

Lemma key_1_before_2 (sheet_name : string) :
  String.ltb (group_key sheet_name 1) (group_key sheet_name 2) = true.
Proof.
  unfold group_key, String.ltb. now rewrite compare_common_prefix.
Qed.

Lemma ltb_leb (s t : string) :
  String.ltb s t = true -> String.leb s t = true /\ String.leb t s = false.
Proof.
  unfold String.ltb, String.leb. rewrite (String.compare_antisym t s).
  destruct (String.compare s t); try discriminate. auto.
Qed.

Lemma insert_sorted_In (x s : string) (l : list string) :
  In x (insert_sorted s l) <-> x = s \/ In x l.
Proof.
  induction l as [|t l IH]; cbn [insert_sorted].
  - cbn. intuition.
  - destruct (String.leb s t); cbn [In]; [intuition|].
    rewrite IH. intuition.
Qed.

Lemma sort_strings_In (x : string) (l : list string) :
  In x (sort_strings l) <-> In x l.
Proof.
  induction l as [|s l IH]; [reflexivity|].
  cbn [sort_strings fold_right]. fold (sort_strings l).
  rewrite insert_sorted_In, IH. cbn. intuition.
Qed.

Lemma insert_sorted_length (s : string) (l : list string) :
  List.length (insert_sorted s l) = S (List.length l).
Proof.
  induction l as [|t l IH]; cbn [insert_sorted]; [reflexivity|].
  destruct (String.leb s t); cbn [List.length]; [reflexivity|]. now rewrite IH.
Qed.

Lemma sort_strings_length (l : list string) :
  List.length (sort_strings l) = List.length l.
Proof.
  induction l as [|s l IH]; [reflexivity|].
  cbn [sort_strings fold_right]. fold (sort_strings l).
  now rewrite insert_sorted_length, IH.
Qed.

Variable V : Type.

Lemma dict_get_In (d : list (string * V)) (k : string) :
  In k (map fst d) -> exists v, dict_get d k = Ok v.
Proof.
  induction d as [|[k' v'] d IH]; cbn [map fst In dict_get]; [tauto|].
  intros [->|Hin].
  - rewrite String.eqb_refl. eauto.
  - destruct (String.eqb k' k); eauto.
Qed.

Lemma dict_get_Ok_In (d : list (string * V)) (k : string) (v : V) :
  dict_get d k = Ok v -> In k (map fst d).
Proof.
  induction d as [|[k' v'] d IH]; cbn [map fst In dict_get]; [discriminate|].
  destruct (String.eqb k' k) eqn:E.
  - apply String.eqb_eq in E. auto.
  - auto.
Qed.

Lemma dict_set_keys (d : list (string * V)) (k : string) (v : V) (x : string) :
  In x (map fst (dict_set d k v)) <-> x = k \/ In x (map fst d).
Proof.
  induction d as [|[k' v'] d IH]; cbn [dict_set map fst In].
  - intuition.
  - destruct (String.eqb k' k) eqn:E; cbn [map fst In].
    + apply String.eqb_eq in E. subst k'. intuition.
    + rewrite IH. intuition.
Qed.

Lemma dict_set_NoDup (d : list (string * V)) (k : string) (v : V) :
  NoDup (map fst d) -> NoDup (map fst (dict_set d k v)).
Proof.
  induction d as [|[k' v'] d IH]; cbn [dict_set map fst]; intro H.
  - constructor; [intros []|constructor].
  - inversion H as [|? ? Hnin Hnd]; subst.
    destruct (String.eqb k' k) eqn:E; cbn [map fst].
    + constructor; assumption.
    + constructor; [|auto].
      rewrite dict_set_keys. intros [->|Hin]; [|contradiction].
      rewrite String.eqb_refl in E. discriminate.
Qed.

End Containers.

Section Grouping.

Lemma dict_append_keys (d : list (string * list string)) (k x y : string) :
  In y (map fst (dict_append d k x)) <-> y = k \/ In y (map fst d).
Proof.
  induction d as [|[k' l] d IH]; cbn [dict_append map fst In].
  - intuition.
  - destruct (String.eqb k' k) eqn:E; cbn [map fst In].
    + apply String.eqb_eq in E. subst k'. intuition.
    + rewrite IH. intuition.
Qed.

Lemma dict_append_NoDup (d : list (string * list string)) (k x : string) :
  NoDup (map fst d) -> NoDup (map fst (dict_append d k x)).
Proof.
  induction d as [|[k' l] d IH]; cbn [dict_append map fst]; intro H.
  - constructor; [intros []|constructor].
  - inversion H as [|? ? Hnin Hnd]; subst.
    destruct (String.eqb k' k) eqn:E; cbn [map fst].
    + constructor; assumption.
    + constructor; [|auto].
      rewrite dict_append_keys. intros [->|Hin]; [|contradiction].
      rewrite String.eqb_refl in E. discriminate.
Qed.

Lemma dict_append_stem_list (d : list (string * list string)) (k x stem : string) :
  stem_list (dict_append d k x) stem
  = if String.eqb k stem then stem_list d stem ++ [x] else stem_list d stem.
Proof.
  induction d as [|[k' l] d IH]; cbn [dict_append stem_list].
  - destruct (String.eqb k stem); reflexivity.
  - destruct (String.eqb k' k) eqn:E; cbn [stem_list].
    + apply String.eqb_eq in E. subst k'.
      destruct (String.eqb k stem); reflexivity.
    + rewrite IH. destruct (String.eqb k' stem) eqn:E'; [|reflexivity].
      apply String.eqb_eq in E'. subst k'. now rewrite String.eqb_sym, E.
Qed.

Lemma stem_list_In (groups : list (string * list string)) (stem : string)
      (l : list string) :
  NoDup (map fst groups) -> In (stem, l) groups -> stem_list groups stem = l.
Proof.
  induction groups as [|[s l'] groups IH]; intros Hnd Hin; [destruct Hin|].
  cbn [map fst] in Hnd. inversion Hnd as [|? ? Hnin Hnd']; subst.
  cbn [stem_list]. destruct Hin as [Heq|Hin].
  - injection Heq as -> ->. now rewrite String.eqb_refl.
  - destruct (String.eqb s stem) eqn:E; [|auto].
    apply String.eqb_eq in E. subst s. exfalso. apply Hnin.
    change stem with (fst (stem, l)). now apply in_map.
Qed.

Lemma group_stems_fold (keys : list string) :
  forall acc,
    NoDup (map fst acc) ->
    let groups :=
      fold_left (fun sheet_groups sheet_key =>
                   dict_append sheet_groups (stem_of sheet_key) sheet_key)
                keys acc in
    NoDup (map fst groups)
    /\ (forall stem,
          stem_list groups stem
          = stem_list acc stem
              ++ filter (fun k => String.eqb (stem_of k) stem) keys)
    /\ (forall stem,
          In stem (map fst groups)
          <-> In stem (map fst acc) \/ exists k, In k keys /\ stem_of k = stem).
Proof.
  induction keys as [|k keys IH]; intros acc Hnd; cbn [fold_left].
  - split; [exact Hnd|]. split.
    + intro stem. cbn [filter]. now rewrite app_nil_r.
    + intro stem. split; [auto|]. intros [H|[k [[] _]]]. exact H.
  - destruct (IH (dict_append acc (stem_of k) k) (dict_append_NoDup _ _ _ Hnd))
      as [H1 [H2 H3]].
    split; [exact H1|]. split.
    + intro stem. rewrite H2, dict_append_stem_list. cbn [filter].
      destruct (String.eqb (stem_of k) stem); [|reflexivity].
      now rewrite <- app_assoc.
    + intro stem. rewrite H3, dict_append_keys. split.
      * intros [[->|H]|[k' [Hin Hk]]].
        -- right. exists k. split; [now left | reflexivity].
        -- now left.
        -- right. exists k'. split; [now right | exact Hk].
      * intros [H|[k' [[->|Hin] Hk]]].
        -- left. now right.
        -- left. left. now rewrite Hk.
        -- right. exists k'. auto.
Qed.

(** [group_stems]: one entry per stem, holding the keys with that stem in
    their order. *)
Lemma group_stems_spec (keys : list string) :
  NoDup (map fst (group_stems keys))
  /\ (forall stem l,
        In (stem, l) (group_stems keys) ->
        l = filter (fun k => String.eqb (stem_of k) stem) keys)
  /\ (forall k, In k keys ->
                exists l, In (stem_of k, l) (group_stems keys)).
Proof.
  destruct (group_stems_fold keys [] (NoDup_nil _)) as [H1 [H2 H3]].
  fold (group_stems keys) in H1, H2, H3.
  split; [exact H1|]. split.
  - intros stem l Hin. rewrite <- (stem_list_In _ _ _ H1 Hin). now rewrite H2.
  - intros k Hin.
    assert (Hs : In (stem_of k) (map fst (group_stems keys))).
    { apply H3. right. exists k. auto. }
    apply in_map_iff in Hs. destruct Hs as [[s l] [Hs Hin']].
    cbn [fst] in Hs. subst s. eauto.
Qed.

Lemma filter_unique (f : string -> bool) (x : string) (l : list string) :
  NoDup l -> In x l -> (forall y, In y l -> f y = true -> y = x) -> f x = true ->
  filter f l = [x].
Proof.
  induction l as [|y l IH]; intros Hnd Hin Hu Hx; [destruct Hin|].
  inversion Hnd as [|? ? Hnin Hnd']; subst. cbn [filter].
  destruct Hin as [->|Hin].
  - rewrite Hx. f_equal.
    assert (Hnone : forall z, In z l -> f z = false).
    { intros z Hz. destruct (f z) eqn:E; [|reflexivity].
      exfalso. apply Hnin. rewrite <- (Hu z (or_intror Hz) E). exact Hz. }
    clear - Hnone. induction l as [|z l IH]; [reflexivity|].
    cbn [filter]. rewrite (Hnone z (or_introl eq_refl)).
    apply IH. intros w Hw. apply Hnone. now right.
  - destruct (f y) eqn:E.
    + exfalso. apply Hnin. rewrite (Hu y (or_introl eq_refl) E). exact Hin.
    + apply IH; auto. intros z Hz. apply Hu. now right.
Qed.

End Grouping.

(** ** The merger *)

Section Merger.

Variable separated_data : list (string * DataFrame).

Lemma getitem_0 (A : Type) (x : A) (l : list A) : getitem (x :: l) 0 = Ok x.
Proof. exact (getitem_middle A [] x l). Qed.

Lemma getitem_1 (A : Type) (x y : A) (l : list A) : getitem (x :: y :: l) 1 = Ok y.
Proof. exact (getitem_middle A [x] y l). Qed.

(** A stem with a single key: the table stored under it, untouched. *)
Lemma combine_stem_single (k : string) (g : DataFrame) :
  dict_get separated_data k = Ok g -> combine_stem separated_data [k] = Ok g.
Proof.
  intro H. unfold combine_stem. cbn [sort_strings fold_right insert_sorted].
  rewrite getitem_0. cbn [bind]. rewrite H. reflexivity.
Qed.

(** Two keys, in either order: the smaller one first. *)
Lemma combine_stem_pair (k1 k2 : string) (g1 g2 : DataFrame) (sheet_list : list string) :
  String.leb k1 k2 = true -> String.leb k2 k1 = false ->
  sheet_list = [k1; k2] \/ sheet_list = [k2; k1] ->
  dict_get separated_data k1 = Ok g1 ->
  dict_get separated_data k2 = Ok g2 ->
  combine_stem separated_data sheet_list
  = Ok (concat_axis1 (reset_index (add_empty_columns g1)) (reset_index g2)).
Proof.
  intros H12 H21 Hl Hg1 Hg2.
  assert (Hs : sort_strings sheet_list = [k1; k2]).
  { destruct Hl as [-> | ->]; cbn [sort_strings fold_right insert_sorted].
    - now rewrite H12.
    - now rewrite H21. }
  unfold combine_stem. rewrite Hs, getitem_0, getitem_1. cbn [bind].
  rewrite Hg1, Hg2. reflexivity.
Qed.

(** The loop body never raises on a non-empty list of stored keys. *)
Lemma combine_stem_total (sheet_list : list string) :
  sheet_list <> [] ->
  (forall k, In k sheet_list -> In k (map fst separated_data)) ->
  exists combined_df, combine_stem separated_data sheet_list = Ok combined_df.
Proof.
  intros Hne Hin. unfold combine_stem.
  assert (Hin' : forall k, In k (sort_strings sheet_list) ->
                           exists g, dict_get separated_data k = Ok g).
  { intros k Hk. apply dict_get_In, Hin, sort_strings_In, Hk. }
  pose proof (sort_strings_length sheet_list) as Hlen.
  destruct (sort_strings sheet_list) as [|k0 [|k1 rest]].
  - destruct sheet_list; [congruence | cbn in Hlen; lia].
  - rewrite getitem_0.
    destruct (Hin' k0 (or_introl eq_refl)) as [g Hg].
    cbn [bind]. rewrite Hg. cbn [bind List.length Nat.ltb Nat.leb]. eauto.
  - rewrite getitem_0, getitem_1.
    destruct (Hin' k0 (or_introl eq_refl)) as [g0 Hg0].
    destruct (Hin' k1 (or_intror (or_introl eq_refl))) as [g1 Hg1].
    cbn [bind]. rewrite Hg0. cbn [bind List.length Nat.ltb Nat.leb].
    rewrite Hg1. cbn [bind]. eauto.
Qed.

Lemma write_stems_spec (sheet_groups : list (string * list string)) :
  (forall stem l, In (stem, l) sheet_groups ->
                  exists c, combine_stem separated_data l = Ok c) ->
  exists out,
    write_stems separated_data sheet_groups = Ok out
    /\ map fst out = map fst sheet_groups
    /\ (forall stem l c,
          In (stem, l) sheet_groups -> combine_stem separated_data l = Ok c ->
          In (stem, to_excel c) out).
Proof.
  induction sheet_groups as [|[stem l] groups IH]; intro Hall.
  - exists []. repeat split. intros ? ? ? [].
  - destruct (Hall stem l (or_introl eq_refl)) as [c Hc].
    destruct IH as [out [Hout [Hnames Hin]]].
    { intros s l' H. apply (Hall s l'). now right. }
    exists ((stem, to_excel c) :: out). cbn [write_stems bind].
    rewrite Hc, Hout. cbn [bind map fst]. split; [reflexivity|].
    split; [now rewrite Hnames|].
    intros s l' c' [Heq|Hin'] Hc'.
    + injection Heq as <- <-. left. congruence.
    + right. eauto.
Qed.

End Merger.

Section Separation.

Lemma separate_sheet_ok (names : list string) (sheet_name : string)
      (groups : list (Z * DataFrame)) :
  In sheet_name names ->
  forall sd,
    NoDup (map fst sd) ->
    (forall k, In k (map fst sd) ->
               exists s z, In s names /\ k = group_key s z) ->
    let sd' := fold_left (fun sd (g : Z * DataFrame) =>
                            dict_set sd (group_key sheet_name (fst g)) (snd g))
                         groups sd in
    NoDup (map fst sd')
    /\ (forall k, In k (map fst sd') ->
                  exists s z, In s names /\ k = group_key s z).
Proof.
  intro Hname. induction groups as [|[z g] groups IH]; intros sd Hnd Hkeys;
    cbn [fold_left fst snd].
  - auto.
  - apply IH.
    + now apply dict_set_NoDup.
    + intros k Hk. apply dict_set_keys in Hk. destruct Hk as [->|Hk]; eauto.
Qed.

Lemma separate_ok (excel_data : list (string * DataFrame)) (names : list string) :
  (forall s, In s (map fst excel_data) -> In s names) ->
  forall st, separated_ok names st ->
             separated_ok names (fold_left separate_step excel_data st).
Proof.
  induction excel_data as [|[sheet_name data] rest IH]; intros Hnames st Hst;
    cbn [fold_left]; [exact Hst|].
  apply IH; [intros s Hs; apply Hnames; now right|].
  destruct st as [sd has]. destruct Hst as [Hnd [Hkeys Hflag]].
  cbn [separate_step fst snd] in *.
  destruct (find_column "object_id" data) as [ids|]; [|repeat split; auto].
  destruct (separate_sheet_ok names sheet_name (groupby_object_id data ids)
              (Hnames sheet_name (or_introl eq_refl)) sd Hnd Hkeys) as [H1 H2].
  split; [exact H1|]. split; [exact H2|]. discriminate.
Qed.

Lemma separate_spec (excel_data : list (string * DataFrame)) :
  separated_ok (map fst excel_data) (separate excel_data).
Proof.
  apply separate_ok; [auto|].
  split; [constructor|]. split; [intros k []|reflexivity].
Qed.

End Separation.

(** ** The formatted workbook *)

Section Pipeline.

Lemma startswith_shorter (s p q : string) :
  startswith s (p ++ q) = true -> startswith s p = true.
Proof.
  revert s. induction p as [|a p IH]; intros s H; [reflexivity|].
  destruct s as [|b s]; [discriminate|].
  cbn [append] in H. rewrite startswith_cons in *.
  apply andb_true_iff in H. destruct H as [Hab H].
  now rewrite Hab, (IH _ H).
Qed.

Lemma has_obj_false_stem (s : string) : has_obj s = false -> stem_of s = s.
Proof.
  induction s as [|c s IH]; [reflexivity|].
  cbn [has_obj stem_of]. intro H.
  apply orb_false_iff in H. destruct H as [Hhead Htail].
  assert (Hm : obj_match (String c s) = false).
  { unfold obj_match. apply orb_false_iff. split.
    - destruct (startswith (String c s) "_obj_1") eqn:E; [|reflexivity].
      rewrite (startswith_shorter _ "_obj_" "1" E) in Hhead. discriminate.
    - destruct (startswith (String c s) "_obj_2") eqn:E; [|reflexivity].
      rewrite (startswith_shorter _ "_obj_" "2" E) in Hhead. discriminate. }
  rewrite Hm. now rewrite IH.
Qed.

Lemma has_obj_app (a b : string) : has_obj (a ++ "_obj_" ++ b) = true.
Proof.
  induction a as [|c a IH].
  - cbn [append has_obj]. rewrite !startswith_cons. reflexivity.
  - change ((String c a ++ "_obj_" ++ b)%string)
      with (String c (a ++ "_obj_" ++ b)%string).
    cbn [has_obj]. rewrite IH. apply orb_true_r.
Qed.

Lemma append_empty_r (s : string) : (s ++ "")%string = s.
Proof. induction s as [|c s IH]; [reflexivity|]. cbn [append]. now rewrite IH. Qed.

(** The stem of a key, by the first character of the identifier's text. *)
Lemma stem_of_group_key (sheet_name : string) (z : Z) :
  stem_of sheet_name = sheet_name ->
  stem_of (group_key sheet_name z)
  = if startswith (Z_to_string z) "1" || startswith (Z_to_string z) "2"
    then sheet_name
    else group_key sheet_name z.
Proof.
  intro H. unfold group_key. rewrite (stem_of_app_key _ _ H).
  destruct (startswith (Z_to_string z) "1" || startswith (Z_to_string z) "2") eqn:E.
  - rewrite (stem_of_tail_match _ E). apply append_empty_r.
  - apply orb_false_iff in E. destruct E as [E1 E2].
    now rewrite (stem_of_tail_other _ (Z_to_string_text z) E1 E2).
Qed.

(** Among keys made from sheet names without ["_obj_"], a key that is
    its own stem is the stem of no other key. *)
Lemma own_stem_unique (names : list string) (sheet_name : string) (z : Z) (k : string) :
  (forall n, In n names -> has_obj n = false) ->
  (exists s z', In s names /\ k = group_key s z') ->
  stem_of k = group_key sheet_name z ->
  k = group_key sheet_name z.
Proof.
  intros Hnames [s [z' [Hs ->]]] Hstem.
  rewrite (stem_of_group_key s z' (has_obj_false_stem s (Hnames s Hs))) in Hstem.
  destruct (startswith (Z_to_string z') "1" || startswith (Z_to_string z') "2");
    [|exact Hstem].
  exfalso. pose proof (Hnames s Hs) as Hno.
  rewrite Hstem in Hno. unfold group_key in Hno.
  rewrite has_obj_app in Hno. discriminate.
Qed.

Lemma unique_sheet (A : Type) (out : list (string * A)) (name : string) (a b : A) :
  NoDup (map fst out) -> In (name, a) out -> In (name, b) out -> a = b.
Proof.
  induction out as [|[n x] out IH]; intros Hnd Ha Hb; [destruct Ha|].
  cbn [map fst] in Hnd. inversion Hnd as [|? ? Hnin Hnd']; subst.
  assert (Hno : forall y, In (n, y) out -> False).
  { intros y Hy. apply Hnin. change n with (fst (n, y)). now apply in_map. }
  destruct Ha as [Ha|Ha], Hb as [Hb|Hb].
  - congruence.
  - injection Ha as -> _. destruct (Hno _ Hb).
  - injection Hb as -> _. destruct (Hno _ Ha).
  - auto.
Qed.

(** Once a sheet has an [object_id] column, the merger writes one sheet
    per stem and never raises. *)
Lemma process_excel_by_object_id_total (excel_data : list (string * DataFrame)) :
  fst (separate excel_data) <> [] ->
  exists out,
    process_excel_by_object_id excel_data = Some out
    /\ NoDup (map fst out)
    /\ (forall stem l c,
          In (stem, l) (group_stems (map fst (fst (separate excel_data)))) ->
          combine_stem (fst (separate excel_data)) l = Ok c ->
          In (stem, to_excel c) out).
Proof.
  intro Hne. unfold process_excel_by_object_id.
  destruct (separate_spec excel_data) as [Hnd [_ Hflag]].
  destruct (separate excel_data) as [sd has]. cbn [fst snd] in *.
  destruct has; [|now destruct Hne; apply Hflag].
  cbn [negb].
  destruct (group_stems_spec (map fst sd)) as [G1 [G2 G3]].
  destruct (write_stems_spec sd (group_stems (map fst sd))) as [out [Hout [Hn Hin]]].
  { intros stem l Hl. apply combine_stem_total.
    - pose proof (G2 _ _ Hl) as Hf.
      assert (Hs : In stem (map fst (group_stems (map fst sd)))).
      { change stem with (fst (stem, l)). now apply in_map. }
      destruct (group_stems_fold (map fst sd) [] (NoDup_nil _)) as [_ [_ H3]].
      apply H3 in Hs. destruct Hs as [[]|[k [Hk Hst]]].
      intro Hnil. rewrite Hnil in Hf.
      assert (Hin' : In k (filter (fun k => String.eqb (stem_of k) stem) (map fst sd))).
      { apply filter_In. split; [exact Hk|]. now apply String.eqb_eq. }
      rewrite <- Hf in Hin'. destruct Hin'.
    - intros k Hk. rewrite (G2 _ _ Hl) in Hk. apply filter_In in Hk. tauto. }
  exists out. rewrite Hout. split; [reflexivity|]. split; [now rewrite Hn|exact Hin].
Qed.

End Pipeline.



(** The group of identifier 3 keeps the row labels 2 and 5 in memory;
    the sheet written for it has none. *)
Example single_group_index :
  index (select_rows [false; false; true; false; false; true]
                     (sheet_with_ids [1; 2; 3; 1; 2; 3])) = [2; 5]
  /\ process_excel_by_object_id wb_ids_1
     = Some [("rat1", [(LStr "t", [Float 10; Float 10]);
                       (LStr "object_id", [Int 1; Int 1])])].
Proof. split; reflexivity. Qed.

(** ** Two groups side by side *)

Section TwoGroups.

Lemma setitem_new (df : DataFrame) (name : string) (v : value) :
  existsb (label_eqb (LStr name)) (labels df) = false ->
  setitem df name v
  = {| index := index df;
       columns := columns df ++ [(LStr name, repeat v (nrows df))] |}.
Proof. intro H. unfold setitem. now rewrite H. Qed.

Lemma existsb_label_app (name : string) (l1 l2 : list label) :
  existsb (label_eqb (LStr name)) (l1 ++ l2)
  = existsb (label_eqb (LStr name)) l1 || existsb (label_eqb (LStr name)) l2.
Proof. apply existsb_app. Qed.

(** With no name taken, lines 158-159 add the four columns at the end. *)
Lemma add_empty_columns_fresh (df : DataFrame) :
  no_filler_name df = true ->
  add_empty_columns df
  = {| index := index df;
       columns := columns df
                  ++ map (fun name => (LStr name, repeat (Str "") (nrows df)))
                         filler_names |}.
Proof.
  unfold no_filler_name, filler_names. cbn [forallb].
  intro H. repeat (apply andb_true_iff in H; destruct H as [?H H]).
  repeat match goal with
         | Hx : negb _ = true |- _ => apply negb_true_iff in Hx
         end.
  unfold labels in *.
  unfold add_empty_columns. cbn [seq fold_left].
  change (("empty_" ++ Z_to_string (Z.of_nat (0 + 1)))%string) with "empty_1".
  change (("empty_" ++ Z_to_string (Z.of_nat (1 + 1)))%string) with "empty_2".
  change (("empty_" ++ Z_to_string (Z.of_nat (2 + 1)))%string) with "empty_3".
  change (("empty_" ++ Z_to_string (Z.of_nat (3 + 1)))%string) with "empty_4".
  rewrite (setitem_new df "empty_1") by (unfold labels; assumption).
  rewrite (setitem_new _ "empty_2").
  2:{ unfold labels. cbn [columns]. rewrite !map_app, !existsb_label_app.
      repeat (apply orb_false_iff; split); solve [exact H1 | reflexivity]. }
  rewrite (setitem_new _ "empty_3").
  2:{ unfold labels. cbn [columns]. rewrite !map_app, !existsb_label_app.
      repeat (apply orb_false_iff; split); solve [exact H2 | reflexivity]. }
  rewrite (setitem_new _ "empty_4").
  2:{ unfold labels. cbn [columns]. rewrite !map_app, !existsb_label_app.
      repeat (apply orb_false_iff; split); solve [exact H3 | reflexivity]. }
  unfold nrows. cbn [index columns map]. rewrite <- !app_assoc. reflexivity.
Qed.

Lemma position_seq (r n : nat) :
  forall a,
    position (Z.of_nat r) (map Z.of_nat (seq a n))
    = if (a <=? r)%nat && (r <? a + n)%nat then Some (r - a)%nat else None.
Proof.
  induction n as [|n IH]; intro a; cbn [seq map position].
  - destruct (a <=? r)%nat eqn:E1; [|reflexivity].
    destruct (r <? a + 0)%nat eqn:E2; [|reflexivity].
    apply Nat.leb_le in E1. apply Nat.ltb_lt in E2. lia.
  - destruct (Z.of_nat r =? Z.of_nat a) eqn:E.
    + apply Z.eqb_eq in E. apply Nat2Z.inj in E. subst a.
      rewrite Nat.leb_refl, Nat.sub_diag.
      assert (H : (r <? r + S n)%nat = true) by (apply Nat.ltb_lt; lia).
      now rewrite H.
    + apply Z.eqb_neq in E. rewrite IH.
      destruct (S a <=? r)%nat eqn:E1.
      * apply Nat.leb_le in E1.
        assert (H1 : (a <=? r)%nat = true) by (apply Nat.leb_le; lia).
        rewrite H1. cbn [andb].
        replace (S a + n)%nat with (a + S n)%nat by lia.
        destruct (r <? a + S n)%nat; [|reflexivity].
        f_equal. lia.
      * apply Nat.leb_gt in E1. cbn [andb].
        destruct (a <=? r)%nat eqn:E2; [|reflexivity].
        apply Nat.leb_le in E2. exfalso. apply E. f_equal. lia.
Qed.

Lemma position_range (r n : nat) :
  position (Z.of_nat r) (range_index n) = if (r <? n)%nat then Some r else None.
Proof.
  unfold range_index. rewrite position_seq. cbn [Nat.leb andb Nat.add].
  now rewrite Nat.sub_0_r.
Qed.

Lemma mem_range (r n : nat) : mem_Z (Z.of_nat r) (range_index n) = (r <? n)%nat.
Proof.
  unfold mem_Z, range_index.
  destruct (r <? n)%nat eqn:E.
  - apply Nat.ltb_lt in E. apply existsb_exists. exists (Z.of_nat r).
    split; [|apply Z.eqb_refl]. apply in_map, in_seq. lia.
  - apply Nat.ltb_ge in E.
    destruct (existsb (Z.eqb (Z.of_nat r)) (map Z.of_nat (seq 0 n))) eqn:Ex;
      [|reflexivity].
    apply existsb_exists in Ex. destruct Ex as [x [Hx Heq]].
    apply Z.eqb_eq in Heq. subst x. apply in_map_iff in Hx.
    destruct Hx as [r' [Hr' Hin]]. apply Nat2Z.inj in Hr'. subst r'.
    apply in_seq in Hin. lia.
Qed.

Lemma filter_seq_ge (n1 : nat) (n : nat) :
  forall a,
    filter (fun r => negb (r <? n1)%nat) (seq a n)
    = seq (Nat.max a n1) (a + n - Nat.max a n1).
Proof.
  induction n as [|n IH]; intro a; cbn [seq filter].
  - replace (a + 0 - Nat.max a n1)%nat with 0%nat by lia. reflexivity.
  - rewrite IH. destruct (a <? n1)%nat eqn:E; cbn [negb].
    + apply Nat.ltb_lt in E.
      replace (Nat.max (S a) n1) with (Nat.max a n1) by lia.
      f_equal. lia.
    + apply Nat.ltb_ge in E.
      replace (Nat.max a n1) with a by lia.
      replace (Nat.max (S a) n1) with (S a) by lia.
      replace (a + S n - a)%nat with (S n) by lia.
      replace (S a + n - S a)%nat with n by lia. reflexivity.
Qed.

(** The union of two 0-based row indices is the longer one. *)
Lemma union_range (n1 n2 : nat) :
  range_index n1
    ++ filter (fun i => negb (mem_Z i (range_index n1))) (range_index n2)
  = range_index (Nat.max n1 n2).
Proof.
  unfold range_index at 1 3 4.
  assert (Hf : filter (fun i => negb (mem_Z i (range_index n1)))
                      (map Z.of_nat (seq 0 n2))
               = map Z.of_nat (filter (fun r => negb (r <? n1)%nat) (seq 0 n2))).
  { induction (seq 0 n2) as [|r l IH]; [reflexivity|].
    cbn [map filter]. rewrite mem_range, IH.
    destruct (r <? n1)%nat; reflexivity. }
  rewrite Hf, filter_seq_ge, <- map_app. f_equal.
  change (Nat.max 0 n1) with n1. change (0 + n2)%nat with n2.
  destruct (Nat.le_ge_cases n1 n2) as [H|H].
  - replace (Nat.max n1 n2) with (n1 + (n2 - n1))%nat by lia.
    now rewrite seq_app.
  - replace (Nat.max n1 n2) with n1 by lia.
    replace (n2 - n1)%nat with 0%nat by lia.
    cbn [seq]. now rewrite app_nil_r.
Qed.

Lemma reindex_range (n m : nat) (s : Series) :
  reindex (range_index n) (range_index m) s = realign_values n m s.
Proof.
  unfold reindex, realign_values, range_index at 2. rewrite map_map.
  apply map_ext. intro r. rewrite position_range.
  destruct (r <? n)%nat; reflexivity.
Qed.

(** Two tables with reset indices, side by side: rows matched by
    position, the shorter table padded with missing values. *)
Lemma concat_reset (a b : DataFrame) :
  concat_axis1 (reset_index a) (reset_index b)
  = {| index := range_index (Nat.max (nrows a) (nrows b));
       columns :=
         map (realign (nrows a) (Nat.max (nrows a) (nrows b))) (columns a)
         ++ map (realign (nrows b) (Nat.max (nrows a) (nrows b))) (columns b) |}.
Proof.
  unfold concat_axis1, reset_index. cbn [index columns].
  rewrite union_range. f_equal. f_equal.
  - apply map_ext. intro c. unfold realign. now rewrite reindex_range.
  - apply map_ext. intro c. unfold realign.
    rewrite (Nat.max_comm (nrows a) (nrows b)).
    rewrite <- (union_range (nrows b) (nrows a)).
    rewrite (Nat.max_comm (nrows b) (nrows a)) at 1.
    rewrite union_range, (Nat.max_comm (nrows b) (nrows a)).
    now rewrite reindex_range.
Qed.

Lemma realign_filler (n m : nat) :
  realign_values n m (repeat (Str "") n) = filler_values n m.
Proof.
  unfold realign_values, filler_values. apply map_ext. intro r.
  destruct (r <? n)%nat eqn:E; [|reflexivity].
  apply Nat.ltb_lt in E.
  apply (repeat_spec n). apply nth_In. now rewrite repeat_length.
Qed.

Lemma filler_values_empty (n m : nat) :
  Forall (fun v => v = Str "" \/ v = NaN) (filler_values n m).
Proof.
  unfold filler_values. apply Forall_forall. intros v Hv.
  apply in_map_iff in Hv. destruct Hv as [r [<- _]].
  destruct (r <? n)%nat; auto.
Qed.

Lemma labels_concat_axis1 (a b : DataFrame) :
  labels (concat_axis1 a b) = labels a ++ labels b.
Proof.
  unfold labels, concat_axis1. cbn [columns].
  rewrite map_app, !map_map. reflexivity.
Qed.

(** Lines 40-45 of the automated merger: two non-empty tables are put
    side by side as they are. *)
Lemma auto_combine_both (excel_file : list (string * DataFrame)) (prefix : string)
      (obj1_data obj2_data : DataFrame) :
  dict_get excel_file (prefix ++ "_Obj1")%string = Ok obj1_data ->
  dict_get excel_file (prefix ++ "_Obj2")%string = Ok obj2_data ->
  df_empty obj1_data = false -> df_empty obj2_data = false ->
  auto_combine excel_file prefix = Some (concat_axis1 obj1_data obj2_data).
Proof.
  intros H1 H2 E1 E2. unfold auto_combine. now rewrite H1, H2, E1, E2.
Qed.

End TwoGroups.



(** ** What is stored under a key *)

Section StoredGroups.

Lemma Z_to_int_nonnil (z : Z) :
  Z.to_int z <> Decimal.Pos Decimal.Nil /\ Z.to_int z <> Decimal.Neg Decimal.Nil.
Proof.
  destruct z as [|p|p]; cbn [Z.to_int]; split; try discriminate;
    intro H; injection H as H; exact (Unsigned.to_uint_nonnil p H).
Qed.

(** Distinct integers have distinct texts. *)
Lemma Z_to_string_inj (a b : Z) : Z_to_string a = Z_to_string b -> a = b.
Proof.
  unfold Z_to_string. intro H.
  apply DecimalZ.to_int_inj.
  destruct (Z_to_int_nonnil a) as [Ha1 Ha2].
  destruct (Z_to_int_nonnil b) as [Hb1 Hb2].
  pose proof (NilZero.isi _ Ha1 Ha2) as Ia.
  pose proof (NilZero.isi _ Hb1 Hb2) as Ib.
  rewrite H in Ia. congruence.
Qed.

Lemma has_obj_head (s : string) : has_obj s = false -> startswith s "_obj_" = false.
Proof.
  destruct s as [|c s]; [reflexivity|]. cbn [has_obj].
  intro H. apply orb_false_iff in H. tauto.
Qed.

Lemma has_obj_tail (c : ascii) (s : string) :
  has_obj (String c s) = false -> has_obj s = false.
Proof. cbn [has_obj]. intro H. apply orb_false_iff in H. tauto. Qed.

(** A key cannot begin with ["_obj_<id>"] and also with a non-empty
    name free of ["_obj_"] followed by ["_obj_"]. *)
Lemma key_head_clash (s d d' : string) :
  s <> EmptyString -> has_obj s = false ->
  forallb_string sign_or_digit d = true ->
  ("_obj_" ++ d)%string = (s ++ "_obj_" ++ d')%string -> False.
Proof.
  intros Hne Hs Hd Heq.
  assert (Hst : startswith (s ++ "_obj_" ++ d') "_obj_" = true).
  { rewrite <- Heq. cbn [append]. rewrite !startswith_cons. reflexivity. }
  destruct (startswith_app _ _ _ Hst) as [H|[p2 [Hp [Hp2 _]]]].
  { rewrite (has_obj_head s Hs) in H. discriminate. }
  destruct s as [|a0 s]; [congruence|]. injection Hp as <- Hp.
  destruct s as [|a1 s]; [cbn in Heq; discriminate|]. injection Hp as <- Hp.
  destruct s as [|a2 s]; [cbn in Heq; discriminate|]. injection Hp as <- Hp.
  destruct s as [|a3 s]; [cbn in Heq; discriminate|]. injection Hp as <- Hp.
  destruct s as [|a4 s].
  - cbn [append] in Heq. injection Heq as Heq. subst d.
    cbn in Hd. discriminate.
  - injection Hp as <- Hp. destruct s; [cbn in Hp; congruence | discriminate].
Qed.

Lemma key_split (s : string) :
  forall s' d d',
    has_obj s = false -> has_obj s' = false ->
    forallb_string sign_or_digit d = true ->
    forallb_string sign_or_digit d' = true ->
    (s ++ "_obj_" ++ d)%string = (s' ++ "_obj_" ++ d')%string ->
    s = s' /\ d = d'.
Proof.
  induction s as [|c s IH]; intros s' d d' Hs Hs' Hd Hd' Heq.
  - destruct s' as [|c' s'].
    + cbn [append] in Heq. injection Heq as Heq. auto.
    + exfalso. apply (key_head_clash (String c' s') d d'); auto. discriminate.
  - destruct s' as [|c' s'].
    + exfalso. apply (key_head_clash (String c s) d' d); auto. discriminate.
    + cbn [append] in Heq. injection Heq as Hc Heq. subst c'.
      destruct (IH s' d d' (has_obj_tail _ _ Hs) (has_obj_tail _ _ Hs') Hd Hd' Heq)
        as [-> ->].
      auto.
Qed.

(** Keys determine the sheet and the identifier. *)
Lemma group_key_inj (s s' : string) (z z' : Z) :
  has_obj s = false -> has_obj s' = false ->
  group_key s z = group_key s' z' -> s = s' /\ z = z'.
Proof.
  intros Hs Hs' H. unfold group_key in H.
  destruct (key_split s s' _ _ Hs Hs' (Z_to_string_text z) (Z_to_string_text z') H)
    as [-> Hz].
  split; [reflexivity | now apply Z_to_string_inj].
Qed.

Lemma insert_sorted_Z_In (z x : Z) (l : list Z) :
  In x (insert_sorted_Z z l) <-> x = z \/ In x l.
Proof.
  induction l as [|t l IH]; cbn [insert_sorted_Z In]; [intuition|].
  destruct (z <? t) eqn:E1; [cbn [In]; intuition|].
  destruct (z =? t) eqn:E2.
  - apply Z.eqb_eq in E2. subst t. cbn [In]. intuition.
  - cbn [In]. rewrite IH. intuition.
Qed.

Lemma insert_sorted_Z_sorted (z : Z) (l : list Z) :
  StronglySorted Z.lt l -> StronglySorted Z.lt (insert_sorted_Z z l).
Proof.
  induction l as [|t l IH]; intro H; cbn [insert_sorted_Z].
  - constructor; constructor.
  - inversion H as [|? ? Hs Hall]; subst.
    destruct (z <? t) eqn:E1.
    + apply Z.ltb_lt in E1. constructor; [exact H|].
      constructor; [exact E1|].
      apply Forall_forall. intros x Hx.
      rewrite Forall_forall in Hall. specialize (Hall x Hx). lia.
    + destruct (z =? t) eqn:E2; [exact H|].
      apply Z.ltb_ge in E1. apply Z.eqb_neq in E2.
      constructor; [auto|].
      apply Forall_forall. intros x Hx. apply insert_sorted_Z_In in Hx.
      destruct Hx as [->|Hx]; [lia|].
      rewrite Forall_forall in Hall. auto.
Qed.

Lemma sorted_lt_NoDup (l : list Z) : StronglySorted Z.lt l -> NoDup l.
Proof.
  induction 1 as [|x l Hs IH Hall]; constructor; [|exact IH].
  intro Hin. rewrite Forall_forall in Hall. specialize (Hall x Hin). lia.
Qed.

(** [groupby] visits each identifier of the column once. *)
Lemma object_ids_spec (ids : Series) :
  StronglySorted Z.lt (object_ids ids)
  /\ forall z, In z (object_ids ids) <-> In (Int z) ids.
Proof.
  induction ids as [|v ids [IHs IHi]]; cbn [object_ids fold_right].
  - split; [constructor|]. intro z. reflexivity.
  - fold (object_ids ids).
    destruct v as [|s|z0|q|r];
      try (split; [exact IHs|]; intro z; rewrite IHi; cbn [In];
           split; [auto | intros [H|H]; [discriminate | exact H]]).
    split; [now apply insert_sorted_Z_sorted|].
    intro z. rewrite insert_sorted_Z_In, IHi. cbn [In]. split.
    + intros [->|H]; auto.
    + intros [H|H]; [injection H as ->|]; auto.
Qed.

Lemma dict_get_set_same (V : Type) (d : list (string * V)) (k : string) (v : V) :
  dict_get (dict_set d k v) k = Ok v.
Proof.
  induction d as [|[k' v'] d IH]; cbn [dict_set dict_get].
  - now rewrite String.eqb_refl.
  - destruct (String.eqb k' k) eqn:E; cbn [dict_get]; now rewrite E.
Qed.

Lemma dict_get_set_other (V : Type) (d : list (string * V)) (k k' : string) (v : V) :
  k' <> k -> dict_get (dict_set d k v) k' = dict_get d k'.
Proof.
  intro Hne. induction d as [|[k0 v0] d IH]; cbn [dict_set dict_get].
  - apply String.eqb_neq in Hne. now rewrite String.eqb_sym, Hne.
  - destruct (String.eqb k0 k) eqn:E; cbn [dict_get].
    + apply String.eqb_eq in E. subst k0.
      apply String.eqb_neq in Hne. now rewrite String.eqb_sym, Hne.
    + now rewrite IH.
Qed.

(** After a run of assignments with pairwise distinct keys, each key
    holds what was assigned to it. *)
Lemma dict_fold_get (V : Type) (writes : list (string * V)) :
  NoDup (map fst writes) ->
  forall (k : string) (v : V) d,
    In (k, v) writes ->
    dict_get (fold_left (fun d (w : string * V) => dict_set d (fst w) (snd w)) writes d) k
    = Ok v.
Proof.
  induction writes as [|[k0 v0] writes IH]; intros Hnd k v d Hin; [destruct Hin|].
  cbn [map fst] in Hnd. inversion Hnd as [|? ? Hnin Hnd']; subst.
  cbn [fold_left fst snd]. destruct Hin as [Heq|Hin].
  - injection Heq as -> ->.
    assert (Hkeep : forall d', dict_get
                (fold_left (fun d (w : string * V) => dict_set d (fst w) (snd w)) writes d') k
              = dict_get d' k).
    { clear IH Hnd Hnd'. induction writes as [|[k1 v1] writes IHw]; intro d';
        [reflexivity|].
      cbn [fold_left fst snd]. rewrite IHw.
      - apply dict_get_set_other. intros ->. apply Hnin. now left.
      - intro H. apply Hnin. now right. }
    rewrite Hkeep. apply dict_get_set_same.
  - now apply IH.
Qed.

Lemma fold_left_map (A B C : Type) (f : A -> C -> A) (h : B -> C) (l : list B) :
  forall a, fold_left f (map h l) a = fold_left (fun a b => f a (h b)) l a.
Proof. induction l as [|b l IH]; intro a; [reflexivity|]. cbn. apply IH. Qed.

(** Step 1 is the run of all the sheets' assignments. *)
Lemma separate_writes (excel_data : list (string * DataFrame)) :
  forall st,
    fst (fold_left separate_step excel_data st)
    = fold_left (fun d (w : string * DataFrame) => dict_set d (fst w) (snd w))
                (flat_map sheet_writes excel_data) (fst st).
Proof.
  induction excel_data as [|[sheet_name data] rest IH]; intros [sd has];
    [reflexivity|].
  cbn [fold_left flat_map]. rewrite IH, fold_left_app. f_equal.
  unfold separate_step, sheet_writes. cbn [fst snd].
  destruct (find_column "object_id" data) as [ids|]; [|reflexivity].
  cbn [fst]. unfold separate_sheet. now rewrite fold_left_map.
Qed.

End StoredGroups.

Section StoredRows.

Variable excel_data : list (string * DataFrame).
Hypothesis names_distinct : NoDup (map fst excel_data).
Hypothesis names_plain : forall n, In n (map fst excel_data) -> has_obj n = false.

Lemma sheet_writes_keys (sheet : string * DataFrame) (k : string) :
  In k (map fst (sheet_writes sheet)) ->
  exists z, k = group_key (fst sheet) z.
Proof.
  unfold sheet_writes.
  destruct (find_column "object_id" (snd sheet)) as [ids|]; [|intros []].
  rewrite map_map. cbn [fst]. intro H. apply in_map_iff in H.
  destruct H as [[z g] [<- _]]. eauto.
Qed.

Lemma sheet_writes_NoDup (sheet : string * DataFrame) :
  has_obj (fst sheet) = false -> NoDup (map fst (sheet_writes sheet)).
Proof.
  intro Hs. unfold sheet_writes.
  destruct (find_column "object_id" (snd sheet)) as [ids|]; [|constructor].
  unfold groupby_object_id. rewrite !map_map. cbn [fst].
  destruct (object_ids_spec ids) as [Hsorted _].
  apply sorted_lt_NoDup in Hsorted.
  induction Hsorted as [|z l Hnin Hnd IH]; cbn [map]; constructor; [|exact IH].
  intro Hin. apply in_map_iff in Hin. destruct Hin as [z' [Hk Hz']].
  destruct (group_key_inj _ _ _ _ Hs Hs Hk) as [_ ->]. contradiction.
Qed.

Lemma all_writes_NoDup (sheets : list (string * DataFrame)) :
  NoDup (map fst sheets) ->
  (forall n, In n (map fst sheets) -> has_obj n = false) ->
  NoDup (map fst (flat_map sheet_writes sheets)).
Proof.
  induction sheets as [|sheet sheets IH]; intros Hnd Hplain; [constructor|].
  cbn [flat_map map fst] in *. inversion Hnd as [|? ? Hnin Hnd']; subst.
  rewrite map_app.
  assert (Hs : has_obj (fst sheet) = false) by (apply Hplain; now left).
  assert (Hrest : forall n, In n (map fst sheets) -> has_obj n = false)
    by (intros n Hn; apply Hplain; now right).
  apply NoDup_app; [now apply sheet_writes_NoDup | now apply IH |].
  intros k Hk1 Hk2.
  destruct (sheet_writes_keys sheet k Hk1) as [z Hz].
  apply in_map_iff in Hk2. destruct Hk2 as [[k' g] [Hk' Hin]].
  cbn [fst] in Hk'. subst k'.
  apply in_flat_map in Hin. destruct Hin as [sheet' [Hsheet' Hw]].
  destruct (sheet_writes_keys sheet' k) as [z' Hz'].
  { change k with (fst (k, g)). now apply in_map. }
  assert (Hn' : In (fst sheet') (map fst sheets)) by now apply in_map.
  rewrite Hz in Hz'.
  destruct (group_key_inj _ _ _ _ Hs (Hrest _ Hn') Hz') as [Hname _].
  apply Hnin. now rewrite Hname.
Qed.

(** Under the key of a sheet and an identifier of its column, Step 1
    leaves the rows of that sheet with that identifier. *)
Lemma separated_group (sheet_name : string) (data : DataFrame) (ids : Series) (z : Z) :
  In (sheet_name, data) excel_data ->
  find_column "object_id" data = Some ids ->
  In (Int z) ids ->
  dict_get (fst (separate excel_data)) (group_key sheet_name z)
  = Ok (select_rows (id_mask z ids) data).
Proof.
  intros Hsheet Hcol Hz. unfold separate. rewrite separate_writes. cbn [fst].
  apply dict_fold_get; [now apply all_writes_NoDup|].
  apply in_flat_map. exists (sheet_name, data). split; [exact Hsheet|].
  unfold sheet_writes. cbn [fst snd]. rewrite Hcol.
  apply in_map_iff. exists (z, select_rows (id_mask z ids) data).
  split; [reflexivity|].
  unfold groupby_object_id. apply in_map_iff. exists z. split; [reflexivity|].
  now apply (proj2 (object_ids_spec ids)).
Qed.

End StoredRows.


(** A table that already has a column named empty_1 gets three new
    columns, not four: the assignment of line 159 overwrites. *)
Example add_empty_columns_taken :
  labels (add_empty_columns
            {| index := range_index 1;
               columns := [(LStr "empty_1", [Float 7]); (LStr "t", [Float 1])] |})
  = [LStr "empty_1"; LStr "t"; LStr "empty_2"; LStr "empty_3"; LStr "empty_4"].
Proof. reflexivity. Qed.

(** ** Identifiers other than 1 and 2 *)




(** The sheet written for identifier 3 of the sample workbook. *)
Example own_sheet_rows :
  process_excel_by_object_id wb_ids_1_2_3
  = Some [("rat1",
           [(LStr "t", [Float 10; Float 10]); (LStr "object_id", [Int 1; Int 1]);
            (LStr "empty_1", [Str ""; Str ""]); (LStr "empty_2", [Str ""; Str ""]);
            (LStr "empty_3", [Str ""; Str ""]); (LStr "empty_4", [Str ""; Str ""]);
            (LStr "t", [Float 20; Float 20]); (LStr "object_id", [Int 2; Int 2])]);
          ("rat1_obj_3",
           [(LStr "t", [Float 30; Float 30]); (LStr "object_id", [Int 3; Int 3])])].
Proof. reflexivity. Qed.

(** * Further properties of the code *)

(** ** Bout extraction on any list of floats *)

Section BoutsAnyInput.

Lemma bout_step_pair (pre : list float) (a b : float) (rest : list float)
      (acc : list Q) :
  bout_step (pre ++ a :: b :: rest) (Ok acc) (Z.of_nat (List.length pre))
  = Ok (acc ++ match a, b with
               | Some start, Some stop => [stop - start]%Q
               | _, _ => []
               end).
Proof.
  unfold float in *. unfold bout_step. cbn [bind].
  rewrite getitem_middle. cbn [bind].
  destruct a as [x|]; [|now rewrite app_nil_r].
  replace (pre ++ Some x :: b :: rest) with ((pre ++ [Some x]) ++ b :: rest)
    by (now rewrite <- app_assoc).
  replace (Z.of_nat (List.length pre) + 1)
    with (Z.of_nat (List.length (pre ++ [Some x])))
    by (rewrite length_app; simpl; lia).
  rewrite getitem_middle. cbn [bind].
  destruct b; [reflexivity | now rewrite app_nil_r].
Qed.

Lemma bout_loop_any (rest : list float) :
  forall (pre : list float) (acc : list Q) (fuel : nat),
    (List.length rest <= fuel + 1)%nat ->
    fold_left (bout_step (pre ++ rest))
              (range_from fuel (Z.of_nat (List.length pre))
                          (Z.of_nat (List.length (pre ++ rest)) - 1) 2)
              (Ok acc)
    = Ok (acc ++ pairs_notna rest).
Proof.
  induction rest as [|a|a b rest IH] using list_pair_ind; intros pre acc fuel Hfuel.
  - cbn [pairs_notna]. rewrite (app_nil_r acc), app_nil_r. destruct fuel; simpl.
    + reflexivity.
    + assert (H : (Z.of_nat (List.length pre) <? Z.of_nat (List.length pre) - 1) = false)
        by (apply Z.ltb_ge; lia).
      rewrite H. reflexivity.
  - cbn [pairs_notna]. rewrite (app_nil_r acc).
    destruct fuel; cbn [range_from fold_left].
    + reflexivity.
    + assert (H : (Z.of_nat (List.length pre)
                   <? Z.of_nat (List.length (pre ++ [a])) - 1) = false).
      { apply Z.ltb_ge. rewrite length_app. simpl. lia. }
      rewrite H. reflexivity.
  - destruct fuel as [|fuel]; [simpl in Hfuel; lia|].
    cbn [range_from].
    assert (H : (Z.of_nat (List.length pre)
                 <? Z.of_nat (List.length (pre ++ a :: b :: rest)) - 1) = true).
    { apply Z.ltb_lt. rewrite length_app. simpl. lia. }
    rewrite H. cbn [fold_left]. rewrite bout_step_pair.
    replace (pre ++ a :: b :: rest) with ((pre ++ [a; b]) ++ rest)
      by (now rewrite <- app_assoc).
    replace (Z.of_nat (List.length pre) + 2)
      with (Z.of_nat (List.length (pre ++ [a; b])))
      by (rewrite length_app; simpl; lia).
    rewrite IH by (simpl in Hfuel; lia).
    rewrite <- app_assoc. cbn [pairs_notna].
    destruct a, b; reflexivity.
Qed.

Lemma pairs_notna_length (l : list float) :
  (List.length (pairs_notna l) <= List.length l / 2)%nat.
Proof.
  induction l as [|a|a b l IH] using list_pair_ind; cbn [pairs_notna List.length];
    try (apply Nat.le_0_l).
  assert (H : (S (S (List.length l)) / 2 = S (List.length l / 2))%nat).
  { replace (S (S (List.length l))) with (List.length l + 1 * 2)%nat by lia.
    rewrite Nat.div_add by lia. lia. }
  rewrite H. destruct a, b; cbn [List.length]; lia.
Qed.

End BoutsAnyInput.

(** X1. On every list of floats, of any length and with NaN entries
    anywhere, [calculate_bout_durations] returns without an index error;
    the result has one duration for each pair of positions (2k, 2k+1)
    whose two entries are both numbers, in order, so at most half as many
    durations as entries. *)
Theorem X1_bouts_never_raise :
  forall timestamps : list float,
    calculate_bout_durations timestamps = Ok (pairs_notna timestamps)
    /\ (List.length (pairs_notna timestamps) <= List.length timestamps / 2)%nat
    /\ (forall a b rest,
          pairs_notna (Some a :: Some b :: rest) = (b - a)%Q :: pairs_notna rest)
    /\ (forall b rest, pairs_notna (None :: b :: rest) = pairs_notna rest)
    /\ (forall a rest, pairs_notna (a :: None :: rest) = pairs_notna rest).
Proof.
  intro timestamps. split; [|split; [apply pairs_notna_length|]].
  - unfold calculate_bout_durations, py_range.
    pose proof (bout_loop_any timestamps [] []
                  (Z.to_nat (Z.of_nat (List.length timestamps) - 1 - 0))) as H.
    simpl in H. apply H. lia.
  - repeat split; try reflexivity. intros [a|] rest; reflexivity.
Qed.

(** ** Cleaning: order, counts and missing cells *)

Section Cleaning.

Lemma clean_timestamps_app (l1 l2 : list value) :
  clean_timestamps (l1 ++ l2)
  = (fst (clean_timestamps l1) ++ fst (clean_timestamps l2),
     snd (clean_timestamps l1) ++ snd (clean_timestamps l2)).
Proof.
  induction l1 as [|ts l1 IH]; cbn [app].
  - cbn. now destruct (clean_timestamps l2).
  - rewrite !clean_timestamps_cons, IH. cbn [fst snd].
    now rewrite !app_assoc.
Qed.

Lemma clean_one_count (ts : value) :
  (List.length (fst (clean_one ts)) + List.length (snd (clean_one ts)) <= 1)%nat.
Proof.
  destruct ts as [|s|z|q|r]; cbn [clean_one]; try (cbn; lia).
  destruct (String.eqb (filter_string keeps s) ""); [cbn; lia|].
  destruct (py_float (filter_string keeps s)); cbn; lia.
Qed.

End Cleaning.

(** X2. [clean_timestamps] handles the cells one by one and in order:
    the result for a concatenation is the concatenation of the results,
    and every cell gives at most one value or one warning, never both, so
    values and warnings together are never more than the cells given. *)
Theorem X2_clean_in_order :
  forall l1 l2 : list value,
    clean_timestamps (l1 ++ l2)
    = (fst (clean_timestamps l1) ++ fst (clean_timestamps l2),
       snd (clean_timestamps l1) ++ snd (clean_timestamps l2))
    /\ (List.length (fst (clean_timestamps l1))
        + List.length (snd (clean_timestamps l1)) <= List.length l1)%nat.
Proof.
  intros l1 l2. split; [apply clean_timestamps_app|].
  induction l1 as [|ts l1 IH]; [cbn; lia|].
  rewrite clean_timestamps_cons. cbn [fst snd List.length].
  rewrite !length_app. pose proof (clean_one_count ts). lia.
Qed.

(** X3. Numeric cells pass through [clean_timestamps] unchanged and in
    order without any warning, and missing cells are skipped without one:
    dropping the missing cells first, as the callers do with [dropna],
    does not change the result. *)
Theorem X3_clean_numeric_and_missing :
  forall (qs : list Q) (zs : list Z) (l : list value),
    clean_timestamps (map Float qs) = (qs, [])
    /\ clean_timestamps (map Int zs) = (map inject_Z zs, [])
    /\ clean_timestamps (dropna l) = clean_timestamps l
    /\ clean_timestamps (NaN :: l) = clean_timestamps l.
Proof.
  intros qs zs l. split; [|split; [|split]].
  - induction qs as [|q qs IH]; [reflexivity|].
    cbn [map]. rewrite clean_timestamps_cons, IH. reflexivity.
  - induction zs as [|z zs IH]; [reflexivity|].
    cbn [map]. rewrite clean_timestamps_cons, IH. reflexivity.
  - induction l as [|v l IH]; [reflexivity|].
    unfold dropna in *. cbn [filter].
    destruct v; cbn [notna isna negb];
      rewrite ?clean_timestamps_cons, ?IH; try reflexivity.
    cbn [clean_one fst snd app]. now destruct (clean_timestamps l).
  - rewrite clean_timestamps_cons. cbn [clean_one fst snd app].
    now destruct (clean_timestamps l).
Qed.

(** ** The index under exchange of the objects, at its extremes, and
       after rounding *)

Section MetricsMore.

Lemma floor_unique (q : Q) (z : Z) :
  (inject_Z z <= q)%Q -> (q < inject_Z (z + 1))%Q -> Qfloor q = z.
Proof.
  intros Hl Hu.
  pose proof (Qfloor_le q) as Fl. pose proof (Qlt_floor q) as Fu.
  assert (H1 : (inject_Z (Qfloor q) < inject_Z (z + 1))%Q) by lra.
  assert (H2 : (inject_Z z < inject_Z (Qfloor q + 1))%Q) by lra.
  rewrite <- Zlt_Qlt in H1, H2. lia.
Qed.

Lemma round_half_even_comp (q q' : Q) :
  (q == q')%Q -> round_half_even q = round_half_even q'.
Proof.
  intro H. unfold round_half_even.
  rewrite (Qfloor_comp _ _ H).
  assert (Hc : Qcompare (q - inject_Z (Qfloor q')) (1 # 2)
               = Qcompare (q' - inject_Z (Qfloor q')) (1 # 2)).
  { apply Qcompare_comp; [now rewrite H | reflexivity]. }
  now rewrite Hc.
Qed.

(** Rounding to the nearest integer, ties to even, is odd:
    [round(-q) = -round(q)]. *)
Lemma round_half_even_opp (q : Q) :
  round_half_even (- q) = - round_half_even q.
Proof.
  pose proof (Qfloor_le q) as Fl. pose proof (Qlt_floor q) as Fu.
  rewrite inject_Z_plus in Fu. change (inject_Z 1) with 1%Q in Fu.
  set (f := Qfloor q) in *.
  destruct (Qeq_dec q (inject_Z f)) as [Hint|Hfrac].
  - (* q is an integer *)
    assert (Hf' : Qfloor (- q) = - f).
    { apply floor_unique.
      - rewrite inject_Z_opp. lra.
      - rewrite inject_Z_plus, inject_Z_opp. change (inject_Z 1) with 1%Q. lra. }
    unfold round_half_even. rewrite Hf'. fold f.
    assert (C1 : Qcompare (q - inject_Z f) (1 # 2) = Lt)
      by (apply (proj1 (Qlt_alt _ _)); lra).
    assert (C2 : Qcompare (- q - inject_Z (- f)) (1 # 2) = Lt)
      by (apply (proj1 (Qlt_alt _ _)); rewrite inject_Z_opp; lra).
    now rewrite C1, C2.
  - assert (Hgt : (inject_Z f < q)%Q).
    { apply Qle_lteq in Fl. destruct Fl as [H|H]; [exact H|].
      exfalso. apply Hfrac. now symmetry. }
    assert (Hf' : Qfloor (- q) = - f - 1).
    { apply floor_unique.
      - unfold Z.sub. rewrite inject_Z_plus, !inject_Z_opp.
        change (inject_Z 1) with 1%Q. lra.
      - replace (- f - 1 + 1) with (- f) by lia. rewrite inject_Z_opp. lra. }
    unfold round_half_even. rewrite Hf'. fold f.
    assert (Hr : (- q - inject_Z (- f - 1) == 1 - (q - inject_Z f))%Q).
    { unfold Z.sub. rewrite inject_Z_plus, !inject_Z_opp.
      change (inject_Z 1) with 1%Q. ring. }
    destruct (Qcompare (q - inject_Z f) (1 # 2)) eqn:C.
    + apply Qeq_alt in C.
      assert (C2 : Qcompare (- q - inject_Z (- f - 1)) (1 # 2) = Eq).
      { apply (proj1 (Qeq_alt _ _)). rewrite Hr, C. reflexivity. }
      rewrite C2.
      assert (He : Z.even (- f - 1) = negb (Z.even f)).
      { rewrite Z.even_sub, Z.even_opp. destruct (Z.even f); reflexivity. }
      rewrite He. destruct (Z.even f); cbn [negb]; lia.
    + apply Qlt_alt in C.
      assert (C2 : Qcompare (- q - inject_Z (- f - 1)) (1 # 2) = Gt).
      { apply (proj1 (Qgt_alt _ _)). rewrite Hr. lra. }
      rewrite C2. lia.
    + apply Qgt_alt in C.
      assert (C2 : Qcompare (- q - inject_Z (- f - 1)) (1 # 2) = Lt).
      { apply (proj1 (Qlt_alt _ _)). rewrite Hr. lra. }
      rewrite C2. lia.
Qed.

Lemma py_round_comp (x y : Q) (ndigits : nat) :
  (x == y)%Q -> py_round x ndigits = py_round y ndigits.
Proof.
  intro H. unfold py_round. f_equal.
  apply round_half_even_comp. now rewrite H.
Qed.

Lemma py_round_opp (x : Q) (ndigits : nat) :
  py_round (- x) ndigits = (- py_round x ndigits)%Q.
Proof.
  unfold py_round.
  set (p := Z.to_pos (10 ^ Z.of_nat ndigits)).
  rewrite (round_half_even_comp (- x * inject_Z (Z.pos p))
                                (- (x * inject_Z (Z.pos p)))) by ring.
  rewrite round_half_even_opp. reflexivity.
Qed.

(** The nearest integer is within one half. *)
Lemma round_half_even_close (q : Q) :
  (q - (1 # 2) <= inject_Z (round_half_even q) <= q + (1 # 2))%Q.
Proof.
  pose proof (Qfloor_le q) as Fl. pose proof (Qlt_floor q) as Fu.
  rewrite inject_Z_plus in Fu. change (inject_Z 1) with 1%Q in Fu.
  unfold round_half_even.
  destruct (Qcompare (q - inject_Z (Qfloor q)) (1 # 2)) eqn:C.
  - apply Qeq_alt in C.
    destruct (Z.even (Qfloor q)).
    + split; lra.
    + rewrite inject_Z_plus. change (inject_Z 1) with 1%Q. split; lra.
  - apply Qlt_alt in C. split; lra.
  - apply Qgt_alt in C. rewrite inject_Z_plus. change (inject_Z 1) with 1%Q.
    split; lra.
Qed.

Lemma py_round_close (x : Q) (ndigits : nat) :
  let p := Z.to_pos (10 ^ Z.of_nat ndigits) in
  (x - (1 # (2 * p)) <= py_round x ndigits <= x + (1 # (2 * p)))%Q.
Proof.
  intro p. unfold py_round. fold p.
  pose proof (round_half_even_close (x * inject_Z (Z.pos p))) as [Hl Hu].
  set (z := round_half_even (x * inject_Z (Z.pos p))) in *.
  assert (Hp : (0 < inject_Z (Z.pos p))%Q) by (unfold Qlt, inject_Z; simpl; lia).
  assert (Hz : (z # p == inject_Z z / inject_Z (Z.pos p))%Q) by apply Qmake_Qdiv.
  assert (Hh : (1 # (2 * p) == (1 # 2) / inject_Z (Z.pos p))%Q).
  { rewrite (Qmake_Qdiv 1 (2 * p)). rewrite Pos2Z.inj_mul, inject_Z_mult.
    change (inject_Z 1) with 1%Q. change (inject_Z 2) with 2%Q.
    field. intro H0. rewrite H0 in Hp. lra. }
  rewrite Hz, Hh. split.
  - apply Qle_shift_div_l; [exact Hp|].
    assert (E : ((x - (1 # 2) / inject_Z (Z.pos p)) * inject_Z (Z.pos p)
                 == x * inject_Z (Z.pos p) - (1 # 2))%Q).
    { field. intro H0. rewrite H0 in Hp. lra. }
    rewrite E. exact Hl.
  - apply Qle_shift_div_r; [exact Hp|].
    assert (E : ((x + (1 # 2) / inject_Z (Z.pos p)) * inject_Z (Z.pos p)
                 == x * inject_Z (Z.pos p) + (1 # 2))%Q).
    { field. intro H0. rewrite H0 in Hp. lra. }
    rewrite E. exact Hu.
Qed.

(** Exchanging the two sequences exchanges the totals and negates the ratio. *)
Lemma m_di_swap (d1 d2 : list Q) :
  (m_di (compute_metrics d2 d1) == - m_di (compute_metrics d1 d2))%Q.
Proof.
  unfold compute_metrics. cbn [m_di].
  set (t1 := total_time d1). set (t2 := total_time d2).
  destruct (Qpositive (t1 + t2)) eqn:E.
  - apply Qpositive_true in E.
    assert (E' : Qpositive (t2 + t1) = true) by (apply Qpositive_true; lra).
    rewrite E'. field. lra.
  - apply Qpositive_false in E.
    assert (E' : Qpositive (t2 + t1) = false) by (apply Qpositive_false; lra).
    rewrite E'. reflexivity.
Qed.

End MetricsMore.

(** X4. Exchanging the two objects negates the Discrimination Index and
    leaves the total exploration time unchanged, for the exact values and
    for the rounded ones in the returned dictionary. *)
Theorem X4_di_swap :
  forall (name : string) (d1 d2 : list Q),
    (m_di (compute_metrics d2 d1) == - m_di (compute_metrics d1 d2))%Q
    /\ (m_total_exploration_time (compute_metrics d2 d1)
        == m_total_exploration_time (compute_metrics d1 d2))%Q
    /\ DI (summarize name d2 d1) = (- DI (summarize name d1 d2))%Q
    /\ TET (summarize name d2 d1) = TET (summarize name d1 d2)
    /\ Obj1_Exploration (summarize name d2 d1) = Obj2_Exploration (summarize name d1 d2).
Proof.
  intros name d1 d2.
  split; [apply m_di_swap|]. split; [cbn; ring|].
  split; [|split; [|reflexivity]].
  - unfold summarize. cbn [DI].
    rewrite (py_round_comp _ _ 2 (m_di_swap d1 d2)). apply py_round_opp.
  - unfold summarize. cbn [TET]. apply py_round_comp. cbn. ring.
Qed.



(** ** Tables read without a header row *)

Section Positional.

Lemma Z_to_string_head (z : Z) :
  exists c s, Z_to_string z = String c s /\ sign_or_digit c = true.
Proof.
  pose proof (Z_to_string_text z) as Ht.
  assert (Hne : Z_to_string z <> EmptyString).
  { unfold Z_to_string. destruct (Z.to_int z) as [d|d];
      cbn [NilZero.string_of_int]; [|discriminate].
    destruct d; discriminate. }
  destruct (Z_to_string z) as [|c s]; [congruence|].
  cbn [forallb_string] in Ht. apply andb_true_iff in Ht.
  exists c, s. tauto.
Qed.

Lemma sign_or_digit_not_space (c : ascii) : sign_or_digit c = true -> isspace c = false.
Proof.
  unfold sign_or_digit, isdigit, isspace. intro H.
  apply orb_true_iff in H. destruct H as [H|H].
  - apply andb_true_iff in H. destruct H as [H1 H2].
    apply Nat.leb_le in H1. apply Nat.leb_le in H2.
    apply orb_false_iff. split; apply andb_false_iff; right; apply Nat.leb_gt; lia.
  - apply Ascii.eqb_eq in H. subst c. reflexivity.
Qed.

(** A positional header never passes the test of line 214. *)
Lemma positional_not_empty_col (l : label) :
  is_positional l = true -> is_empty_col l = false.
Proof.
  destruct l as [s|z|]; try discriminate. intros _.
  unfold is_empty_col. cbn [str_of_label isna_label].
  destruct (Z_to_string_head z) as [c [s [-> Hc]]].
  assert (H1 : startswith (String c s) "empty_" = false).
  { rewrite startswith_cons.
    destruct (Ascii.eqb "e" c) eqn:E; [|reflexivity].
    apply Ascii.eqb_eq in E. subst c. discriminate. }
  assert (H2 : String.eqb (strip (String c s)) "" = false).
  { unfold strip. cbn [lstrip]. rewrite (sign_or_digit_not_space c Hc).
    cbn [rstrip]. rewrite (sign_or_digit_not_space c Hc), andb_false_r.
    reflexivity. }
  now rewrite H1, H2.
Qed.

Lemma first_empty_col_none (cols : list label) :
  forallb is_positional cols = true ->
  forall i, first_empty_col_from i cols = None.
Proof.
  induction cols as [|l cols IH]; intros H i; [reflexivity|].
  cbn [forallb] in H. apply andb_true_iff in H. destruct H as [Hl Hc].
  cbn [first_empty_col_from]. rewrite (positional_not_empty_col l Hl). auto.
Qed.

Lemma enumerate_from_labels (cells : list Series) :
  forall i,
    forallb is_positional
      (map fst (map (fun ic : nat * Series => (LInt (Z.of_nat (fst ic)), snd ic))
                    (enumerate_from i cells))) = true.
Proof.
  induction cells as [|c cells IH]; intro i; [reflexivity|].
  cbn [enumerate_from map fst forallb is_positional]. apply IH.
Qed.

(** The legacy branch, lines 246-249, spelled out on the columns. *)
Lemma legacy_extraction (df : DataFrame) :
  detectLayout df = Legacy ->
  snd (extract_timestamps df)
  = match columns df with
    | [] => Raise IndexError
    | c0 :: _ =>
        Ok (dropna (snd c0),
            match nth_error (columns df) 7 with
            | Some c7 => dropna (snd c7)
            | None => []
            end)
    end.
Proof.
  intro H. unfold extract_timestamps. rewrite H. cbn [snd]. unfold iloc_col.
  remember (nth_error (columns df) 7) as n7 eqn:E7.
  remember (7 <? ncols df)%nat as b eqn:Eb.
  assert (Hb : b = false -> n7 = None).
  { intros ->. subst n7. apply nth_error_None.
    symmetry in Eb. apply Nat.ltb_ge in Eb. exact Eb. }
  assert (Hb' : b = true -> n7 <> None).
  { intros -> Hn. subst n7. apply nth_error_None in Hn.
    symmetry in Eb. apply Nat.ltb_lt in Eb. unfold ncols in Eb. lia. }
  clear E7 Eb. destruct (columns df) as [|c0 rest]; [reflexivity|].
  cbn [nth_error bind].
  destruct b.
  - destruct n7; [reflexivity|]. now destruct Hb'.
  - now rewrite Hb.
Qed.

End Positional.

(** X7. A table read with [header=None], whose headers are the positions
    0, 1, ..., is always classified Legacy, whatever its cells hold (a
    first row with the texts empty_1 ... included): object 1 is read from
    column 0 and object 2 from column 7, object 2's series being empty
    when the table has fewer than 8 columns, and the extraction fails
    with an index error only when the table has no column. *)
Theorem X7_header_none_is_legacy :
  forall df : DataFrame,
    positional df = true ->
    detectLayout df = Legacy
    /\ snd (extract_timestamps df)
       = match columns df with
         | [] => Raise IndexError
         | c0 :: _ =>
             Ok (dropna (snd c0),
                 match nth_error (columns df) 7 with
                 | Some c7 => dropna (snd c7)
                 | None => []
                 end)
         end
    /\ (forall cells, positional (read_excel_noheader cells) = true).
Proof.
  intros df Hpos.
  assert (Hlay : detectLayout df = Legacy).
  { rewrite detectLayout_first. unfold first_empty_col.
    now rewrite (first_empty_col_none _ Hpos). }
  split; [exact Hlay|]. split; [now apply legacy_extraction|].
  intro cells. unfold positional, labels, read_excel_noheader. cbn [columns].
  apply enumerate_from_labels.
Qed.

Lemma X7_header_none_is_legacy_witness :
  detectLayout (read_excel_noheader
                  [[Str "t"; Float 1; Float 3]; [Str "empty_1"; NaN; NaN]]) = Legacy
  /\ snd (extract_timestamps
            (read_excel_noheader
               [[Str "t"; Float 1; Float 3]; [Str "empty_1"; NaN; NaN]]))
     = match columns (read_excel_noheader
                        [[Str "t"; Float 1; Float 3]; [Str "empty_1"; NaN; NaN]]) with
       | [] => Raise IndexError
       | c0 :: _ =>
           Ok (dropna (snd c0),
               match nth_error
                       (columns (read_excel_noheader
                                   [[Str "t"; Float 1; Float 3];
                                    [Str "empty_1"; NaN; NaN]])) 7 with
               | Some c7 => dropna (snd c7)
               | None => []
               end)
       end
  /\ (forall cells, positional (read_excel_noheader cells) = true).
Proof.
  apply (X7_header_none_is_legacy
           (read_excel_noheader
              [[Str "t"; Float 1; Float 3]; [Str "empty_1"; NaN; NaN]])).
  reflexivity.
Defined.

(** ** When a sheet fails *)

Section SheetFailure.

Lemma process_after_extraction (df : DataFrame) (sheet_name : string)
      (raw1 raw2 : list value) :
  snd (extract_timestamps df) = Ok (raw1, raw2) ->
  snd (process_worksheet_for_di df sheet_name)
  = Ok (summarize sheet_name
                  (pairDurations (fst (clean_timestamps raw1)))
                  (pairDurations (fst (clean_timestamps raw2)))).
Proof.
  intro H. unfold process_worksheet_for_di.
  destruct (extract_timestamps df) as [line1 extracted]. cbn [snd] in H. subst extracted.
  destruct (clean_timestamps raw1) as [t1 w1], (clean_timestamps raw2) as [t2 w2].
  cbn [snd fst]. rewrite !calculate_bout_durations_numeric. reflexivity.
Qed.

Lemma process_extraction_raises (df : DataFrame) (sheet_name : string) (e : exn) :
  snd (extract_timestamps df) = Raise e ->
  snd (process_worksheet_for_di df sheet_name) = Raise e.
Proof.
  intro H. unfold process_worksheet_for_di.
  destruct (extract_timestamps df) as [line1 extracted]. cbn [snd] in H. subst extracted.
  reflexivity.
Qed.

(** The extraction succeeds exactly when there is a first data column. *)
Lemma extraction_outcome (df : DataFrame) :
  (ncols df = 0%nat \/ first_empty_col df = Some 0%nat ->
   snd (extract_timestamps df) = Raise IndexError)
  /\ (ncols df <> 0%nat -> first_empty_col df <> Some 0%nat ->
      exists c0 obj2_raw,
        nth_error (columns df) 0 = Some c0
        /\ snd (extract_timestamps df) = Ok (dropna (snd c0), obj2_raw)).
Proof.
  pose proof (detectLayout_first df) as Hlay.
  split.
  - intros [H0|H0].
    + assert (Hc : columns df = []).
      { unfold ncols in H0. now destruct (columns df). }
      assert (Hl : detectLayout df = Legacy).
      { rewrite Hlay. unfold first_empty_col, labels. now rewrite Hc. }
      rewrite (legacy_extraction df Hl), Hc. reflexivity.
    + rewrite H0 in Hlay. unfold extract_timestamps. rewrite Hlay. cbn [snd].
      rewrite iloc_col_first.
      destruct (0 + 4 <? ncols df)%nat; [|reflexivity].
      rewrite iloc_col_from. unfold iloc_col.
      destruct (nth_error (columns df) (0 + 4)); reflexivity.
  - intros Hn Hf.
    assert (H0 : exists c0, nth_error (columns df) 0 = Some c0).
    { unfold ncols in Hn. destruct (columns df) as [|c0 rest]; [easy|]. now exists c0. }
    destruct H0 as [c0 Hc0]. exists c0.
    assert (I0 : iloc_col df 0 = Ok (snd c0)) by (unfold iloc_col; now rewrite Hc0).
    destruct (first_empty_col df) as [k|] eqn:Ek.
    + unfold extract_timestamps. rewrite Hlay. cbn [snd].
      rewrite iloc_col_first, iloc_col_from.
      destruct k as [|k]; [congruence|]. rewrite I0.
      destruct (S k + 4 <? ncols df)%nat eqn:Eb.
      * unfold iloc_col.
        destruct (nth_error (columns df) (S k + 4)) as [c|] eqn:E4.
        -- cbn [bind]. eauto.
        -- apply nth_error_None in E4. apply Nat.ltb_lt in Eb.
           unfold ncols in Eb. lia.
      * cbn [bind]. eauto.
    + rewrite (legacy_extraction df Hlay).
      destruct (columns df) as [|c rest]; [discriminate Hc0|].
      cbn [nth_error] in Hc0. injection Hc0 as ->. eauto.
Qed.

Lemma clean_timestamps_floats (qs : list Q) :
  clean_timestamps (map Float qs) = (qs, []).
Proof.
  induction qs as [|q qs IH]; [reflexivity|].
  cbn [map]. rewrite clean_timestamps_cons, IH. reflexivity.
Qed.

Lemma dropna_floats (qs : list Q) : dropna (map Float qs) = map Float qs.
Proof.
  unfold dropna. induction qs as [|q qs IH]; [reflexivity|].
  cbn [map filter notna isna negb]. now rewrite IH.
Qed.

End SheetFailure.

(** X8. [process_worksheet_for_di] fails exactly when the table has no
    first data column, that is when it has no column at all or its first
    header is itself a filler or blank header; the exception is then an
    index error.  In every other case it returns a dictionary that carries
    the sheet name and whose object-1 durations are the pairing of the
    cleaned non-missing values of column 0. *)
Theorem X8_sheet_failure :
  forall (df : DataFrame) (sheet_name : string),
    (ncols df = 0%nat \/ first_empty_col df = Some 0%nat ->
     snd (process_worksheet_for_di df sheet_name) = Raise IndexError)
    /\ (ncols df <> 0%nat -> first_empty_col df <> Some 0%nat ->
        exists (s : summary) (c0 : column),
          snd (process_worksheet_for_di df sheet_name) = Ok s
          /\ nth_error (columns df) 0 = Some c0
          /\ Sheet_Name s = sheet_name
          /\ obj1_durations s
             = pairDurations (fst (clean_timestamps (dropna (snd c0)))))
    /\ (forall e, snd (process_worksheet_for_di df sheet_name) = Raise e ->
                  e = IndexError
                  /\ (ncols df = 0%nat \/ first_empty_col df = Some 0%nat)).
Proof.
  intros df sheet_name.
  destruct (extraction_outcome df) as [Hfail Hok].
  assert (Hgood : ncols df <> 0%nat -> first_empty_col df <> Some 0%nat ->
                  exists (s : summary) (c0 : column),
                    snd (process_worksheet_for_di df sheet_name) = Ok s
                    /\ nth_error (columns df) 0 = Some c0
                    /\ Sheet_Name s = sheet_name
                    /\ obj1_durations s
                       = pairDurations (fst (clean_timestamps (dropna (snd c0))))).
  { intros Hn Hf. destruct (Hok Hn Hf) as [c0 [raw2 [Hc0 Hex]]].
    eexists. exists c0.
    split; [exact (process_after_extraction df sheet_name _ _ Hex)|].
    split; [exact Hc0|]. split; reflexivity. }
  split; [|split; [exact Hgood|]].
  - intro H. apply process_extraction_raises. now apply Hfail.
  - intros e He.
    destruct (Nat.eq_dec (ncols df) 0) as [Hn|Hn].
    + rewrite (process_extraction_raises df sheet_name IndexError (Hfail (or_introl Hn))) in He.
      injection He as <-. auto.
    + destruct (first_empty_col df) as [[|k]|] eqn:Ef.
      * rewrite (process_extraction_raises df sheet_name IndexError
                   (Hfail (or_intror eq_refl))) in He.
        injection He as <-. auto.
      * destruct (Hgood Hn) as [s [c0 [Hs _]]]; [discriminate|]. congruence.
      * destruct (Hgood Hn) as [s [c0 [Hs _]]]; [discriminate|]. congruence.
Qed.



(** ** The consolidated sheet, row by row *)

Section ReportRows.

Lemma consolidated_rows_blocks (first_row : nat) (sums : list summary) :
  forall i,
    consolidated_rows (first_row + 6 * i) sums
    = block_rows first_row (enumerate_from i (kept_summaries sums)).
Proof.
  induction sums as [|s sums IH]; intro i; [reflexivity|].
  cbn [consolidated_rows kept_summaries filter].
  fold (kept_summaries sums).
  destruct (negb (String.eqb (Sheet_Name s) "Consolidated Data")).
  - cbn [enumerate_from block_rows flat_map fst snd]. f_equal.
    replace (first_row + 6 * i + 6)%nat with (first_row + 6 * S i)%nat by lia.
    apply IH.
  - apply IH.
Qed.

Lemma block_rows_length (first_row : nat) (kept : list (nat * summary)) :
  List.length (block_rows first_row kept) = (5 * List.length kept)%nat.
Proof.
  induction kept as [|ks kept IH]; [reflexivity|].
  unfold block_rows in *. cbn [flat_map]. rewrite length_app, IH.
  cbn [summary_rows List.length]. lia.
Qed.

Lemma enumerate_from_length {A : Type} (l : list A) :
  forall i, List.length (enumerate_from i l) = List.length l.
Proof.
  induction l as [|a l IH]; intro i; [reflexivity|].
  cbn [enumerate_from List.length]. now rewrite IH.
Qed.

Lemma enumerate_from_nth {A : Type} (l : list A) :
  forall i k a, nth_error l k = Some a ->
                In ((i + k)%nat, a) (enumerate_from i l).
Proof.
  induction l as [|b l IH]; intros i k a H; [now destruct k|].
  cbn [enumerate_from]. destruct k as [|k]; cbn [nth_error] in H.
  - injection H as ->. left. f_equal. lia.
  - right. replace (i + S k)%nat with (S i + k)%nat by lia. now apply IH.
Qed.

Lemma enumerate_from_In {A : Type} (l : list A) :
  forall i k a, In (k, a) (enumerate_from i l) ->
                (i <= k < i + List.length l)%nat /\ nth_error l (k - i) = Some a.
Proof.
  induction l as [|b l IH]; intros i k a H; [destruct H|].
  cbn [enumerate_from] in H. destruct H as [H|H].
  - injection H as <- <-. rewrite Nat.sub_diag. cbn [List.length nth_error].
    split; [lia | reflexivity].
  - apply IH in H. destruct H as [Hk Hn]. cbn [List.length]. split; [lia|].
    replace (k - i)%nat with (S (k - S i)) by lia. exact Hn.
Qed.

(** The row numbers of the blocks of a numbered list. *)
Lemma block_rows_numbers (first_row : nat) (l : list summary) :
  forall i r,
    In r (map xrow_number (block_rows first_row (enumerate_from i l))) ->
    exists k j, (i <= k < i + List.length l)%nat /\ (j <= 4)%nat
                /\ r = (first_row + 6 * k + j)%nat.
Proof.
  induction l as [|s l IH]; intros i r H; [destruct H|].
  cbn [enumerate_from block_rows flat_map fst snd] in H.
  rewrite map_app in H. apply in_app_or in H. destruct H as [H|H].
  - cbn [summary_rows map xrow_number fst In] in H. cbn [List.length].
    destruct H as [H|[H|[H|[H|[H|[]]]]]]; subst r; exists i;
      [exists 0%nat | exists 1%nat | exists 2%nat | exists 3%nat | exists 4%nat];
      repeat split; lia.
  - apply IH in H. destruct H as [k [j [Hk [Hj Hr]]]].
    exists k, j. cbn [List.length]. repeat split; try lia.
Qed.

Lemma block_rows_sorted (first_row : nat) (l : list summary) :
  forall i,
    StronglySorted lt (map xrow_number (block_rows first_row (enumerate_from i l))).
Proof.
  induction l as [|s l IH]; intro i; [constructor|].
  cbn [enumerate_from block_rows flat_map fst snd]. rewrite map_app.
  cbn [summary_rows map xrow_number fst app].
  assert (Hall : forall r,
             In r (map xrow_number (block_rows first_row (enumerate_from (S i) l))) ->
             (first_row + 6 * i + 4 < r)%nat).
  { intros r Hr. apply block_rows_numbers in Hr.
    destruct Hr as [k [j [Hk [Hj ->]]]]. lia. }
  fold (block_rows first_row (enumerate_from (S i) l)).
  repeat (constructor;
          [| repeat (apply Forall_cons; [lia|]);
             apply Forall_forall; intros r Hr; specialize (Hall r Hr); lia]).
  apply IH.
Qed.

Lemma block_rows_In (first_row : nat) (kept : list (nat * summary))
      (k : nat) (s : summary) :
  In (k, s) kept ->
  In ((first_row + 6 * k)%nat, XText (Sheet_Name s), XBlank) (block_rows first_row kept)
  /\ In ((first_row + 6 * k + 4)%nat, XText "DI", XNum (DI s)) (block_rows first_row kept).
Proof.
  intro H. unfold block_rows. split; apply in_flat_map; exists (k, s);
    (split; [exact H|]); cbn [summary_rows fst snd In]; auto 6.
Qed.

Lemma sheet_names_kept (names : list string) (sums : list summary) :
  map Sheet_Name sums
  = filter (fun name => negb (String.eqb name "Consolidated Data")) names ->
  kept_summaries sums = sums.
Proof.
  revert names. induction sums as [|s sums IH]; intros names H; [reflexivity|].
  cbn [map] in H. cbn [kept_summaries filter]. fold (kept_summaries sums).
  induction names as [|n names IHn]; [discriminate|].
  cbn [filter] in H.
  destruct (negb (String.eqb n "Consolidated Data")) eqn:E.
  - injection H as Hs Hrest. rewrite Hs, E. f_equal. now apply (IH names).
  - now apply IHn.
Qed.

End ReportRows.

(** X10. [create_di_consolidated_sheet] writes the header in row 1 and,
    for the k-th summary (from 0) among those whose name is not
    "Consolidated Data", a block of five rows from row 2 + 6k, the name
    first and the index last: 1 + 5n rows for n such summaries, written
    with strictly increasing row numbers, every one of them row 1 or a
    row 2 + 6k + j with j at most 4, so that the separator rows 7, 13,
    ... are never written. *)
Theorem X10_report_layout :
  forall sums : list summary,
    let kept := kept_summaries sums in
    let rows := create_di_consolidated_sheet sums in
    rows = (1%nat, XText "Sheet Name", XText "Values") :: block_rows 2 (enumerate kept)
    /\ List.length rows = (1 + 5 * List.length kept)%nat
    /\ StronglySorted lt (map xrow_number rows)
    /\ (forall k s, nth_error kept k = Some s ->
                    In ((2 + 6 * k)%nat, XText (Sheet_Name s), XBlank) rows
                    /\ In ((2 + 6 * k + 4)%nat, XText "DI", XNum (DI s)) rows)
    /\ (forall r, In r (map xrow_number rows) ->
                  r = 1%nat
                  \/ exists k j, (k < List.length kept)%nat /\ (j <= 4)%nat
                                 /\ r = (2 + 6 * k + j)%nat)
    /\ (forall k, ~ In (2 + 6 * k + 5)%nat (map xrow_number rows)).
Proof.
  intros sums kept rows.
  assert (Hrows : rows = (1%nat, XText "Sheet Name", XText "Values")
                           :: block_rows 2 (enumerate kept)).
  { unfold rows, create_di_consolidated_sheet, enumerate. f_equal.
    apply (consolidated_rows_blocks 2 sums 0). }
  assert (Hnum : forall r, In r (map xrow_number rows) ->
                           r = 1%nat
                           \/ exists k j, (k < List.length kept)%nat /\ (j <= 4)%nat
                                          /\ r = (2 + 6 * k + j)%nat).
  { intros r Hr. rewrite Hrows in Hr. cbn [map In xrow_number fst] in Hr.
    destruct Hr as [Hr|Hr]; [now left|]. right.
    apply block_rows_numbers in Hr. destruct Hr as [k [j [Hk [Hj ->]]]].
    exists k, j. repeat split; lia. }
  split; [exact Hrows|]. split; [|split; [|split; [|split; [exact Hnum|]]]].
  - rewrite Hrows. cbn [List.length]. unfold enumerate.
    now rewrite block_rows_length, enumerate_from_length.
  - rewrite Hrows. cbn [map xrow_number fst]. constructor.
    + apply block_rows_sorted.
    + apply Forall_forall. intros r Hr. apply block_rows_numbers in Hr.
      destruct Hr as [k [j [Hk [Hj ->]]]]. lia.
  - intros k s Hk. rewrite Hrows.
    destruct (block_rows_In 2 (enumerate kept) k s) as [H1 H2].
    { apply (enumerate_from_nth kept 0 k s Hk). }
    split; right; assumption.
  - intros k Hin. apply Hnum in Hin.
    destruct Hin as [H|[k' [j [_ [Hj H]]]]]; lia.
Qed.


(** ** The cells [write_di_summary_to_sheet] assigns *)

Section SummaryCells.

Lemma duration_cells_from (col : nat) (ds : list Q) :
  forall i a,
    In a (map (fun id : nat * Q => ((col, fst id + 3)%nat, XNum (snd id)))
              (enumerate_from i ds)) ->
    exists k d, (i <= k)%nat /\ nth_error ds (k - i) = Some d
                /\ a = ((col, k + 3)%nat, XNum d).
Proof.
  intros i a H. apply in_map_iff in H. destruct H as [[k d] [<- H]].
  apply enumerate_from_In in H. destruct H as [Hk Hn].
  exists k, d. cbn [fst snd]. repeat split; [lia | exact Hn].
Qed.

Lemma duration_cells_In (col : nat) (ds : list Q) (a : cell_address) :
  In a (map fst (duration_cells col ds)) ->
  fst a = col /\ (3 <= snd a)%nat.
Proof.
  intro H. apply in_map_iff in H. destruct H as [c [<- H]].
  apply duration_cells_from in H. destruct H as [k [d [_ [_ ->]]]].
  cbn [fst snd]. split; [reflexivity | lia].
Qed.

Lemma duration_cells_nth (col : nat) (ds : list Q) (k : nat) (d : Q) :
  nth_error ds k = Some d -> In ((col, k + 3)%nat, XNum d) (duration_cells col ds).
Proof.
  intro H. unfold duration_cells. apply in_map_iff. exists (k, d).
  split; [reflexivity|]. apply (enumerate_from_nth ds 0 k d H).
Qed.

Lemma duration_cells_length (col : nat) (ds : list Q) :
  List.length (duration_cells col ds) = List.length ds.
Proof.
  unfold duration_cells, enumerate. now rewrite length_map, enumerate_from_length.
Qed.

Lemma duration_cells_from_NoDup (col : nat) (ds : list Q) :
  forall i,
    NoDup (map fst (map (fun id : nat * Q => ((col, fst id + 3)%nat, XNum (snd id)))
                        (enumerate_from i ds))).
Proof.
  induction ds as [|d ds IH]; intro i; [constructor|].
  cbn [enumerate_from map fst snd]. constructor; [|apply IH].
  intro H. apply in_map_iff in H. destruct H as [c [Hc H]].
  apply duration_cells_from in H. destruct H as [k [d' [Hk [_ ->]]]].
  cbn [fst] in Hc. injection Hc as Hc. lia.
Qed.

Lemma duration_cells_NoDup (col : nat) (ds : list Q) :
  NoDup (map fst (duration_cells col ds)).
Proof. apply duration_cells_from_NoDup. Qed.

Lemma duration_cells_columns (col bound : nat) (ds : list Q) :
  (bound <= col)%nat ->
  Forall (fun c : cell_address * xl => (bound <= fst (fst c))%nat) (duration_cells col ds).
Proof.
  intro H. apply Forall_forall. intros c Hc.
  apply duration_cells_from in Hc. destruct Hc as [k [d [_ [_ ->]]]]. exact H.
Qed.

End SummaryCells.

(** Two addresses that cannot be the same cell. *)
Ltac cell_clash :=
  repeat match goal with
         | H : In _ (_ ++ _) |- _ => apply in_app_or in H; destruct H as [H|H]
         | H : In _ (map fst (duration_cells _ _)) |- _ =>
             apply duration_cells_In in H; destruct H as [? ?]
         | H : In _ (_ :: _) |- _ => destruct H as [H|H]
         | H : In _ [] |- _ => destruct H
         end;
  subst; cbn [fst snd] in *;
  try match goal with
      | H : (_, _) = (_, _) |- _ => injection H; intros; lia
      end;
  try lia.

(** X12. [write_di_summary_to_sheet] never touches the data: every cell
    it assigns lies in a column at least two to the right of the last
    used column, so one column is left free.  No cell is assigned twice,
    so nothing it writes is overwritten by a later assignment.  When the
    columns exist (the last one, max_col + 6, is at most 18278), it
    assigns 14 cells and one cell for every bout duration: the k-th
    duration of object 1 in row k + 3 of column max_col + 5, that of
    object 2 in the same row of column max_col + 6, and the index in row
    13 of columns max_col + 2 (label) and max_col + 3 (value).  When
    column max_col + 3 does not exist it assigns nothing. *)
Theorem X12_summary_cells :
  forall (max_col : nat) (s : summary),
    let cells := di_summary_cells max_col s in
    Forall (fun c : cell_address * xl => (max_col + 2 <= fst (fst c))%nat) cells
    /\ NoDup (map fst cells)
    /\ ((Z.of_nat max_col + 6 <= 18278)%Z ->
        List.length cells
        = (14 + List.length (obj1_durations s) + List.length (obj2_durations s))%nat
        /\ (forall k d, nth_error (obj1_durations s) k = Some d ->
                        In ((max_col + 5, k + 3)%nat, XNum d) cells)
        /\ (forall k d, nth_error (obj2_durations s) k = Some d ->
                        In ((max_col + 6, k + 3)%nat, XNum d) cells)
        /\ In ((max_col + 2, 13)%nat, XText "DI") cells
        /\ In ((max_col + 3, 13)%nat, XNum (DI s)) cells)
    /\ ((18278 < Z.of_nat max_col + 3)%Z -> cells = []).
Proof.
  intros max_col s cells. unfold cells, di_summary_cells. cbv zeta.
  replace (max_col + 2 + 1)%nat with (max_col + 3)%nat by lia.
  replace (max_col + 2 + 3)%nat with (max_col + 5)%nat by lia.
  replace (max_col + 2 + 4)%nat with (max_col + 6)%nat by lia.
  cbn [Nat.add].
  split; [|split; [|split]].
  - destruct (negb (column_letter_ok (max_col + 2) && column_letter_ok (max_col + 3)));
      [constructor|].
    apply Forall_app. split.
    { repeat (apply Forall_cons; [cbn [fst]; lia|]). constructor. }
    destruct (negb (column_letter_ok (max_col + 5) && column_letter_ok (max_col + 6)));
      [constructor|].
    repeat (apply Forall_app; split);
      try (apply duration_cells_columns; lia);
      repeat (apply Forall_cons; [cbn [fst]; lia|]); constructor.
  - destruct (negb (column_letter_ok (max_col + 2) && column_letter_ok (max_col + 3)));
      [constructor|].
    assert (H8 : NoDup [(max_col + 2, 10); (max_col + 3, 10);
                        (max_col + 2, 11); (max_col + 3, 11);
                        (max_col + 2, 12); (max_col + 3, 12);
                        (max_col + 2, 13); (max_col + 3, 13)]%nat).
    { repeat (constructor; [intro H; cell_clash|]). constructor. }
    destruct (negb (column_letter_ok (max_col + 5) && column_letter_ok (max_col + 6))).
    { rewrite app_nil_r. exact H8. }
    rewrite !map_app. cbn [map fst].
    apply NoDup_app; [exact H8| |intros a Ha Hb; cell_clash].
    apply NoDup_app;
      [repeat constructor; intros [] | | intros a Ha Hb; cell_clash].
    apply NoDup_app; [apply duration_cells_NoDup | | intros a Ha Hb; cell_clash].
    apply NoDup_app;
      [repeat constructor; intros [] | | intros a Ha Hb; cell_clash].
    apply NoDup_app; [apply duration_cells_NoDup | | intros a Ha Hb; cell_clash].
    repeat (constructor; [intro H; cell_clash|]). constructor.
  - intro Hfit.
    assert (Hok : forall c, (max_col + 2 <= c <= max_col + 6)%nat ->
                            column_letter_ok c = true).
    { intros c Hc. unfold column_letter_ok. apply andb_true_iff.
      split; apply Z.leb_le; lia. }
    rewrite !Hok by lia. cbn [andb negb].
    split; [|split; [|split; [|split]]].
    + rewrite !length_app, !duration_cells_length. cbn [List.length]. lia.
    + intros k d H. apply in_or_app. right. apply in_or_app. right.
      apply in_or_app. left. now apply duration_cells_nth.
    + intros k d H. do 4 (apply in_or_app; right).
      apply in_or_app. left. now apply duration_cells_nth.
    + apply in_or_app. left. cbn [In]. auto 10.
    + apply in_or_app. left. cbn [In]. auto 10.
  - intro Hbig.
    assert (Hno : column_letter_ok (max_col + 3) = false).
    { unfold column_letter_ok. apply andb_false_iff. right. apply Z.leb_gt. lia. }
    rewrite Hno, andb_false_r. reflexivity.
Qed.

(** ** The grouper and the merger, from the workbook to the sheets *)

Section Flag.

Lemma separate_flag (excel_data : list (string * DataFrame)) :
  forall st,
    snd (fold_left separate_step excel_data st)
    = snd st || existsb has_object_id_column excel_data.
Proof.
  induction excel_data as [|[sheet_name data] rest IH]; intros [sd flag];
    cbn [fold_left existsb snd].
  - now rewrite orb_false_r.
  - rewrite IH. unfold separate_step, has_object_id_column. cbn [snd].
    destruct (find_column "object_id" data); cbn [snd orb].
    + now rewrite orb_true_r.
    + reflexivity.
Qed.

Lemma separate_untouched (excel_data : list (string * DataFrame)) :
  existsb has_object_id_column excel_data = false ->
  forall st, fold_left separate_step excel_data st = st.
Proof.
  induction excel_data as [|[sheet_name data] rest IH]; intros H st; [reflexivity|].
  cbn [existsb] in H. apply orb_false_iff in H. destruct H as [H1 H2].
  cbn [fold_left]. rewrite IH by exact H2.
  destruct st as [sd flag]. unfold separate_step.
  unfold has_object_id_column in H1. cbn [snd] in H1.
  now destruct (find_column "object_id" data).
Qed.

Lemma fold_dict_set_keys (V : Type) (writes : list (string * V)) :
  forall d k,
    In k (map fst (fold_left (fun d (w : string * V) => dict_set d (fst w) (snd w))
                             writes d))
    <-> In k (map fst d) \/ In k (map fst writes).
Proof.
  induction writes as [|w writes IH]; intros d k; cbn [fold_left map In].
  - tauto.
  - rewrite IH, dict_set_keys. intuition (subst; auto).
Qed.

Lemma sheet_writes_In (sheet : string * DataFrame) (k : string) :
  In k (map fst (sheet_writes sheet))
  <-> exists ids z, find_column "object_id" (snd sheet) = Some ids
                    /\ In (Int z) ids /\ k = group_key (fst sheet) z.
Proof.
  unfold sheet_writes. destruct (find_column "object_id" (snd sheet)) as [ids|].
  - unfold groupby_object_id. rewrite !map_map. cbn [fst snd]. rewrite in_map_iff.
    destruct (object_ids_spec ids) as [_ Hids]. split.
    + intros [z [<- Hz]]. exists ids, z. rewrite <- Hids. auto.
    + intros [ids' [z [E [Hz ->]]]]. injection E as <-. exists z.
      rewrite Hids. auto.
  - cbn [map In]. split; [tauto|]. intros [ids [z [E _]]]. discriminate.
Qed.

Lemma stored_keys (excel_data : list (string * DataFrame)) (k : string) :
  In k (map fst (fst (separate excel_data)))
  <-> exists sheet_name data ids z,
        In (sheet_name, data) excel_data
        /\ find_column "object_id" data = Some ids
        /\ In (Int z) ids
        /\ k = group_key sheet_name z.
Proof.
  unfold separate. rewrite separate_writes, fold_dict_set_keys. cbn [fst map In].
  rewrite flat_map_concat_map, concat_map, in_concat. split.
  - intros [[]|[l [Hl Hk]]]. rewrite map_map in Hl. apply in_map_iff in Hl.
    destruct Hl as [[sheet_name data] [<- Hsheet]].
    apply sheet_writes_In in Hk. destruct Hk as [ids [z [E [Hz ->]]]].
    exists sheet_name, data, ids, z. auto.
  - intros [sheet_name [data [ids [z [Hsheet [E [Hz ->]]]]]]]. right.
    exists (map fst (sheet_writes (sheet_name, data))). split.
    + rewrite map_map. apply in_map_iff. now exists (sheet_name, data).
    + apply sheet_writes_In. exists ids, z. auto.
Qed.

End Flag.

(** X13. The flag [has_object_id] is raised exactly when some sheet has a
    column named object_id.  When no sheet has one, nothing is stored and
    [process_excel_by_object_id] gives up with its (False, None) return
    before any sheet is written. *)
Theorem X13_no_identifier_column :
  forall excel_data : list (string * DataFrame),
    snd (separate excel_data) = existsb has_object_id_column excel_data
    /\ (existsb has_object_id_column excel_data = false ->
        separate excel_data = ([], false)
        /\ process_excel_by_object_id excel_data = None).
Proof.
  intro excel_data. split.
  - unfold separate. now rewrite separate_flag.
  - intro H. unfold process_excel_by_object_id, separate.
    rewrite (separate_untouched excel_data H). auto.
Qed.

Section OutputNames.

Lemma dict_append_length (d : list (string * list string)) (k x : string) :
  (List.length (dict_append d k x) <= S (List.length d))%nat
  /\ List.length (List.concat (map snd (dict_append d k x)))
     = S (List.length (List.concat (map snd d))).
Proof.
  induction d as [|[k' l] d [IH1 IH2]]; [split; reflexivity|].
  cbn [dict_append]. destruct (String.eqb k' k); cbn [List.length map snd List.concat].
  - rewrite !length_app. cbn [List.length]. split; lia.
  - rewrite !length_app, IH2. split; lia.
Qed.

Lemma group_stems_lengths (keys : list string) :
  forall acc,
    let groups :=
      fold_left (fun sheet_groups sheet_key =>
                   dict_append sheet_groups (stem_of sheet_key) sheet_key)
                keys acc in
    (List.length groups <= List.length acc + List.length keys)%nat
    /\ List.length (List.concat (map snd groups))
       = (List.length (List.concat (map snd acc)) + List.length keys)%nat.
Proof.
  induction keys as [|k keys IH]; intro acc; cbn [fold_left List.length].
  - split; lia.
  - destruct (IH (dict_append acc (stem_of k) k)) as [H1 H2].
    destruct (dict_append_length acc (stem_of k) k) as [L1 L2].
    cbv zeta in *. rewrite H2, L2. split; lia.
Qed.

Lemma group_nonempty (keys : list string) (stem : string) (l : list string) :
  In (stem, l) (group_stems keys) -> l <> [].
Proof.
  intro Hl.
  destruct (group_stems_spec keys) as [_ [G2 _]].
  pose proof (G2 _ _ Hl) as Hf.
  assert (Hs : In stem (map fst (group_stems keys))).
  { change stem with (fst (stem, l)). now apply in_map. }
  destruct (group_stems_fold keys [] (NoDup_nil _)) as [_ [_ H3]].
  apply H3 in Hs. destruct Hs as [[]|[k [Hk Hst]]].
  intro Hnil. rewrite Hnil in Hf.
  assert (Hin' : In k (filter (fun k => String.eqb (stem_of k) stem) keys)).
  { apply filter_In. split; [exact Hk|]. now apply String.eqb_eq. }
  rewrite <- Hf in Hin'. destruct Hin'.
Qed.

Lemma process_names (excel_data : list (string * DataFrame)) :
  fst (separate excel_data) <> [] ->
  exists out,
    process_excel_by_object_id excel_data = Some out
    /\ map fst out = map fst (group_stems (map fst (fst (separate excel_data)))).
Proof.
  intro Hne. unfold process_excel_by_object_id.
  destruct (separate_spec excel_data) as [Hnd [_ Hflag]].
  destruct (separate excel_data) as [sd has]. cbn [fst snd] in *.
  destruct has; [|now destruct Hne; apply Hflag].
  cbn [negb].
  destruct (group_stems_spec (map fst sd)) as [G1 [G2 G3]].
  destruct (write_stems_spec sd (group_stems (map fst sd))) as [out [Hout [Hn Hin]]].
  { intros stem l Hl. apply combine_stem_total.
    - exact (group_nonempty _ _ _ Hl).
    - intros k Hk. rewrite (G2 _ _ Hl) in Hk. apply filter_In in Hk. tauto. }
  exists out. now rewrite Hout.
Qed.

End OutputNames.



(** X15. The stems partition the stored keys: the stems of
    [sheet_groups] are distinct, the list filed under a stem holds
    exactly the keys with that stem, in the order of the keys, and is
    never empty, every key is in the list of its own stem, and the lists
    together have as many entries as there are keys. *)
Theorem X15_stems_partition :
  forall keys : list string,
    let groups := group_stems keys in
    NoDup (map fst groups)
    /\ (forall stem l, In (stem, l) groups ->
                       l = filter (fun k => String.eqb (stem_of k) stem) keys
                       /\ exists k rest, l = k :: rest)
    /\ (forall k, In k keys -> exists l, In (stem_of k, l) groups /\ In k l)
    /\ List.length (List.concat (map snd groups)) = List.length keys.
Proof.
  intros keys groups.
  destruct (group_stems_spec keys) as [G1 [G2 G3]].
  split; [exact G1|]. split; [|split].
  - intros stem l Hl. split; [now apply G2|].
    pose proof (group_nonempty keys stem l Hl) as Hne.
    destruct l as [|k rest]; [congruence | eauto].
  - intros k Hk. destruct (G3 k Hk) as [l Hl]. exists l. split; [exact Hl|].
    rewrite (G2 _ _ Hl). apply filter_In. split; [exact Hk|].
    now apply String.eqb_eq.
  - destruct (group_stems_lengths keys []) as [_ L2]. exact L2.
Qed.

(** ** Which groups reach a combined sheet *)

Section LeastKeys.

Lemma leb_total (s t : string) : String.leb s t = false -> String.leb t s = true.
Proof.
  unfold String.leb. rewrite (String.compare_antisym t s).
  destruct (String.compare s t); cbn; congruence.
Qed.

Lemma insert_sorted_HdRel (s t : string) (l : list string) :
  str_le t s -> HdRel str_le t l -> HdRel str_le t (insert_sorted s l).
Proof.
  intros Hts Hl. destruct l as [|u l]; cbn [insert_sorted].
  - now constructor.
  - destruct (String.leb s u); constructor; [exact Hts|].
    now inversion Hl.
Qed.

Lemma insert_sorted_Sorted (s : string) (l : list string) :
  Sorted str_le l -> Sorted str_le (insert_sorted s l).
Proof.
  induction 1 as [|t l Hl IH Hd]; cbn [insert_sorted].
  - repeat constructor.
  - destruct (String.leb s t) eqn:E.
    + constructor; [now constructor|]. now constructor.
    + constructor; [exact IH|].
      apply insert_sorted_HdRel; [|exact Hd]. now apply leb_total.
Qed.

Lemma sort_strings_Sorted (l : list string) : Sorted str_le (sort_strings l).
Proof.
  induction l as [|s l IH]; [constructor|].
  cbn [sort_strings fold_right]. now apply insert_sorted_Sorted.
Qed.

End LeastKeys.

(** X16. Of a stem with two or more keys only two reach the combined
    sheet: the first two of the keys in code-point order.  The table is
    the one these two alone would give, whatever is stored under the
    other keys of the stem, which are never read. *)
Theorem X16_two_least_keys :
  forall (separated_data : list (string * DataFrame)) (sheet_list : list string),
    (2 <= List.length sheet_list)%nat ->
    exists k0 k1 rest,
      sort_strings sheet_list = k0 :: k1 :: rest
      /\ String.leb k0 k1 = true
      /\ (forall k, In k sheet_list <-> k = k0 \/ k = k1 \/ In k rest)
      /\ combine_stem separated_data sheet_list
         = combine_stem separated_data [k0; k1]
      /\ (forall g0 g1,
            dict_get separated_data k0 = Ok g0 ->
            dict_get separated_data k1 = Ok g1 ->
            combine_stem separated_data sheet_list
            = Ok (concat_axis1 (reset_index (add_empty_columns g0))
                               (reset_index g1))).
Proof.
  intros sd l Hlen.
  pose proof (sort_strings_length l) as Hl.
  pose proof (sort_strings_Sorted l) as Hs.
  pose proof (fun k => sort_strings_In k l) as Hin.
  destruct (sort_strings l) as [|k0 [|k1 rest]] eqn:E;
    cbn [List.length] in Hl; try lia.
  assert (H01 : String.leb k0 k1 = true).
  { inversion Hs as [|? ? _ Hd]. now inversion Hd. }
  assert (Hpair : sort_strings [k0; k1] = [k0; k1]).
  { cbn [sort_strings fold_right insert_sorted]. now rewrite H01. }
  assert (Hfull : forall g0 g1,
             dict_get sd k0 = Ok g0 -> dict_get sd k1 = Ok g1 ->
             combine_stem sd l
             = Ok (concat_axis1 (reset_index (add_empty_columns g0))
                                (reset_index g1))).
  { intros g0 g1 H0 H1. unfold combine_stem. rewrite E, getitem_0, getitem_1.
    cbn [bind]. rewrite H0, H1. reflexivity. }
  exists k0, k1, rest. split; [reflexivity|]. split; [exact H01|].
  split; [|split; [|exact Hfull]].
  - intro k. rewrite <- Hin. cbn [In]. intuition congruence.
  - unfold combine_stem. rewrite E, Hpair, !getitem_0, !getitem_1. reflexivity.
Qed.

Lemma X16_two_least_keys_witness :
  exists k0 k1 rest,
    sort_strings ["rat1_obj_25"; "rat1_obj_2"; "rat1_obj_1"] = k0 :: k1 :: rest
    /\ String.leb k0 k1 = true
    /\ (forall k, In k ["rat1_obj_25"; "rat1_obj_2"; "rat1_obj_1"]
                  <-> k = k0 \/ k = k1 \/ In k rest)
    /\ combine_stem (fst (separate wb_ids_1_2_25))
                    ["rat1_obj_25"; "rat1_obj_2"; "rat1_obj_1"]
       = combine_stem (fst (separate wb_ids_1_2_25)) [k0; k1]
    /\ (forall g0 g1,
          dict_get (fst (separate wb_ids_1_2_25)) k0 = Ok g0 ->
          dict_get (fst (separate wb_ids_1_2_25)) k1 = Ok g1 ->
          combine_stem (fst (separate wb_ids_1_2_25))
                       ["rat1_obj_25"; "rat1_obj_2"; "rat1_obj_1"]
          = Ok (concat_axis1 (reset_index (add_empty_columns g0))
                             (reset_index g1))).
Proof.
  apply (X16_two_least_keys (fst (separate wb_ids_1_2_25))
           ["rat1_obj_25"; "rat1_obj_2"; "rat1_obj_1"]).
  cbn [List.length]. lia.
Defined.

Section StemText.

Lemma obj_match_grow (s r : string) :
  obj_match s = true -> obj_match (s ++ r)%string = true.
Proof.
  unfold obj_match. intro H. apply orb_true_iff in H. apply orb_true_iff.
  destruct H as [H|H]; [left | right]; now apply startswith_grow.
Qed.

Lemma stem_of_prefix (k : string) :
  exists r, k = (stem_of k ++ r)%string /\ (r = EmptyString \/ obj_match r = true).
Proof.
  induction k as [|c k [r [IH1 IH2]]].
  - exists EmptyString. auto.
  - cbn [stem_of]. destruct (obj_match (String c k)) eqn:E.
    + exists (String c k). auto.
    + exists r. cbn [String.append]. split; [now rewrite <- IH1 | exact IH2].
Qed.

Lemma stem_of_no_match (k : string) :
  forall a b, stem_of k = (a ++ b)%string -> obj_match b = false.
Proof.
  induction k as [|c k IH]; intros a b H.
  - cbn [stem_of] in H. destruct a, b; try discriminate. reflexivity.
  - cbn [stem_of] in H. destruct (obj_match (String c k)) eqn:E.
    + destruct a, b; try discriminate. reflexivity.
    + destruct a as [|c' a]; cbn [String.append] in H.
      * subst b. destruct (obj_match (String c (stem_of k))) eqn:E'; [|reflexivity].
        destruct (stem_of_prefix k) as [r [Hr _]].
        apply (obj_match_grow _ r) in E'. cbn [String.append] in E'.
        rewrite <- Hr in E'. congruence.
      * injection H as _ H. now apply (IH a b).
Qed.

End StemText.

(** X17. What [re.split(r'_obj_[12]', key)[0]] returns: the stem is the
    part of the key before its leftmost match of the pattern, that is,
    the key is the stem followed by either nothing or a text that begins
    with a match, and no match begins anywhere inside the stem.  Taking
    the stem of a stem changes nothing. *)
Theorem X17_stem_is_leftmost_split :
  forall sheet_key : string,
    (exists r, sheet_key = (stem_of sheet_key ++ r)%string
               /\ (r = EmptyString \/ obj_match r = true))
    /\ (forall a b, stem_of sheet_key = (a ++ b)%string -> obj_match b = false)
    /\ stem_of (stem_of sheet_key) = stem_of sheet_key.
Proof.
  intro k. split; [apply stem_of_prefix|]. split; [apply stem_of_no_match|].
  pose proof (stem_of_no_match k) as Hno.
  induction (stem_of k) as [|c s IH]; [reflexivity|].
  cbn [stem_of]. rewrite (Hno EmptyString (String c s) eq_refl).
  f_equal. apply IH. intros a b H. apply (Hno (String c a) b).
  cbn [String.append]. now rewrite H.
Qed.

(** ** What the grouper stores, and the way of a sheet with the
       identifiers 1 and 2 through both steps *)



Section EndToEnd.

Lemma filter_two (f : string -> bool) (x y : string) (l : list string) :
  NoDup l -> In x l -> In y l -> x <> y -> f x = true -> f y = true ->
  (forall k, In k l -> f k = true -> k = x \/ k = y) ->
  filter f l = [x; y] \/ filter f l = [y; x].
Proof.
  intros Hnd Hx Hy Hxy Fx Fy Hall.
  induction l as [|a l IH]; [destruct Hx|].
  inversion Hnd as [|? ? Ha Hl]; subst.
  cbn [filter]. destruct (f a) eqn:Fa.
  - destruct (Hall a (or_introl eq_refl) Fa) as [E|E]; subst a.
    + left. f_equal.
      destruct Hy as [Hy|Hy]; [congruence|].
      apply filter_unique; auto.
      intros k Hk Fk. destruct (Hall k (or_intror Hk) Fk) as [E|E]; subst k; tauto.
    + right. f_equal.
      destruct Hx as [Hx|Hx]; [congruence|].
      apply filter_unique; auto.
      intros k Hk Fk. destruct (Hall k (or_intror Hk) Fk) as [E|E]; subst k; tauto.
  - destruct Hx as [Hx|Hx]; [congruence|].
    destruct Hy as [Hy|Hy]; [congruence|].
    apply IH; auto.
    intros k Hk. apply Hall. now right.
Qed.

Lemma labels_select_rows (mask : list bool) (df : DataFrame) :
  labels (select_rows mask df) = labels df.
Proof.
  unfold labels, select_rows. cbn [columns]. rewrite map_map. reflexivity.
Qed.

End EndToEnd.



(** ** The automated merger *)

Section AutoMerger.

Lemma length_append (a b : string) :
  String.length (a ++ b) = (String.length a + String.length b)%nat.
Proof. induction a as [|c a IH]; cbn; [reflexivity | now rewrite IH]. Qed.

Lemma substring_all (s : string) : String.substring 0 (String.length s) s = s.
Proof. induction s as [|c s IH]; cbn; [reflexivity | now rewrite IH]. Qed.

Lemma substring_prefix (p s : string) :
  String.substring 0 (String.length p) (p ++ s) = p.
Proof.
  induction p as [|c p IH]; cbn.
  - now destruct s.
  - now rewrite IH.
Qed.

Lemma substring_suffix (p s : string) (m : nat) :
  String.substring (String.length p) m (p ++ s) = String.substring 0 m s.
Proof. induction p as [|c p IH]; cbn; [reflexivity | exact IH]. Qed.

Lemma endswith_append (p suffix : string) : endswith (p ++ suffix) suffix = true.
Proof.
  unfold endswith. rewrite length_append. apply andb_true_iff. split.
  - apply Nat.leb_le. lia.
  - replace (String.length p + String.length suffix - String.length suffix)%nat
      with (String.length p) by lia.
    rewrite substring_suffix, substring_all. apply String.eqb_refl.
Qed.

Lemma drop_last5_append (p suffix : string) :
  String.length suffix = 5%nat -> drop_last5 (p ++ suffix) = p.
Proof.
  intro H. unfold drop_last5. rewrite length_append, H.
  replace (String.length p + 5 - 5)%nat with (String.length p) by lia.
  apply substring_prefix.
Qed.

Lemma mem_string_In (s : string) (l : list string) :
  mem_string s l = true <-> In s l.
Proof.
  unfold mem_string. rewrite existsb_exists. split.
  - intros [x [Hx E]]. apply String.eqb_eq in E. now subst.
  - intro H. exists s. split; [exact H | apply String.eqb_refl].
Qed.

Lemma dedup_In (x : string) (l : list string) : In x (dedup l) <-> In x l.
Proof.
  induction l as [|s l IH]; [tauto|].
  cbn [dedup]. destruct (mem_string s l) eqn:E.
  - rewrite IH. cbn [In]. apply mem_string_In in E.
    split; [tauto|]. intros [<-|H]; assumption.
  - cbn [In]. now rewrite IH.
Qed.

Lemma dedup_NoDup (l : list string) : NoDup (dedup l).
Proof.
  induction l as [|s l IH]; [constructor|].
  cbn [dedup]. destruct (mem_string s l) eqn:E; [exact IH|].
  constructor; [|exact IH].
  rewrite dedup_In, <- mem_string_In. congruence.
Qed.

Lemma insert_sorted_NoDup (s : string) (l : list string) :
  ~ In s l -> NoDup l -> NoDup (insert_sorted s l).
Proof.
  induction l as [|t l IH]; intros Hs Hl; cbn [insert_sorted].
  - repeat constructor. intros [].
  - destruct (String.leb s t); [now constructor|].
    inversion Hl as [|? ? Ht Hl']; subst.
    constructor.
    + rewrite insert_sorted_In. intros [->|H]; [apply Hs; now left | tauto].
    + apply IH; [|exact Hl']. intro H. apply Hs. now right.
Qed.

Lemma sort_strings_NoDup (l : list string) : NoDup l -> NoDup (sort_strings l).
Proof.
  induction 1 as [|s l Hs Hl IH]; [constructor|].
  cbn [sort_strings fold_right]. apply insert_sorted_NoDup; [|exact IH].
  fold (sort_strings l). now rewrite sort_strings_In.
Qed.

Lemma sorted_prefixes_NoDup (names : list string) : NoDup (sorted_prefixes names).
Proof. apply sort_strings_NoDup, dedup_NoDup. Qed.

Lemma sorted_prefixes_In (names : list string) (prefix : string) :
  In (prefix ++ "_Obj1")%string names -> In prefix (sorted_prefixes names).
Proof.
  intro H. unfold sorted_prefixes. rewrite sort_strings_In, dedup_In.
  apply in_map_iff. exists (prefix ++ "_Obj1")%string. split.
  - now apply drop_last5_append.
  - apply filter_In. split; [exact H|]. now rewrite endswith_append.
Qed.

Lemma auto_main_out (excel_file : list (string * DataFrame)) :
  let out := flat_map (auto_sheet excel_file) (sorted_prefixes (map fst excel_file)) in
  auto_main excel_file = match out with [] => [default_sheet] | _ => out end.
Proof. reflexivity. Qed.

Lemma auto_sheet_names (excel_file : list (string * DataFrame)) (prefixes : list string) :
  forall name, In name (map fst (flat_map (auto_sheet excel_file) prefixes)) ->
               In name prefixes.
Proof.
  induction prefixes as [|p prefixes IH]; intros name H; [destruct H|].
  cbn [flat_map] in H. rewrite map_app in H. apply in_app_or in H.
  destruct H as [H|H]; [left | right; now apply IH].
  unfold auto_sheet in H. destruct (auto_combine excel_file p) as [c|]; [|destruct H].
  destruct (negb (df_empty c)); [|destruct H].
  destruct H as [H|[]]. exact H.
Qed.

Lemma auto_sheets_NoDup (excel_file : list (string * DataFrame)) (prefixes : list string) :
  NoDup prefixes -> NoDup (map fst (flat_map (auto_sheet excel_file) prefixes)).
Proof.
  induction 1 as [|p prefixes Hp Hnd IH]; [constructor|].
  cbn [flat_map]. rewrite map_app.
  unfold auto_sheet at 1. destruct (auto_combine excel_file p) as [c|]; [|exact IH].
  destruct (negb (df_empty c)); [|exact IH].
  cbn [map fst app]. constructor; [|exact IH].
  intro H. apply Hp. now apply (auto_sheet_names excel_file).
Qed.

Lemma auto_sheet_pair (excel_file : list (string * DataFrame)) (prefix name : string)
      (sheet : written_sheet) :
  In (name, sheet) (auto_sheet excel_file prefix) ->
  name = prefix
  /\ exists obj1_data obj2_data,
       dict_get excel_file (prefix ++ "_Obj1")%string = Ok obj1_data
       /\ dict_get excel_file (prefix ++ "_Obj2")%string = Ok obj2_data
       /\ sheet = columns (if df_empty obj1_data then obj2_data
                           else if df_empty obj2_data then obj1_data
                                else concat_axis1 obj1_data obj2_data)
       /\ df_empty obj1_data && df_empty obj2_data = false.
Proof.
  unfold auto_sheet, auto_combine.
  destruct (dict_get excel_file (prefix ++ "_Obj1")) as [d1|]; [|intros []].
  destruct (dict_get excel_file (prefix ++ "_Obj2")) as [d2|]; [|intros []].
  destruct (df_empty d1) eqn:E1, (df_empty d2) eqn:E2; cbn [negb andb];
    try (intros []).
  - rewrite E2. cbn [negb]. intros [H|[]]. injection H as <- <-.
    split; [reflexivity|]. exists d1, d2. rewrite E1. auto.
  - rewrite E1. cbn [negb]. intros [H|[]]. injection H as <- <-.
    split; [reflexivity|]. exists d1, d2. rewrite E1, E2. auto.
  - destruct (negb (df_empty (concat_axis1 d1 d2))); [|intros []].
    intros [H|[]]. injection H as <- <-.
    split; [reflexivity|]. exists d1, d2. rewrite E1, E2. auto.
Qed.

Lemma concat_not_empty (a b : DataFrame) :
  df_empty a = false -> df_empty (concat_axis1 a b) = false.
Proof.
  unfold df_empty, nrows, ncols, concat_axis1. cbn [index columns].
  intro H. apply orb_false_iff in H. destruct H as [H1 H2].
  apply Nat.eqb_neq in H1. apply Nat.eqb_neq in H2.
  rewrite !length_app, !length_map.
  apply orb_false_iff. split; apply Nat.eqb_neq; lia.
Qed.

Lemma flat_map_In_sheet (excel_file : list (string * DataFrame))
      (prefixes : list string) (prefix : string) (entry : string * written_sheet) :
  In prefix prefixes -> In entry (auto_sheet excel_file prefix) ->
  In entry (flat_map (auto_sheet excel_file) prefixes).
Proof. intros Hp He. apply in_flat_map. now exists prefix. Qed.

End AutoMerger.



(** ** A merged table given back to the extraction *)

Section MergeThenExtract.

Lemma plain_headers_no_filler (df : DataFrame) :
  plain_headers df = true -> no_filler_name df = true.
Proof.
  unfold plain_headers, no_filler_name. intro H.
  apply forallb_forall. intros name Hname. apply negb_true_iff.
  destruct (existsb (label_eqb (LStr name)) (labels df)) eqn:E; [|reflexivity].
  exfalso. apply existsb_exists in E. destruct E as [l [Hl E]].
  destruct l as [s|z|]; try discriminate. cbn [label_eqb] in E.
  apply String.eqb_eq in E. subst s.
  rewrite forallb_forall in H. specialize (H _ Hl).
  unfold filler_names in Hname. cbn [In] in Hname.
  destruct Hname as [<-|[<-|[<-|[<-|[]]]]]; discriminate H.
Qed.

Lemma first_empty_col_app (l1 l2 : list label) (c : label) :
  forallb (fun l => negb (is_empty_col l)) l1 = true ->
  is_empty_col c = true ->
  forall i, first_empty_col_from i (l1 ++ c :: l2) = Some (i + List.length l1)%nat.
Proof.
  intros H1 Hc. induction l1 as [|l l1 IH]; intro i; cbn [app first_empty_col_from].
  - rewrite Hc. cbn [List.length]. f_equal. lia.
  - cbn [forallb] in H1. apply andb_true_iff in H1. destruct H1 as [Hl H1].
    apply negb_true_iff in Hl. rewrite Hl, (IH H1). cbn [List.length]. f_equal. lia.
Qed.

Lemma combined_columns (g1 g2 : DataFrame) :
  no_filler_name g1 = true ->
  let m := Nat.max (nrows g1) (nrows g2) in
  columns (concat_axis1 (reset_index (add_empty_columns g1)) (reset_index g2))
  = map (realign (nrows g1) m) (columns g1)
    ++ map (fun name => (LStr name, filler_values (nrows g1) m)) filler_names
    ++ map (realign (nrows g2) m) (columns g2).
Proof.
  intros Hfresh m.
  rewrite concat_reset, (add_empty_columns_fresh g1 Hfresh).
  cbn [columns]. unfold nrows at 1 2 3. cbn [index]. fold (nrows g1). fold m.
  rewrite map_app, map_map, <- app_assoc. f_equal. f_equal.
  apply map_ext. intro name. unfold realign. cbn [fst snd].
  now rewrite realign_filler.
Qed.

Lemma map_beyond (f : nat -> value) (b : nat) :
  forall k a, (b <= a)%nat ->
              map (fun r => if (r <? b)%nat then f r else NaN) (seq a k) = repeat NaN k.
Proof.
  induction k as [|k IH]; intros a H; [reflexivity|].
  cbn [seq map repeat].
  assert (E : (a <? b)%nat = false) by (apply Nat.ltb_ge; lia).
  rewrite E. f_equal. apply IH. lia.
Qed.

Lemma realign_from (s : Series) (k : nat) :
  forall a,
    map (fun r => if (r <? a + List.length s)%nat then nth (r - a) s NaN else NaN)
        (seq a (List.length s + k))
    = s ++ repeat NaN k.
Proof.
  induction s as [|v s IH]; intro a; cbn [List.length].
  - cbn [app Nat.add]. apply (map_beyond (fun r => nth (r - a) [] NaN)). lia.
  - cbn [Nat.add seq map app].
    assert (E : (a <? a + S (List.length s))%nat = true) by (apply Nat.ltb_lt; lia).
    rewrite E, Nat.sub_diag. cbn [nth]. f_equal.
    rewrite <- (IH (S a)). apply map_ext_in. intros r Hr.
    apply in_seq in Hr.
    replace (a + S (List.length s))%nat with (S a + List.length s)%nat by lia.
    destruct (r <? S a + List.length s)%nat; [|reflexivity].
    replace (r - a)%nat with (S (r - S a)) by lia. reflexivity.
Qed.

Lemma realign_values_padding (n m : nat) (s : Series) :
  List.length s = n -> (n <= m)%nat ->
  realign_values n m s = s ++ repeat NaN (m - n).
Proof.
  intros Hn Hm. unfold realign_values. subst n.
  rewrite <- (realign_from s (m - List.length s) 0).
  replace (List.length s + (m - List.length s))%nat with m by lia.
  apply map_ext. intro r. cbn [Nat.add]. now rewrite Nat.sub_0_r.
Qed.

Lemma dropna_padding (s : Series) (k : nat) : dropna (s ++ repeat NaN k) = dropna s.
Proof.
  unfold dropna. rewrite filter_app.
  assert (E : filter notna (repeat NaN k) = []).
  { induction k as [|k IH]; [reflexivity|]. exact IH. }
  rewrite E. apply app_nil_r.
Qed.

Lemma dropna_realign (n m : nat) (s : Series) :
  List.length s = n -> (n <= m)%nat -> dropna (realign_values n m s) = dropna s.
Proof.
  intros Hn Hm. rewrite (realign_values_padding n m s Hn Hm). apply dropna_padding.
Qed.

End MergeThenExtract.

(** X22. The merger and the extraction fit together.  For two groups
    with at least one column each, whose columns are as long as the
    groups have rows and where no header of the first group is itself a
    filler or blank header, the table the merger combines from them is
    detected as formatted with the split at the number of columns of the
    first group; the extraction then gives back the non-missing cells of
    the first column of each group, the padding of the shorter group
    dropped, and [process_worksheet_for_di] succeeds with the durations
    paired from these two columns. *)
Theorem X22_merge_then_extract :
  forall (g1 g2 : DataFrame) (c1 c2 : column) (rest1 rest2 : list column)
         (sheet_name : string),
    columns g1 = c1 :: rest1 ->
    columns g2 = c2 :: rest2 ->
    plain_headers g1 = true ->
    List.length (snd c1) = nrows g1 ->
    List.length (snd c2) = nrows g2 ->
    let combined :=
      concat_axis1 (reset_index (add_empty_columns g1)) (reset_index g2) in
    detectLayout combined = Formatted (ncols g1)
    /\ snd (extract_timestamps combined) = Ok (dropna (snd c1), dropna (snd c2))
    /\ snd (process_worksheet_for_di combined sheet_name)
       = Ok (summarize sheet_name
                       (pairDurations (fst (clean_timestamps (dropna (snd c1)))))
                       (pairDurations (fst (clean_timestamps (dropna (snd c2)))))).
Proof.
  intros g1 g2 c1 c2 rest1 rest2 sheet_name Hc1 Hc2 Hplain Hl1 Hl2 combined.
  pose proof (combined_columns g1 g2 (plain_headers_no_filler g1 Hplain)) as Hcols.
  cbv zeta in Hcols. fold combined in Hcols.
  set (m := Nat.max (nrows g1) (nrows g2)) in *.
  assert (Hn1 : ncols g1 = S (List.length rest1)).
  { unfold ncols. now rewrite Hc1. }
  assert (Hlabels : labels combined
                    = labels g1 ++ LStr "empty_1"
                        :: map LStr ["empty_2"; "empty_3"; "empty_4"] ++ labels g2).
  { unfold labels. rewrite Hcols, !map_app, !map_map. reflexivity. }
  assert (Hlay : detectLayout combined = Formatted (ncols g1)).
  { rewrite detectLayout_first. unfold first_empty_col. rewrite Hlabels.
    rewrite first_empty_col_app; [|exact Hplain|reflexivity].
    unfold labels, ncols. now rewrite length_map. }
  assert (Hncols : ncols combined = (ncols g1 + 4 + ncols g2)%nat).
  { unfold ncols. rewrite Hcols, !length_app, !length_map. cbn [filler_names List.length].
    lia. }
  assert (H0 : iloc_col combined 0 = Ok (realign_values (nrows g1) m (snd c1))).
  { unfold iloc_col. rewrite Hcols, Hc1. reflexivity. }
  assert (H4 : iloc_col combined (ncols g1 + 4)
               = Ok (realign_values (nrows g2) m (snd c2))).
  { unfold iloc_col. rewrite Hcols.
    rewrite nth_error_app2 by (rewrite length_map; unfold ncols; lia).
    rewrite length_map. fold (ncols g1).
    replace (ncols g1 + 4 - ncols g1)%nat with 4%nat by lia.
    rewrite Hc2. reflexivity. }
  assert (Hex : snd (extract_timestamps combined)
                = Ok (dropna (snd c1), dropna (snd c2))).
  { unfold extract_timestamps. rewrite Hlay. cbn [snd].
    rewrite iloc_col_first, iloc_col_from, Hn1, <- Hn1, H0, H4.
    assert (Hlt : (ncols g1 + 4 <? ncols combined)%nat = true).
    { apply Nat.ltb_lt. rewrite Hncols. unfold ncols at 3. rewrite Hc2.
      cbn [List.length]. lia. }
    rewrite Hlt. cbn [bind].
    rewrite (dropna_realign (nrows g1) m (snd c1) Hl1) by (unfold m; lia).
    rewrite (dropna_realign (nrows g2) m (snd c2) Hl2) by (unfold m; lia).
    reflexivity. }
  split; [exact Hlay|]. split; [exact Hex|].
  exact (process_after_extraction combined sheet_name _ _ Hex).
Qed.

Lemma X22_merge_then_extract_witness :
  let combined :=
    concat_axis1 (reset_index (add_empty_columns group_a)) (reset_index group_b) in
  detectLayout combined = Formatted (ncols group_a)
  /\ snd (extract_timestamps combined)
     = Ok (dropna [Float 1; Float 5; Float 9], dropna [Float 2])
  /\ snd (process_worksheet_for_di combined "rat1")
     = Ok (summarize "rat1"
                     (pairDurations
                        (fst (clean_timestamps (dropna [Float 1; Float 5; Float 9]))))
                     (pairDurations (fst (clean_timestamps (dropna [Float 2]))))).
Proof.
  apply (X22_merge_then_extract group_a group_b
           (LStr "start", [Float 1; Float 5; Float 9]) (LStr "start", [Float 2])
           [(LStr "object_id", [Int 1; Int 1; Int 1])]
           [(LStr "object_id", [Int 2])] "rat1"); reflexivity.
Defined.
